(** * cloudflare-agents-openai-wrapper: tools, scheduling and the calculator worker

    A shallow embedding of [src/tools.ts] and [worker.js].

    - JavaScript strings are sequences of UTF-16 code units ([JsString]).
    - JavaScript numbers are IEEE 754 binary64 values (Rocq's primitive floats).
    - JSON-like values (objects, arrays, strings, numbers, ...) are [Value].
    - A tool body is a state-and-exception computation over the state of
      everything outside it (network, bindings, scheduler): [Eff W A].
    - [console.log] / [console.error] output is not part of the model. *)

From Stdlib Require Import ZArith NArith List String Ascii Bool Lia.
From Stdlib Require Import Floats.PrimFloat Floats.FloatOps Floats.SpecFloat.
Import ListNotations.

Set Implicit Arguments.
#[local] Set Warnings "-register-all".

(* ================================================================== *)
(** * JavaScript data *)

Module Js.

(** ** Strings: lists of UTF-16 code units *)

Definition CodeUnit := N.
Definition JsString := list CodeUnit.

(** An ASCII literal as a JavaScript string. *)
Fixpoint lit (s : string) : JsString :=
  match s with
  | EmptyString => []
  | String c r => N_of_ascii c :: lit r
  end.

(** The double quote character, U+0022. *)
Definition dquote : JsString := [34%N].

Fixpoint str_eqb (a b : JsString) : bool :=
  match a, b with
  | [], [] => true
  | x :: a', y :: b' => N.eqb x y && str_eqb a' b'
  | _, _ => false
  end.

(** [s.length] *)
Definition length (s : JsString) : nat := List.length s.

(** ECMAScript WhiteSpace and LineTerminator code points, the ones
    [String.prototype.trim] strips. *)
Definition isWhiteSpace (c : CodeUnit) : bool :=
  ((9 <=? c) && (c <=? 13) (* TAB, LF, VT, FF, CR *)
   || (c =? 32)            (* SPACE *)
   || (c =? 160)           (* NO-BREAK SPACE *)
   || (c =? 5760)          (* OGHAM SPACE MARK *)
   || (8192 <=? c) && (c <=? 8202) (* EN QUAD .. HAIR SPACE *)
   || (c =? 8232) || (c =? 8233)   (* LINE / PARAGRAPH SEPARATOR *)
   || (c =? 8239) || (c =? 8287) || (c =? 12288)
   || (c =? 65279)         (* ZERO WIDTH NO-BREAK SPACE *))%N.

Fixpoint trimStart (s : JsString) : JsString :=
  match s with
  | [] => []
  | c :: r => if isWhiteSpace c then trimStart r else s
  end.

Definition trimEnd (s : JsString) : JsString := rev (trimStart (rev s)).

(** [s.trim()] *)
Definition trim (s : JsString) : JsString := trimEnd (trimStart s).

Fixpoint isPrefix (p s : JsString) : bool :=
  match p, s with
  | [], _ => true
  | x :: p', y :: s' => N.eqb x y && isPrefix p' s'
  | _ :: _, [] => false
  end.

(** [s.startsWith(search)] and [s.endsWith(search)] at their default positions. *)
Definition startsWith (s search : JsString) : bool := isPrefix search s.
Definition endsWith (s search : JsString) : bool := isPrefix (rev search) (rev s).

(** ** Numbers *)

Definition Number := float.

(** The global [isNaN] on a number. *)
Definition isNaN (x : Number) : bool := PrimFloat.is_nan x.

(** [x === y] on numbers: IEEE equality ([-0 === 0], [NaN !== NaN]). *)
Definition num_eq (x y : Number) : bool := PrimFloat.eqb x y.

(** ** Error objects and abrupt completion *)

Record JsError := MkError { name : JsString; message : JsString }.

(** [new Error(msg)] *)
Definition Error (msg : JsString) : JsError := MkError (lit "Error") msg.

(** [Error.prototype.toString], which is what a template literal applies
    to an interpolated error object. *)
Definition errorToString (e : JsError) : JsString :=
  match name e, message e with
  | [], m => m
  | n, [] => n
  | n, m => n ++ lit ": " ++ m
  end.

Inductive Outcome (A : Type) : Type :=
| Returned (a : A)
| Thrown (e : JsError).
Arguments Returned {A} a.
Arguments Thrown {A} e.

(** ** JSON-like values *)

Inductive Value : Type :=
| VUndefined
| VNull
| VBool (b : bool)
| VNum (x : Number)
| VStr (s : JsString)
| VArr (items : list Value)
| VObj (props : list (JsString * Value)).

(** ToBoolean *)
Definition truthy (v : Value) : bool :=
  match v with
  | VUndefined | VNull => false
  | VBool b => b
  | VNum x => negb (num_eq x 0%float || isNaN x)
  | VStr s => match s with [] => false | _ => true end
  | VArr _ | VObj _ => true
  end.

(** Property lists: the own properties of an object in insertion order,
    each key once. *)
Fixpoint assoc {A : Type} (k : JsString) (props : list (JsString * A)) : option A :=
  match props with
  | [] => None
  | (k', v) :: r => if str_eqb k k' then Some v else assoc k r
  end.

(** Assignment [o.k = v] on a property list: an existing property keeps
    its place, a new one is appended. *)
Fixpoint assign {A : Type} (k : JsString) (v : A) (props : list (JsString * A))
  : list (JsString * A) :=
  match props with
  | [] => [(k, v)]
  | (k', v') :: r => if str_eqb k k' then (k, v) :: r else (k', v') :: assign k v r
  end.

(** Object spread [{ ...a, ...b }]. *)
Definition spread {A : Type} (a b : list (JsString * A)) : list (JsString * A) :=
  fold_left (fun acc kv => assign (fst kv) (snd kv) acc) b a.

(** Decimal digits of a natural number, as [String(n)] prints an integer. *)
Fixpoint decimalFuel (fuel : nat) (n : N) (acc : JsString) : JsString :=
  match fuel with
  | O => acc
  | S f =>
    let acc' := (48 + n mod 10)%N :: acc in
    if (n <? 10)%N then acc' else decimalFuel f (n / 10)%N acc'
  end.
Definition decimal (n : N) : JsString := decimalFuel (S (N.to_nat (N.log2 n))) n [].

(** [s.substring(from, to)] for [from <= to]. *)
Definition substring (s : JsString) (from to : nat) : JsString :=
  firstn (to - from) (skipn from s).

End Js.

Import Js.

(* ================================================================== *)
(** * worker.js: the calculator worker *)

Module Worker.

(** The request as [new URL(request.url)] presents it. *)
Record Request := {
  pathname : JsString;
  searchParams : list (JsString * JsString)
}.

Record Response := {
  status : Z;
  body : JsString;
  headers : list (JsString * JsString)
}.

(** [new Response(body, { status })] *)
Definition plain (b : JsString) (st : Z) : Response :=
  {| status := st; body := b; headers := [] |}.

Inductive ArithOp := OpAdd | OpSub | OpMul | OpDiv.

(** What one call of the handler does: the arithmetic it evaluates, in
    order, and the response it returns. *)
Record Served := {
  evaluated : list (ArithOp * Number * Number);
  response : Response
}.

(** [url.searchParams.get(name)]: the first value, or [null]. *)
Fixpoint get (name : JsString) (ps : list (JsString * JsString)) : option JsString :=
  match ps with
  | [] => None
  | (k, v) :: r => if str_eqb k name then Some v else get name r
  end.

Section Handler.

(** Builtins of the host. *)
Variable parseFloat : JsString -> Number.
Variable JSON_stringify : Value -> JsString.

(** [parseFloat(x)] where [x] may be [null]: the argument is converted
    with ToString first, and [null] reads as the string [null]. *)
Definition parseFloatOf (x : option JsString) : Number :=
  match x with
  | Some s => parseFloat s
  | None => parseFloat (lit "null")
  end.

Definition json (result : Number) : Response :=
  {| status := 200;
     body := JSON_stringify (VObj [(lit "result", VNum result)]);
     headers := [(lit "Content-Type", lit "application/json")] |}.

Definition fetch (request : Request) : Served :=
  if negb (str_eqb (pathname request) (lit "/calc")) then
    {| evaluated := []; response := plain (lit "Not Found") 404 |}
  else
    let op := get (lit "op") (searchParams request) in
    let a := parseFloatOf (get (lit "a") (searchParams request)) in
    let b := parseFloatOf (get (lit "b") (searchParams request)) in
    if isNaN a || isNaN b then
      {| evaluated := []; response := plain (lit "Invalid numbers") 400 |}
    else
      let invalid :=
        {| evaluated := []; response := plain (lit "Invalid operation") 400 |} in
      match op with
      | None => invalid
      | Some o =>
        if str_eqb o (lit "add") then
          {| evaluated := [(OpAdd, a, b)]; response := json (a + b)%float |}
        else if str_eqb o (lit "sub") then
          {| evaluated := [(OpSub, a, b)]; response := json (a - b)%float |}
        else if str_eqb o (lit "mul") then
          {| evaluated := [(OpMul, a, b)]; response := json (a * b)%float |}
        else if str_eqb o (lit "div") then
          if num_eq b 0%float then
            {| evaluated := []; response := plain (lit "Cannot divide by zero") 400 |}
          else
            {| evaluated := [(OpDiv, a, b)]; response := json (a / b)%float |}
        else invalid
      end.

End Handler.

End Worker.

(* ================================================================== *)
(** * Effects of a tool body *)

Module Effect.

(** A computation over the state [W] of the world outside the tool body.
    It ends by returning a value or by throwing. *)
Definition Eff (W A : Type) : Type := W -> Outcome A * W.

Definition ret {W A} (a : A) : Eff W A := fun w => (Returned a, w).

Definition throw {W A} (e : JsError) : Eff W A := fun w => (Thrown e, w).

Definition bind {W A B} (m : Eff W A) (k : A -> Eff W B) : Eff W B :=
  fun w =>
    match m w with
    | (Returned a, w') => k a w'
    | (Thrown e, w') => (Thrown e, w')
    end.

(** [try { body } catch (error) { handler }] *)
Definition try_catch {W A} (body : Eff W A) (handler : JsError -> Eff W A) : Eff W A :=
  fun w =>
    match body w with
    | (Returned a, w') => (Returned a, w')
    | (Thrown e, w') => handler e w'
    end.

(** A value computed without touching the world, which may still throw. *)
Definition lift {W A} (o : Outcome A) : Eff W A := fun w => (o, w).

End Effect.

Import Effect.

Notation "'let*' x ':=' m 'in' k" := (bind m (fun x => k))
  (at level 10, x name, m at level 100, k at level 200).
Notation "m ';;' k" := (bind m (fun _ => k))
  (at level 100, k at level 200, right associativity).

(* ================================================================== *)
(** * src/tools.ts *)

Module Tools.

(** ** What the tool bodies reach outside themselves *)

(** The second argument of [fetch]. *)
Record RequestInit := {
  method : JsString;
  headers : list (JsString * JsString);
  body : option JsString;
  redirect : option JsString
}.

(** A [Response] of the Fetch API, with what reading its body gives. *)
Record HttpResponse := {
  ok : bool;
  status : N;
  statusText : JsString;
  text : Outcome JsString;
  json : Outcome Value
}.

(** A [Date]: its time value, milliseconds since the epoch. *)
Record Date := { getTime : Number }.

(** The first argument of [agent.schedule]. *)
Inductive ScheduleInput :=
| OnDate (d : Date)
| AfterSeconds (x : Number)
| OnCron (s : JsString)
| NoInput (* undefined *).

Section Program.

Variable W : Type.

(** The bindings of [agent.env] ([interface Env]). *)
Record Env := {
  AI_autorag_aiSearch : JsString -> Value -> Eff W Value;
  AI_run : JsString -> Value -> Value -> Eff W Value;
  PUBLIC_BUCKET_put : JsString -> list N -> Value -> Eff W Value;
  doWorker_fetch : JsString -> RequestInit -> Eff W HttpResponse;
  graphqlWorker_fetch : JsString -> RequestInit -> Eff W HttpResponse
}.

(** The agent that [agentContext.getStore()] returns. [schedule] is
    called without [await]: only an exception thrown by the call itself
    is seen by the caller, and the value of the call is dropped. *)
Record Agent := {
  schedule : ScheduleInput -> JsString -> JsString -> Eff W Value;
  env : Env
}.

(** Globals and builtins of the host. *)
Record Host := {
  fetch : JsString -> RequestInit -> Eff W HttpResponse;
  process_env : JsString -> option JsString;
  JSON_stringify : Value -> JsString;
  JSON_stringify_indent2 : Value -> JsString;  (* JSON.stringify(v, null, 2) *)
  JSON_parse : JsString -> Outcome Value;
  Date_now : Eff W N;
  Math_random_toString36 : Eff W JsString;     (* Math.random().toString(36) *)
  atob : JsString -> Outcome JsString;
  Number_toString : Number -> JsString;
  Date_toString : Date -> JsString;
  (* the rule.replace(...) call that escapes the quotes inside a value *)
  escapeInnerQuotes : JsString -> JsString
}.

Variable host : Host.

(** [agentContext.getStore()]: the agent bound to the running call, if any. *)
Variable store : option Agent.

(** [process.env.NAME || fallback] *)
Definition env_or (name fallback : JsString) : JsString :=
  match process_env host name with
  | Some ((_ :: _) as v) => v
  | _ => fallback
  end.

Definition CLOUDFLARE_ZONE_ID : JsString :=
  env_or (lit "CLOUDFLARE_ZONE_ID") (lit "a37b5b3eca17274d2ca0cbc97a950636").
Definition CLOUDFLARE_RULESET_ID : JsString :=
  env_or (lit "CLOUDFLARE_RULESET_ID") (lit "f252f8e1e67e42db970584d5e67b9c59").

(** [{ type: "text", text }] *)
Definition textItem (t : Value) : Value :=
  VObj [(lit "type", VStr (lit "text")); (lit "text", t)].

(** [{ content: [{ type: "text", text }] }] *)
Definition content (t : JsString) : Value :=
  VObj [(lit "content", VArr [textItem (VStr t)])].

Definition TypeError (msg : JsString) : JsError := MkError (lit "TypeError") msg.

(** [v.key] for the keys the tools read ([response], [image], [errors]),
    none of which is a property of a string, number, boolean or array. *)
Definition prop (v : Value) (key : JsString) : Outcome Value :=
  match v with
  | VUndefined =>
    Thrown (TypeError (lit "Cannot read properties of undefined (reading '" ++ key ++ lit "')"))
  | VNull =>
    Thrown (TypeError (lit "Cannot read properties of null (reading '" ++ key ++ lit "')"))
  | VObj props => Returned (match assoc key props with Some x => x | None => VUndefined end)
  | _ => Returned VUndefined
  end.

(** [v?.key] *)
Definition optProp (v : Value) (key : JsString) : Value :=
  match v with
  | VObj props => match assoc key props with Some x => x | None => VUndefined end
  | _ => VUndefined
  end.

(** *** sendWebhook *)

Definition sendWebhook (message : JsString) : Eff W Value :=
  let hookurl := env_or (lit "GOOGLE_CHAT_WEBHOOK_URL") [] in
  try_catch
    (let payload := JSON_stringify host (VObj [(lit "text", VStr message)]) in
     let* response :=
       fetch host hookurl
         {| method := lit "POST";
            headers := [(lit "Content-Type", lit "application/json; charset=UTF-8")];
            body := Some payload;
            redirect := None |} in
     let* responseText := lift (text response) in
     if negb (ok response) then
       throw (Error (lit "HTTP error! status: " ++ decimal (status response)
                     ++ lit ", body: " ++ responseText))
     else
       ret (content (lit "Message successfully sent to the webhook.")))
    (fun error =>
       ret (content (lit "Failed to send message to the webhook. Error: "
                     ++ errorToString error))).

(** *** searchDocs *)

Definition searchDocs (message : JsString) : Eff W Value :=
  try_catch
    (match store with
     | None => throw (Error (lit "No agent found"))
     | Some agent =>
       let* response :=
         AI_autorag_aiSearch (env agent) (lit "dark-wind-fbc8")
           (VObj [(lit "query", VStr message);
                  (lit "rewrite_query", VBool true);
                  (lit "max_num_results", VNum 3%float);
                  (lit "ranking_options",
                   VObj [(lit "score_threshold", VNum 0x1.3333333333333p-2%float (* 0.3 *))])]) in
       if negb (truthy (optProp response (lit "response"))) then
         throw (Error (lit "No response from AutoRAG"))
       else
         let* r := lift (prop response (lit "response")) in
         ret (VObj [(lit "content", VArr [textItem r])])
     end)
    (fun error =>
       ret (content (lit "Failed to search Cloudflare documentation. Error: "
                     ++ errorToString error))).

(** *** scheduleTask *)

(** The [when] of [unstable_scheduleSchema], as the body reads it. *)
Record When := {
  type : JsString;
  date : option Date;
  delayInSeconds : option Number;
  cron : option JsString
}.

Record ScheduleArgs := { when : When; description : JsString }.

Definition throwError {A} (msg : JsString) : Eff W A := throw (Error msg).

(** [`${input}`] *)
Definition inputToString (input : ScheduleInput) : JsString :=
  match input with
  | OnDate d => Date_toString host d
  | AfterSeconds x => Number_toString host x
  | OnCron s => s
  | NoInput => lit "undefined"
  end.

(** [const input = when.type === "scheduled" ? when.date : ...]; a
    property the schema left out reads as [undefined]. *)
Definition inputOf (when : When) : Eff W ScheduleInput :=
  if str_eqb (type when) (lit "scheduled") then
    ret (match date when with Some d => OnDate d | None => NoInput end)
  else if str_eqb (type when) (lit "delayed") then
    ret (match delayInSeconds when with Some x => AfterSeconds x | None => NoInput end)
  else if str_eqb (type when) (lit "cron") then
    ret (match cron when with Some s => OnCron s | None => NoInput end)
  else throwError (lit "not a valid schedule input").

Definition scheduleTask (args : ScheduleArgs) : Eff W Value :=
  let when := when args in
  match store with
  | None => throw (Error (lit "No agent found"))
  | Some agent =>
    if str_eqb (type when) (lit "no-schedule") then
      ret (VStr (lit "Not a valid schedule input"))
    else
      let* input := inputOf when in
      try_catch
        (schedule agent input (lit "executeTask") (description args) ;;
         ret (VStr (lit "Task scheduled for type " ++ dquote ++ type when ++ dquote
                    ++ lit " : " ++ inputToString input)))
        (fun error =>
           ret (VStr (lit "Error scheduling task: " ++ errorToString error)))
  end.

(** *** generateImage *)

Record GenerateImageArgs := { prompt : JsString; steps : Number }.

(** The log entry written on the answer of [AI.run] reads
    [response.image.length] and calls [response.image.substring(0, 50)]
    when [response?.image] is truthy; the call throws on a value that is
    not a string. *)
Definition logImage (response : Value) : Eff W unit :=
  match optProp response (lit "image") with
  | VStr _ => ret tt
  | image =>
    if truthy image then
      throw (TypeError (lit "response.image.substring is not a function"))
    else ret tt
  end.

Definition generateImage (args : GenerateImageArgs) : Eff W Value :=
  try_catch
    (match store with
     | None => throw (Error (lit "No agent found"))
     | Some agent =>
       let* response :=
         AI_run (env agent) (lit "@cf/black-forest-labs/flux-1-schnell")
           (VObj [(lit "prompt", VStr (prompt args)); (lit "steps", VNum (steps args))])
           (VObj [(lit "gateway",
                   VObj [(lit "id", VStr (lit "agents"));
                         (lit "skipCache", VBool false);
                         (lit "cacheTtl", VNum 3360%float);
                         (lit "metadata",
                          VObj [(lit "application", VStr (lit "openai-wrapper"));
                                (lit "user", VStr (lit "aj"));
                                (lit "dev", VBool true)])])]) in
       logImage response ;;
       (* if (!response?.image) throw ...; past [logImage] a truthy image is a string *)
       match optProp response (lit "image") with
       | VStr ((_ :: _) as base64Data) =>
         let* timestamp := Date_now host in
         let* random := Math_random_toString36 host in
         let randomString := substring random 2 8 in
         let filename := decimal timestamp ++ lit "-" ++ randomString ++ lit ".jpg" in
         let key := lit "ai-generated/" ++ filename in
         let* binaryString := lift (atob host base64Data) in
         let bytes := map (fun c => (c mod 256)%N) binaryString in
         PUBLIC_BUCKET_put (env agent) key bytes
           (VObj [(lit "httpMetadata",
                   VObj [(lit "contentType", VStr (lit "image/jpeg"));
                         (lit "cacheControl", VStr (lit "public, max-age=31536000"))])]) ;;
         let publicUrl := lit "https://r2.zxc.co.in/" ++ key in
         ret (textItem (VStr (lit "I have generated an image of a " ++ dquote
                              ++ prompt args ++ dquote ++ lit ". View it at: "
                              ++ publicUrl)))
       | _ => throw (Error (lit "No image generated in response"))
       end
     end)
    (fun error =>
       ret (textItem (VStr (lit "Failed to generate image. Error: "
                            ++ errorToString error)))).

(** *** callDoWorker *)

Record CallDoWorkerArgs := {
  workerName : JsString;
  cdw_method : JsString;
  cdw_body : option JsString;
  cdw_headers : option (list (JsString * JsString))
}.

Definition callDoWorker (args : CallDoWorkerArgs) : Eff W Value :=
  let method := cdw_method args in
  let headers := match cdw_headers args with Some h => h | None => [] end in
  try_catch
    (match store with
     | None => throw (Error (lit "No agent found"))
     | Some agent =>
       let sendsBody :=
         match cdw_body args with
         | Some (_ :: _) =>
           str_eqb method (lit "POST") || str_eqb method (lit "PUT")
           || str_eqb method (lit "PATCH")
         | _ => false
         end in
       let requestInit :=
         {| method := method;
            headers := spread [(lit "Content-Type", lit "application/json")] headers;
            body := if sendsBody then cdw_body args else None;
            redirect := None |} in
       let* response :=
         doWorker_fetch (env agent)
           (lit "https://" ++ workerName args ++ lit ".workers.dev") requestInit in
       let* responseText := lift (text response) in
       ret (content (lit "Worker response (" ++ decimal (status response) ++ lit "): "
                     ++ responseText))
     end)
    (fun error =>
       ret (content (lit "Failed to call worker. Error: " ++ errorToString error))).

(** *** callgraphqlWorker *)

Definition nl : JsString := [10%N].

Definition totalUserAgentQuery : JsString :=
  nl ++ lit "        query {"
  ++ nl ++ lit "          totalUserAgent {"
  ++ nl ++ lit "            count"
  ++ nl ++ lit "            timestamp"
  ++ nl ++ lit "          }"
  ++ nl ++ lit "        }"
  ++ nl ++ lit "      ".

Definition callgraphqlWorker (query : option JsString) : Eff W Value :=
  try_catch
    (match store with
     | None => throw (Error (lit "No agent found"))
     | Some agent =>
       let defaultQuery :=
         match query with
         | Some ((_ :: _) as q) => q
         | _ => totalUserAgentQuery
         end in
       let* response :=
         graphqlWorker_fetch (env agent) (lit "https://graphql-worker.workers.dev/graphql")
           {| method := lit "POST";
              headers := [(lit "Content-Type", lit "application/json")];
              body := Some (JSON_stringify host (VObj [(lit "query", VStr defaultQuery)]));
              redirect := None |} in
       let* responseData := lift (json response) in
       ret (content (lit "GraphQL Worker response: "
                     ++ JSON_stringify_indent2 host responseData))
     end)
    (fun error =>
       ret (content (lit "Failed to call GraphQL worker. Error: "
                     ++ errorToString error))).

(** *** addCloudflareCustomRule *)

(** A statement of the body either falls through with the current
    [rule] or returns from the tool. *)
Inductive Step :=
| Continue (rule : Value)
| Return (result : Value).

(** [if (typeof rule === "string") { try { rule = JSON.parse(rule) } ... }]:
    a second parse after [escapeInnerQuotes] when the first one throws.
    The branch that returns [could not parse string as JSON.] is behind a
    test that cannot fail there ([rule] is still the string). *)
Definition parseRuleString (rule : Value) : Step :=
  match rule with
  | VStr s =>
    match JSON_parse host s with
    | Returned r => Continue r
    | Thrown _ =>
      match JSON_parse host (escapeInnerQuotes host s) with
      | Returned r => Continue r
      | Thrown _ =>
        Return (VStr (lit "Invalid rule format: could not parse string as JSON, even after attempting to fix escaping."))
      end
    end
  | _ => Continue rule
  end.

(** Unwrap [{ type: "object", value: ... }]. *)
Definition unwrapRule (rule : Value) : Value :=
  match rule with
  | VObj props =>
    match assoc (lit "type") props, assoc (lit "value") props with
    | Some (VStr t), Some v => if str_eqb t (lit "object") then v else rule
    | _, _ => rule
    end
  | _ => rule
  end.

(** The text that [rule.expression] holds after
    [let expr = rule.expression.trim();
     if (!(expr.startsWith("(") && expr.endsWith(")"))) rule.expression = `(${expr})`] *)
Definition wrapExpression (expression : JsString) : JsString :=
  let expr := trim expression in
  if negb (startsWith expr (lit "(") && endsWith expr (lit ")"))
  then lit "(" ++ expr ++ lit ")"
  else expression.

(** [if (rule && typeof rule === "object" && "expression" in rule) ...];
    [rule.expression.trim()] throws when the property is not a string. *)
Definition ensureParentheses (rule : Value) : Outcome Value :=
  match rule with
  | VObj props =>
    match assoc (lit "expression") props with
    | None => Returned rule
    | Some (VStr expression) =>
      Returned (VObj (assign (lit "expression") (VStr (wrapExpression expression)) props))
    | Some VUndefined =>
      Thrown (TypeError (lit "Cannot read properties of undefined (reading 'trim')"))
    | Some VNull =>
      Thrown (TypeError (lit "Cannot read properties of null (reading 'trim')"))
    | Some _ => Thrown (TypeError (lit "rule.expression.trim is not a function"))
    end
  | _ => Returned rule
  end.

(** From the token check to the end of the body. *)
Definition postRule (rule : Value) : Eff W Value :=
  match process_env host (lit "CLOUDFLARE_API_TOKEN") with
  | Some ((_ :: _) as apiToken) =>
    let url := lit "https://api.cloudflare.com/client/v4/zones/" ++ CLOUDFLARE_ZONE_ID
               ++ lit "/rulesets/" ++ CLOUDFLARE_RULESET_ID ++ lit "/rules" in
    let headers := [(lit "Content-Type", lit "application/json");
                    (lit "Authorization", lit "Bearer " ++ apiToken)] in
    let body := JSON_stringify host rule in
    try_catch
      (let* response :=
         fetch host url
           {| method := lit "POST"; headers := headers; body := Some body;
              redirect := Some (lit "follow") |} in
       let* data := lift (json response) in
       if negb (ok response) then
         let* errors := lift (prop data (lit "errors")) in
         ret (VStr (lit "Error from Cloudflare API: "
                    ++ (if truthy errors then JSON_stringify host errors
                        else statusText response)))
       else ret data)
      (fun error =>
         ret (VStr (lit "Error adding Cloudflare custom rule: " ++ errorToString error)))
  | _ => ret (VStr (lit "CLOUDFLARE_API_TOKEN is not set in environment variables."))
  end.

Definition addCloudflareCustomRule (rule : Value) : Eff W Value :=
  match parseRuleString rule with
  | Return result => ret result
  | Continue parsed =>
    let* rule' := lift (ensureParentheses (unwrapRule parsed)) in
    postRule rule'
  end.

End Program.

(** ** Input schemas

    The zod combinators the tool definitions use. A schema reads a value
    ([VUndefined] for an absent property) and gives the parsed arguments
    or the issues found. *)

Inductive IssueCode :=
| invalid_type | too_small | too_big | invalid_union | invalid_literal.

Record Issue := { code : IssueCode; path : list JsString }.

Inductive Validation (A : Type) : Type :=
| Valid (a : A)
| Invalid (issues : list Issue).
Arguments Valid {A} a.
Arguments Invalid {A} issues.

Definition Schema (A : Type) : Type := Value -> Validation A.

Definition issue (c : IssueCode) : Issue := {| code := c; path := [] |}.

Definition vmap {A B} (f : A -> B) (v : Validation A) : Validation B :=
  match v with
  | Valid a => Valid (f a)
  | Invalid i => Invalid i
  end.

(** Both parts are parsed and the issues of both are reported. *)
Definition vpair {A B} (a : Validation A) (b : Validation B) : Validation (A * B) :=
  match a, b with
  | Valid x, Valid y => Valid (x, y)
  | Valid _, Invalid j => Invalid j
  | Invalid i, Valid _ => Invalid i
  | Invalid i, Invalid j => Invalid (i ++ j)
  end.

(** The property [key] of the object being parsed, parsed by [s]. *)
Definition field {A} (props : list (JsString * Value)) (key : JsString) (s : Schema A)
  : Validation A :=
  match s (match assoc key props with Some v => v | None => VUndefined end) with
  | Valid a => Valid a
  | Invalid found =>
    Invalid (map (fun i => {| code := code i; path := key :: path i |}) found)
  end.

(** [z.object({ ... })]: the value must be an object that is neither
    [null] nor an array; unknown keys are dropped. *)
Definition z_object {A} (shape : list (JsString * Value) -> Validation A) : Schema A :=
  fun v =>
    match v with
    | VObj props => shape props
    | _ => Invalid [issue invalid_type]
    end.

(** [z.string()] with its checks, each of which reports on its own. *)
Definition z_string_checked (checks : list (JsString -> option IssueCode)) : Schema JsString :=
  fun v =>
    match v with
    | VStr s =>
      match flat_map (fun c => match c s with Some i => [issue i] | None => [] end) checks with
      | [] => Valid s
      | found => Invalid found
      end
    | _ => Invalid [issue invalid_type]
    end.

Definition z_string : Schema JsString := z_string_checked [].

(** [.min(n)] and [.max(n)] on a string compare [s.length]. *)
Definition min_length (n : N) (s : JsString) : option IssueCode :=
  if (N.of_nat (Js.length s) <? n)%N then Some too_small else None.
Definition max_length (n : N) (s : JsString) : option IssueCode :=
  if (n <? N.of_nat (Js.length s))%N then Some too_big else None.

(** [z.number()] with its checks; [NaN] is not a number to zod. *)
Definition z_number_checked (checks : list (Number -> option IssueCode)) : Schema Number :=
  fun v =>
    match v with
    | VNum x =>
      if isNaN x then Invalid [issue invalid_type]
      else
        match flat_map (fun c => match c x with Some i => [issue i] | None => [] end) checks with
        | [] => Valid x
        | found => Invalid found
        end
    | _ => Invalid [issue invalid_type]
    end.

(** [.min(n)] and [.max(n)] on a number are inclusive bounds. *)
Definition min_value (n : Number) (x : Number) : option IssueCode :=
  if (x <? n)%float then Some too_small else None.
Definition max_value (n : Number) (x : Number) : option IssueCode :=
  if (n <? x)%float then Some too_big else None.

Definition z_boolean : Schema bool :=
  fun v => match v with VBool b => Valid b | _ => Invalid [issue invalid_type] end.

(** [.optional()] *)
Definition z_optional {A} (s : Schema A) : Schema (option A) :=
  fun v => match v with VUndefined => Valid None | _ => vmap Some (s v) end.

(** [.optional().default(d)], for a default [d] that the inner schema accepts. *)
Definition z_default {A} (s : Schema (option A)) (d : A) : Schema A :=
  fun v =>
    match v with
    | VUndefined => Valid d
    | _ => vmap (fun o => match o with Some a => a | None => d end) (s v)
    end.

(** [z.record(z.string())] *)
Fixpoint stringValues (props : list (JsString * Value)) : Validation (list (JsString * JsString)) :=
  match props with
  | [] => Valid []
  | (k, v) :: r =>
    vmap (fun p => (k, fst p) :: snd p) (vpair (field [(k, v)] k z_string) (stringValues r))
  end.
Definition z_record_string : Schema (list (JsString * JsString)) := z_object stringValues.

(** [z.literal(l)] for a string [l] *)
Definition z_literal (l : JsString) : Schema JsString :=
  fun v =>
    match v with
    | VStr s => if str_eqb s l then Valid s else Invalid [issue invalid_literal]
    | _ => Invalid [issue invalid_literal]
    end.

(** [z.union([...])]: the first option that accepts the value. *)
Fixpoint z_union {A} (options : list (Schema A)) : Schema A :=
  fun v =>
    match options with
    | [] => Invalid [issue invalid_union]
    | s :: r => match s v with Valid a => Valid a | Invalid _ => z_union r v end
    end.

(** *** The schemas of the tools *)

Definition sendWebhook_parameters : Schema JsString :=
  z_object (fun o => field o (lit "message") z_string).

Definition getWeatherInformation_parameters : Schema JsString :=
  z_object (fun o => field o (lit "city") z_string).

Definition getLocalTime_parameters : Schema JsString :=
  z_object (fun o => field o (lit "location") z_string).

Definition searchDocs_parameters : Schema JsString :=
  z_object (fun o => field o (lit "message") z_string).

Definition generateImage_parameters : Schema GenerateImageArgs :=
  z_object (fun o =>
    vmap (fun p => {| prompt := fst p; steps := snd p |})
      (vpair
         (field o (lit "prompt") (z_string_checked [min_length 1; max_length 2048]))
         (field o (lit "steps")
            (z_default (z_optional (z_number_checked [min_value 1%float; max_value 8%float]))
               4%float)))).

Record SearchCountryArgs := { sc_name : JsString; fullName : bool }.

Definition searchCountry_parameters : Schema SearchCountryArgs :=
  z_object (fun o =>
    vmap (fun p => {| sc_name := fst p; fullName := snd p |})
      (vpair (field o (lit "name") z_string)
             (field o (lit "fullName") (z_default (z_optional z_boolean) false)))).

Definition searchPokemon_parameters : Schema JsString :=
  z_object (fun o => field o (lit "query") z_string).

Definition callDoWorker_parameters : Schema CallDoWorkerArgs :=
  z_object (fun o =>
    vmap (fun p =>
            {| workerName := fst (fst (fst p)); cdw_method := snd (fst (fst p));
               cdw_body := snd (fst p); cdw_headers := snd p |})
      (vpair (vpair (vpair
         (field o (lit "workerName") z_string)
         (field o (lit "method") (z_default (z_optional z_string) (lit "GET"))))
         (field o (lit "body") (z_optional z_string)))
         (field o (lit "headers") (z_optional z_record_string)))).

Definition callgraphqlWorker_parameters : Schema (option JsString) :=
  z_object (fun o => field o (lit "query") (z_optional z_string)).

(** [z.object({ action, description, expression })], parsed to an object
    with these three properties. *)
Definition ruleObject : Schema Value :=
  z_object (fun o =>
    vmap (fun p =>
            VObj [(lit "action", VStr (fst (fst p)));
                  (lit "description", VStr (snd (fst p)));
                  (lit "expression", VStr (snd p))])
      (vpair (vpair (field o (lit "action") z_string)
                    (field o (lit "description") z_string))
             (field o (lit "expression") z_string))).

Definition addCloudflareCustomRule_parameters : Schema Value :=
  z_object (fun o =>
    field o (lit "rule")
      (z_union
         [ ruleObject;
           z_object (fun b =>
             vmap (fun p => VObj [(lit "type", VStr (fst p)); (lit "value", snd p)])
               (vpair (field b (lit "type") (z_literal (lit "object")))
                      (field b (lit "value") ruleObject)));
           (fun v => vmap VStr (z_string v)) ])).

(** ** The tools export *)

Section ToolsExport.

Variable W : Type.
Variable host : Host W.
Variable store : option (Agent W).

(** A tool as [tool({ description, parameters, execute })] builds it. The
    description is text for the model and is read by no code; it is left
    out. A definition without [execute] is one that needs confirmation. *)
Record ToolDefinition := {
  Args : Type;
  parameters : Schema Args;
  execute : option (Args -> Eff W Value)
}.

(** [unstable_scheduleSchema] is imported from the [agents] package. *)
Variable unstable_scheduleSchema : Schema ScheduleArgs.

(** The bodies of the four tools that only query public HTTP APIs. *)
Variable getWeatherInformation : JsString -> Eff W Value.
Variable getLocalTime : JsString -> Eff W Value.
Variable searchCountry : SearchCountryArgs -> Eff W Value.
Variable searchPokemon : JsString -> Eff W Value.

Definition tools : list (JsString * ToolDefinition) :=
  [ (lit "getWeatherInformation",
     {| parameters := getWeatherInformation_parameters;
        execute := Some getWeatherInformation |});
    (lit "getLocalTime",
     {| parameters := getLocalTime_parameters; execute := Some getLocalTime |});
    (lit "scheduleTask",
     {| parameters := unstable_scheduleSchema; execute := Some (scheduleTask host store) |});
    (lit "sendWebhook",
     {| parameters := sendWebhook_parameters; execute := Some (sendWebhook host) |});
    (lit "searchDocs",
     {| parameters := searchDocs_parameters; execute := Some (searchDocs store) |});
    (lit "generateImage",
     {| parameters := generateImage_parameters; execute := Some (generateImage host store) |});
    (lit "searchCountry",
     {| parameters := searchCountry_parameters; execute := Some searchCountry |});
    (lit "searchPokemon",
     {| parameters := searchPokemon_parameters; execute := Some searchPokemon |});
    (lit "callDoWorker",
     {| parameters := callDoWorker_parameters; execute := Some (callDoWorker store) |});
    (lit "callgraphqlWorker",
     {| parameters := callgraphqlWorker_parameters; execute := Some (callgraphqlWorker host store) |});
    (lit "addCloudflareCustomRule",
     {| parameters := addCloudflareCustomRule_parameters;
        execute := Some (addCloudflareCustomRule host) |}) ].

(** Implementations of the tools that need confirmation: none. *)
Definition executions : list (JsString * (Value -> Eff W Value)) := [].

End ToolsExport.

End Tools.

(* ================================================================== *)
(** * src/tools.ts: the tools that query public HTTP APIs *)

Module PublicApis.

Import Tools.

(** ** Text that is not ASCII, as the source file spells it *)

Definition e_acute : JsString := [233%N].                              (* U+00E9 *)
Definition degree : JsString := [176%N].                               (* U+00B0 *)
Definition sun_behind_small_cloud : JsString := [55356; 57124; 65039]%N. (* U+1F324 U+FE0F *)
Definition thermometer : JsString := [55356; 57121; 65039]%N.          (* U+1F321 U+FE0F *)
Definition droplet : JsString := [55357; 56487]%N.                     (* U+1F4A7 *)
Definition sun_behind_rain_cloud : JsString := [55356; 57126; 65039]%N. (* U+1F326 U+FE0F *)
Definition cloud_with_rain : JsString := [55356; 57127; 65039]%N.      (* U+1F327 U+FE0F *)
Definition dashing_away : JsString := [55357; 56488]%N.                (* U+1F4A8 *)
Definition sunrise : JsString := [55356; 57093]%N.                     (* U+1F305 *)
Definition sun : JsString := [9728; 65039]%N.                          (* U+2600 U+FE0F *)
Definition cityscape_at_dusk : JsString := [55356; 57094]%N.           (* U+1F306 *)
Definition crescent_moon : JsString := [55356; 57113]%N.               (* U+1F319 *)
Definition one_oclock : JsString := [55357; 56656]%N.                  (* U+1F550 *)
Definition alarm_clock : JsString := [9200%N].                         (* U+23F0 *)
Definition globe : JsString := [55356; 57101]%N.                       (* U+1F30D *)

Definition Pokemon : JsString := lit "Pok" ++ e_acute ++ lit "mon".

(** ** Reading values that came out of [response.json()]

    The bodies read properties by name ([results], [current], [name],
    [types], ...). None of these names is a member of a builtin
    prototype, so on a string, a number, a boolean or an array they read
    as [undefined], as [Tools.prop] and [Tools.optProp] have it; [length],
    [map], [toLocaleString] and the index [0], which do exist there, have
    definitions of their own below. *)

(** [items.join(sep)], given the conversion of an element to a string:
    [undefined] and [null] give the empty string. *)
Definition join (str : Value -> Outcome JsString) (sep : JsString)
  : list Value -> Outcome JsString :=
  fix go (items : list Value) : Outcome JsString :=
    match items with
    | [] => Returned []
    | x :: rest =>
      match (match x with VUndefined | VNull => Returned [] | _ => str x end) with
      | Thrown e => Thrown e
      | Returned first =>
        match rest with
        | [] => Returned first
        | _ =>
          match go rest with
          | Thrown e => Thrown e
          | Returned others => Returned (first ++ sep ++ others)
          end
        end
      end
    end.

(** [v.length === 0], for a [v] that is not [null] or [undefined]. *)
Definition lengthIsZero (v : Value) : bool :=
  match v with
  | VArr [] | VStr [] => true
  | VObj props =>
    match assoc (lit "length") props with
    | Some (VNum x) => num_eq x 0%float
    | _ => false
    end
  | _ => false
  end.

(** [v[0]] for a [v] that is not [null] or [undefined], and [v?.[0]] for
    any [v]. *)
Definition first (v : Value) : Value :=
  match v with
  | VArr (x :: _) => x
  | VStr (c :: _) => VStr [c]
  | VObj props => match assoc (lit "0") props with Some x => x | None => VUndefined end
  | _ => VUndefined
  end.

(** The strings of [l] with [sep] between them: [l.join(sep)] on an array
    of strings. *)
Fixpoint joined (sep : JsString) (l : list JsString) : JsString :=
  match l with
  | [] => []
  | [s] => s
  | s :: r => s ++ sep ++ joined sep r
  end.

(** [a || b] *)
Definition or_else (a b : Value) : Value := if truthy a then a else b.

(** An array index as a property key: the canonical decimal text of an
    integer below [2^32 - 1]. *)
Definition isDigit (c : Js.CodeUnit) : bool := ((48 <=? c) && (c <=? 57))%N.

Definition arrayIndex (k : JsString) : option N :=
  match k with
  | [] => None
  | [48%N] => Some 0%N
  | c :: _ =>
    if negb (N.eqb c 48) && forallb isDigit k then
      let n := fold_left (fun acc d => (10 * acc + (d - 48))%N) k 0%N in
      if (n <? 4294967295)%N then Some n else None
    else None
  end.

Fixpoint insertByIndex (i : N) (v : Value) (sorted : list (N * Value)) : list (N * Value) :=
  match sorted with
  | [] => [(i, v)]
  | (j, w) :: r => if (i <? j)%N then (i, v) :: sorted else (j, w) :: insertByIndex i v r
  end.

(** [Object.values(v)] for a [v] that is not [null] or [undefined]: of
    an object, the properties whose key is an array index come first, in
    ascending order, then the others in insertion order. *)
Definition Object_values (v : Value) : list Value :=
  match v with
  | VObj props =>
    map snd
      (fold_left
         (fun sorted kv =>
            match arrayIndex (fst kv) with
            | Some i => insertByIndex i (snd kv) sorted
            | None => sorted
            end)
         props [])
    ++ map snd (filter (fun kv => match arrayIndex (fst kv) with Some _ => false | None => true end)
                  props)
  | VArr items => items
  | VStr s => map (fun c => VStr [c]) s
  | _ => []
  end.

(** The object literal [weatherCodes] of [getWeatherInformation]. *)
Definition weatherCodes : list (JsString * JsString) :=
  [ (lit "0", lit "Clear sky");
    (lit "1", lit "Mainly clear");
    (lit "2", lit "Partly cloudy");
    (lit "3", lit "Overcast");
    (lit "45", lit "Foggy");
    (lit "48", lit "Depositing rime fog");
    (lit "51", lit "Light drizzle");
    (lit "53", lit "Moderate drizzle");
    (lit "55", lit "Dense drizzle");
    (lit "56", lit "Light freezing drizzle");
    (lit "57", lit "Dense freezing drizzle");
    (lit "61", lit "Slight rain");
    (lit "63", lit "Moderate rain");
    (lit "65", lit "Heavy rain");
    (lit "66", lit "Light freezing rain");
    (lit "67", lit "Heavy freezing rain");
    (lit "71", lit "Slight snow fall");
    (lit "73", lit "Moderate snow fall");
    (lit "75", lit "Heavy snow fall");
    (lit "77", lit "Snow grains");
    (lit "80", lit "Slight rain showers");
    (lit "81", lit "Moderate rain showers");
    (lit "82", lit "Violent rain showers");
    (lit "85", lit "Slight snow showers");
    (lit "86", lit "Heavy snow showers");
    (lit "95", lit "Thunderstorm");
    (lit "96", lit "Thunderstorm with slight hail");
    (lit "99", lit "Thunderstorm with heavy hail") ].

(** The part of the day [getLocalTime] names for an hour. *)
Definition timeOfDay (hourNum : Number) : JsString :=
  if (5 <=? hourNum)%float && (hourNum <? 12)%float then sunrise ++ lit " Morning"
  else if (12 <=? hourNum)%float && (hourNum <? 17)%float then sun ++ lit " Afternoon"
  else if (17 <=? hourNum)%float && (hourNum <? 21)%float then cityscape_at_dusk ++ lit " Evening"
  else crescent_moon ++ lit " Night".

Section Program.

Variable W : Type.

(** Builtins that these four bodies call, beside those of [Host]. *)
Record Builtins := {
  encodeURIComponent : JsString -> Outcome JsString;  (* URIError on a lone surrogate *)
  Number_of : JsString -> Number;                     (* Number(s) *)
  toLowerCase : JsString -> JsString;
  parseInt : JsString -> Number;
  new_Date : Eff W Date;
  (* new Intl.DateTimeFormat("en-US", options).format(date) *)
  DateTimeFormat_format : Value -> Date -> Outcome JsString;
  (* v.toLocaleString(), the method that numbers, strings, booleans,
     arrays and objects inherit *)
  toLocaleString : Value -> Outcome JsString;
  (* the text of o[key] in a template, for a key that an object literal o
     inherits from Object.prototype *)
  inherited : JsString -> option JsString
}.

Variable host : Host W.
Variable builtins : Builtins.

(** ToString, which a template literal and [join] apply to a value. An
    array is joined with commas; an object prints as [[object Object]],
    unless it has a property [toString] of its own, which in a JSON value
    is no function: then the conversion throws. *)
Fixpoint toString (v : Value) : Outcome JsString :=
  match v with
  | VUndefined => Returned (lit "undefined")
  | VNull => Returned (lit "null")
  | VBool b => Returned (if b then lit "true" else lit "false")
  | VNum x => Returned (Number_toString host x)
  | VStr s => Returned s
  | VArr items => join toString (lit ",") items
  | VObj props =>
    match assoc (lit "toString") props with
    | Some _ => Thrown (TypeError (lit "Cannot convert object to primitive value"))
    | None => Returned (lit "[object Object]")
    end
  end.

(** [`${v}`] *)
Definition str (v : Value) : Eff W JsString := lift (toString v).

(** [`${v.key}`] *)
Definition show (v : Value) (key : JsString) : Eff W JsString :=
  let* x := lift (prop v key) in
  str x.

(** [fetch(url)]: a GET request without headers or body. *)
Definition get (url : JsString) : Eff W HttpResponse :=
  fetch host url {| method := lit "GET"; headers := []; body := None; redirect := None |}.

Fixpoint mapM {A B : Type} (f : A -> Eff W B) (l : list A) : Eff W (list B) :=
  match l with
  | [] => ret []
  | x :: r =>
    let* y := f x in
    let* ys := mapM f r in
    ret (y :: ys)
  end.

(** [v.map(f)], where [callee] is the text of [v] in the source. *)
Definition arrayMap (callee : JsString) (v : Value) (f : Value -> Eff W Value)
  : Eff W (list Value) :=
  match v with
  | VArr items => mapM f items
  | VUndefined =>
    throw (TypeError (lit "Cannot read properties of undefined (reading 'map')"))
  | VNull => throw (TypeError (lit "Cannot read properties of null (reading 'map')"))
  | _ => throw (TypeError (callee ++ lit ".map is not a function"))
  end.

(** [const { first, ... } = v]: the pattern throws on [undefined] and
    [null], where [variable] is the text of [v] in the source. *)
Definition destructure (first variable : JsString) (v : Value) : Eff W unit :=
  match v with
  | VUndefined =>
    throw (TypeError (lit "Cannot destructure property '" ++ first ++ lit "' of '"
                      ++ variable ++ lit "' as it is undefined."))
  | VNull =>
    throw (TypeError (lit "Cannot destructure property '" ++ first ++ lit "' of '"
                      ++ variable ++ lit "' as it is null."))
  | _ => ret tt
  end.

(** *** The geocoding request that getWeatherInformation and getLocalTime start with

    Both bodies begin with the same statements: the request, the status
    check and the test [!geocodingData.results ||
    geocodingData.results.length === 0]. The result here is
    [geocodingData.results[0]], or [None] when the test holds. *)
Definition geocode (place : JsString) : Eff W (option Value) :=
  let* encoded := lift (encodeURIComponent builtins place) in
  let geocodingUrl :=
    lit "https://geocoding-api.open-meteo.com/v1/search?name=" ++ encoded
    ++ lit "&count=1&language=en&format=json" in
  let* geocodingResponse := get geocodingUrl in
  if negb (ok geocodingResponse) then
    throw (Error (lit "Geocoding API error: " ++ decimal (status geocodingResponse)))
  else
    let* geocodingData := lift (json geocodingResponse) in
    let* results := lift (prop geocodingData (lit "results")) in
    if negb (truthy results) || lengthIsZero results then ret None
    else ret (Some (first results)).

(** [admin1 ? `${name}, ${admin1}, ${country}` : `${name}, ${country}`] *)
Definition locationNameOf (name admin1 country : Value) : Eff W JsString :=
  if truthy admin1 then
    let* n := str name in
    let* a := str admin1 in
    let* c := str country in
    ret (n ++ lit ", " ++ a ++ lit ", " ++ c)
  else
    let* n := str name in
    let* c := str country in
    ret (n ++ lit ", " ++ c).

(** *** getWeatherInformation *)

(** [weatherCodes[code] || "Unknown weather condition"], as the template
    prints it. *)
Definition weatherDescriptionOf (code : Value) : Eff W JsString :=
  let* key := str code in
  match assoc key weatherCodes with
  | Some description => ret description
  | None =>
    match inherited builtins key with
    | Some text => ret text
    | None => ret (lit "Unknown weather condition")
    end
  end.

Definition getWeatherInformation (city : JsString) : Eff W Value :=
  try_catch
    (let* found := geocode city in
     match found with
     | None =>
       ret (content (lit "City " ++ dquote ++ city ++ dquote
                     ++ lit " not found. Please check the spelling or try a different city name."))
     | Some location =>
       destructure (lit "latitude") (lit "location") location ;;
       let latitude := optProp location (lit "latitude") in
       let longitude := optProp location (lit "longitude") in
       let name := optProp location (lit "name") in
       let country := optProp location (lit "country") in
       let admin1 := optProp location (lit "admin1") in
       (* the template of the log entry *)
       str name ;; str latitude ;; str longitude ;;
       let* lat := str latitude in
       let* lon := str longitude in
       let weatherUrl :=
         lit "https://api.open-meteo.com/v1/forecast?latitude=" ++ lat
         ++ lit "&longitude=" ++ lon
         ++ lit "&current=temperature_2m,relative_humidity_2m,apparent_temperature,precipitation,weather_code,wind_speed_10m,wind_direction_10m&timezone=auto" in
       let* weatherResponse := get weatherUrl in
       if negb (ok weatherResponse) then
         throw (Error (lit "Weather API error: " ++ decimal (status weatherResponse)))
       else
         let* weatherData := lift (json weatherResponse) in
         let* current := lift (prop weatherData (lit "current")) in
         let* code := lift (prop current (lit "weather_code")) in
         let* weatherDescription := weatherDescriptionOf code in
         let* locationName := locationNameOf name admin1 country in
         let* temperature := show current (lit "temperature_2m") in
         let* apparent := show current (lit "apparent_temperature") in
         let* humidity := show current (lit "relative_humidity_2m") in
         let* precipitation := show current (lit "precipitation") in
         let* wind_speed := show current (lit "wind_speed_10m") in
         let* wind_direction := show current (lit "wind_direction_10m") in
         ret (content
           (sun_behind_small_cloud ++ lit " **Weather in " ++ locationName ++ lit "**"
            ++ nl ++ nl
            ++ thermometer ++ lit " **Temperature**: " ++ temperature ++ degree
            ++ lit "C (feels like " ++ apparent ++ degree ++ lit "C)" ++ nl
            ++ droplet ++ lit " **Humidity**: " ++ humidity ++ lit "%" ++ nl
            ++ sun_behind_rain_cloud ++ lit " **Conditions**: " ++ weatherDescription ++ nl
            ++ cloud_with_rain ++ lit " **Precipitation**: " ++ precipitation ++ lit "mm" ++ nl
            ++ dashing_away ++ lit " **Wind**: " ++ wind_speed ++ lit " km/h from "
            ++ wind_direction ++ degree ++ lit " direction"
            ++ nl ++ nl
            ++ lit "*Data provided by Open-Meteo API*"))
     end)
    (fun error =>
       ret (content (lit "Failed to get weather information for " ++ dquote ++ city ++ dquote
                     ++ lit ". Error: " ++ errorToString error))).

(** *** getLocalTime *)

(** The three option objects given to [Intl.DateTimeFormat]. *)
Definition localTimeOptions (timezone : Value) : Value :=
  VObj [(lit "timeZone", timezone);
        (lit "weekday", VStr (lit "long"));
        (lit "year", VStr (lit "numeric"));
        (lit "month", VStr (lit "long"));
        (lit "day", VStr (lit "numeric"));
        (lit "hour", VStr (lit "2-digit"));
        (lit "minute", VStr (lit "2-digit"));
        (lit "second", VStr (lit "2-digit"));
        (lit "hour12", VBool true)].

Definition timezoneOffsetOptions (timezone : Value) : Value :=
  VObj [(lit "timeZone", timezone); (lit "timeZoneName", VStr (lit "short"))].

Definition hourOptions (timezone : Value) : Value :=
  VObj [(lit "timeZone", timezone); (lit "hour", VStr (lit "numeric"));
        (lit "hour12", VBool false)].

Definition getLocalTime (location : JsString) : Eff W Value :=
  try_catch
    (let* found := geocode location in
     match found with
     | None =>
       ret (VObj [(lit "content",
                   VArr [textItem (VStr (lit "Location " ++ dquote ++ location ++ dquote
                     ++ lit " not found. Please check the spelling or try a different location name."))]);
                  (lit "type", VStr (lit "text"))])
     | Some locationData =>
       destructure (lit "name") (lit "locationData") locationData ;;
       let name := optProp locationData (lit "name") in
       let country := optProp locationData (lit "country") in
       let admin1 := optProp locationData (lit "admin1") in
       let timezone := optProp locationData (lit "timezone") in
       (* the template of the log entry *)
       str name ;; str timezone ;;
       let* now := new_Date builtins in
       let* localTime :=
         lift (DateTimeFormat_format builtins (localTimeOptions timezone) now) in
       let* timezoneOffset :=
         lift (DateTimeFormat_format builtins (timezoneOffsetOptions timezone) now) in
       let* hour := lift (DateTimeFormat_format builtins (hourOptions timezone) now) in
       let hourNum := parseInt builtins hour in
       let* locationName := locationNameOf name admin1 country in
       ret (content
         (one_oclock ++ lit " **Local Time in " ++ locationName ++ lit "**"
          ++ nl ++ nl
          ++ alarm_clock ++ lit " **Current Time**: " ++ localTime ++ nl
          ++ globe ++ lit " **Timezone**: " ++ timezoneOffset ++ nl
          ++ timeOfDay hourNum
          ++ nl ++ nl
          ++ lit "*Data provided by Open-Meteo Geocoding API*"))
     end)
    (fun error =>
       ret (content (lit "Failed to get local time for " ++ dquote ++ location ++ dquote
                     ++ lit ". Error: " ++ errorToString error))).

(** *** searchCountry *)

(** [country.population.toLocaleString()] *)
Definition populationText (population : Value) : Eff W JsString :=
  match population with
  | VUndefined =>
    throw (TypeError (lit "Cannot read properties of undefined (reading 'toLocaleString')"))
  | VNull =>
    throw (TypeError (lit "Cannot read properties of null (reading 'toLocaleString')"))
  | VObj props =>
    match assoc (lit "toLocaleString") props with
    | Some _ => throw (TypeError (lit "country.population.toLocaleString is not a function"))
    | None => lift (toLocaleString builtins population)
    end
  | _ => lift (toLocaleString builtins population)
  end.

(** [text || "N/A"] on a string *)
Definition or_NA (text : JsString) : JsString :=
  match text with
  | [] => lit "N/A"
  | _ => text
  end.

(** The callback of [countries.map]. *)
Definition formatCountry (country : Value) : Eff W Value :=
  let* name := lift (prop country (lit "name")) in
  let* common := lift (prop name (lit "common")) in
  let* official := lift (prop name (lit "official")) in
  let* capital := lift (prop country (lit "capital")) in
  let* region := lift (prop country (lit "region")) in
  let* population := lift (prop country (lit "population")) in
  let* populationString := populationText population in
  let* languages := lift (prop country (lit "languages")) in
  let* languageNames :=
    lift (join toString (lit ", ") (Object_values (or_else languages (VObj [])))) in
  let* currencies := lift (prop country (lit "currencies")) in
  let* currencyNames :=
    mapM (fun curr =>
            let* n := show curr (lit "name") in
            let* s := show curr (lit "symbol") in
            ret (VStr (n ++ lit " (" ++ s ++ lit ")")))
      (Object_values (or_else currencies (VObj []))) in
  let* currencyList := lift (join toString (lit ", ") currencyNames) in
  let* flags := lift (prop country (lit "flags")) in
  let* png := lift (prop flags (lit "png")) in
  ret (VObj [(lit "name", common);
             (lit "officialName", official);
             (lit "capital", or_else (first capital) (VStr (lit "N/A")));
             (lit "region", region);
             (lit "population", VStr populationString);
             (lit "languages", VStr (or_NA languageNames));
             (lit "currencies", VStr (or_NA currencyList));
             (lit "flag", png)]).

Definition searchCountry (args : SearchCountryArgs) : Eff W Value :=
  let name := sc_name args in
  try_catch
    (let baseUrl := lit "https://restcountries.com/v3.1/name" in
     let* encoded := lift (encodeURIComponent builtins name) in
     let url := baseUrl ++ lit "/" ++ encoded
                ++ (if fullName args then lit "?fullText=true" else []) in
     let* response := get url in
     if negb (ok response) then
       if (status response =? 404)%N then
         ret (content (lit "No country found with the name " ++ dquote ++ name ++ dquote))
       else
         throw (Error (lit "HTTP error! status: " ++ decimal (status response)))
     else
       let* countries := lift (json response) in
       let* formattedResponse := arrayMap (lit "countries") countries formatCountry in
       ret (content (JSON_stringify_indent2 host (VArr formattedResponse))))
    (fun error =>
       ret (content (lit "Failed to fetch country details. Error: " ++ errorToString error))).

(** *** searchPokemon *)

(** [pokemon.types.map((t) => t.type.name).join(", ")], and the same for
    the abilities. *)
Definition namesOf (callee : JsString) (entries : Value) (key : JsString) : Eff W JsString :=
  let* names :=
    arrayMap callee entries
      (fun t =>
         let* inner := lift (prop t key) in
         lift (prop inner (lit "name"))) in
  lift (join toString (lit ", ") names).

Definition searchPokemon (query : JsString) : Eff W Value :=
  try_catch
    (let isId := negb (isNaN (Number_of builtins query)) in
     let url :=
       if isId then lit "https://pokeapi.co/api/v2/pokemon/" ++ query
       else lit "https://pokeapi.co/api/v2/pokemon/" ++ toLowerCase builtins query in
     let* response := get url in
     if negb (ok response) then
       if (status response =? 404)%N then
         ret (content (lit "No " ++ Pokemon ++ lit " found with the name or ID "
                       ++ dquote ++ query ++ dquote))
       else
         throw (Error (lit "HTTP error! status: " ++ decimal (status response)))
     else
       let* pokemon := lift (json response) in
       let* name := lift (prop pokemon (lit "name")) in
       let* id := lift (prop pokemon (lit "id")) in
       let* height := lift (prop pokemon (lit "height")) in
       let* weight := lift (prop pokemon (lit "weight")) in
       let* typeEntries := lift (prop pokemon (lit "types")) in
       let* types := namesOf (lit "pokemon.types") typeEntries (lit "type") in
       let* abilityEntries := lift (prop pokemon (lit "abilities")) in
       let* abilities := namesOf (lit "pokemon.abilities") abilityEntries (lit "ability") in
       let* sprites := lift (prop pokemon (lit "sprites")) in
       let* sprite := lift (prop sprites (lit "front_default")) in
       let* nameText := str name in
       let* idText := str id in
       let* heightText := str height in
       let* weightText := str weight in
       let* spriteText := str sprite in
       ret (content
         (Pokemon ++ lit ": " ++ nameText ++ lit " (ID: " ++ idText ++ lit ")" ++ nl
          ++ lit "Height: " ++ heightText ++ nl
          ++ lit "Weight: " ++ weightText ++ nl
          ++ lit "Types: " ++ types ++ nl
          ++ lit "Abilities: " ++ abilities ++ nl
          ++ lit "Sprite: " ++ spriteText)))
    (fun error =>
       ret (content (lit "Failed to fetch " ++ Pokemon ++ lit " details. Error: "
                     ++ errorToString error))).

(** *** The tools export with these four bodies *)

Variable store : option (Agent W).
Variable unstable_scheduleSchema : Schema ScheduleArgs.

Definition tools : list (JsString * ToolDefinition W) :=
  Tools.tools host store unstable_scheduleSchema
    getWeatherInformation getLocalTime searchCountry searchPokemon.

End Program.

End PublicApis.

(* ================================================================== *)
(** * The Confirmation Gate *)

Module Gate.

Import Tools.

Section Gate.

Variable W : Type.

(** Modelled from the spec: the failures of [dispatch] in the error
    taxonomy of section 7, each with what it reports. The gate is not in
    the sources. *)
Inductive GateError :=
| UnknownToolError (toolName : JsString)
| ValidationError (issues : list Issue)
| ExecutionError (cause : JsError).

(** Modelled from the spec: the response to a tool call request of
    section 6 ([executed], [pending] or [error]). *)
Inductive Reply :=
| Executed (result : Value)
| Pending
| Failed (error : GateError).

(** Modelled from the spec: the pending confirmation of section 3. *)
Record PendingConfirmation := {
  callId : JsString;
  toolName : JsString;
  arguments : Value;       (* the arguments, which passed the schema *)
  createdAt : N;
  origin : JsString
}.

(** What the gate owns next to the world the executors act on. *)
Record State := {
  pending : list PendingConfirmation;
  world : W
}.

Definition Registry := list (JsString * ToolDefinition W).

(** Modelled from the spec: the Tool Registry's [lookup] of section 4.1;
    the registry in the sources is the [tools] export, and the functions
    over it are not in them. *)
Definition lookup (registry : Registry) (name : JsString) : option (ToolDefinition W) :=
  assoc name registry.

(** Modelled from the spec: [requiresConfirmation] of section 4.1, true
    exactly when the definition has no executor. *)
Definition requiresConfirmation (d : ToolDefinition W) : bool :=
  match execute d with
  | Some _ => false
  | None => true
  end.

(** Modelled from the spec: [dispatch(toolName, rawArguments, callId)] of
    section 4.2, steps 1 to 4. The dispatch path of the repository is not
    in the sources. [now] and [message] are the creation time and the
    originating message recorded in a new pending confirmation. *)
Definition dispatch (registry : Registry) (now : N) (message : JsString)
    (toolName : JsString) (rawArguments : Value) (callId : JsString) (s : State)
  : Reply * State :=
  match lookup registry toolName with
  | None => (Failed (UnknownToolError toolName), s)
  | Some d =>
    match parameters d rawArguments with
    | Invalid issues => (Failed (ValidationError issues), s)
    | Valid args =>
      match execute d with
      | Some run =>
        match run args (world s) with
        | (Returned result, w') => (Executed result, {| pending := pending s; world := w' |})
        | (Thrown e, w') => (Failed (ExecutionError e), {| pending := pending s; world := w' |})
        end
      | None =>
        (Pending,
         {| pending := pending s ++
                       [{| callId := callId; toolName := toolName;
                           arguments := rawArguments; createdAt := now;
                           origin := message |}];
            world := world s |})
      end
    end
  end.

End Gate.

End Gate.

(* ================================================================== *)
(** * The Scheduler *)

Module Cron.

(** Modelled from the spec: section 4.3 only says that a cron expression
    is parsed, that a malformed one is rejected, and that the first
    occurrence strictly after now is computed; the evaluator is not in
    the sources. This is the usual five-field form (minute, hour, day of
    month, month, day of week; [*], numbers, ranges, lists and steps),
    read in UTC. *)

#[local] Open Scope Z_scope.

(** Days since 1970-01-01 to (year, month, day) and back, in the
    proleptic Gregorian calendar. *)
Definition civil_from_days (days : Z) : Z * Z * Z :=
  let z := days + 719468 in
  let era := z / 146097 in
  let doe := z - era * 146097 in
  let yoe := (doe - doe / 1460 + doe / 36524 - doe / 146096) / 365 in
  let doy := doe - (365 * yoe + yoe / 4 - yoe / 100) in
  let mp := (5 * doy + 2) / 153 in
  let d := doy - (153 * mp + 2) / 5 + 1 in
  let m := if mp <? 10 then mp + 3 else mp - 9 in
  let y := yoe + era * 400 + (if m <=? 2 then 1 else 0) in
  (y, m, d).

Definition days_from_civil (y m d : Z) : Z :=
  let y' := if m <=? 2 then y - 1 else y in
  let era := y' / 400 in
  let yoe := y' - era * 400 in
  let doy := (153 * (if 2 <? m then m - 3 else m + 9) + 2) / 5 + d - 1 in
  let doe := yoe * 365 + yoe / 4 - yoe / 100 + doy in
  era * 146097 + doe - 719468.

(** Milliseconds since the epoch of a UTC date and time. *)
Definition utc (y mo d h mi s : Z) : Z :=
  (((days_from_civil y mo d * 24 + h) * 60 + mi) * 60 + s) * 1000.

(** Day of the week, 0 for Sunday. *)
Definition weekday (days : Z) : Z := (days + 4) mod 7.

#[local] Close Scope Z_scope.

Record Schedule := {
  minutes : list nat;
  hours : list nat;
  daysOfMonth : list nat;
  months : list nat;
  daysOfWeek : list nat;
  anyDayOfMonth : bool;   (* the field starts with a star *)
  anyDayOfWeek : bool
}.

Definition isDigit (c : Js.CodeUnit) : bool := ((48 <=? c) && (c <=? 57))%N.

Fixpoint digits (s : JsString) (acc : nat) : option nat :=
  match s with
  | [] => Some acc
  | c :: r => if isDigit c then digits r (10 * acc + N.to_nat (c - 48)) else None
  end.

Definition parseNat (s : JsString) : option nat :=
  match s with
  | [] => None
  | _ => digits s 0
  end.

(** The pieces of [s] between occurrences of a separator. *)
Fixpoint splitOn (sep : Js.CodeUnit -> bool) (s : JsString) (cur : JsString)
  : list JsString :=
  match s with
  | [] => [rev cur]
  | c :: r => if sep c then rev cur :: splitOn sep r [] else splitOn sep r (c :: cur)
  end.

Definition fields (s : JsString) : list JsString :=
  filter (fun f => match f with [] => false | _ => true end)
         (splitOn Js.isWhiteSpace s []).

(** A range of a field: a star, [a] or [a-b], within [lo..hi]. The
    result is the first and last value; a single [a] with a step reads
    as [a-hi]. *)
Definition parseRange (lo hi : nat) (stepped : bool) (s : JsString) : option (nat * nat) :=
  if str_eqb s (lit "*") then Some (lo, hi)
  else
    match splitOn (N.eqb 45) s [] with
    | [a] =>
      match parseNat a with
      | Some x =>
        if (lo <=? x)%nat && (x <=? hi)%nat
        then Some (x, if stepped then hi else x) else None
      | None => None
      end
    | [a; b] =>
      match parseNat a, parseNat b with
      | Some x, Some y =>
        if (lo <=? x)%nat && (x <=? y)%nat && (y <=? hi)%nat then Some (x, y) else None
      | _, _ => None
      end
    | _ => None
    end.

Definition stepValues (first last step : nat) : list nat :=
  filter (fun v => ((v - first) mod step =? 0)%nat) (seq first (S last - first)).

(** One item of a comma list: a range, or a range with [/step]. *)
Definition parseItem (lo hi : nat) (s : JsString) : option (list nat) :=
  match splitOn (N.eqb 47) s [] with
  | [r] =>
    match parseRange lo hi false r with
    | Some (a, b) => Some (stepValues a b 1)
    | None => None
    end
  | [r; st] =>
    match parseRange lo hi true r, parseNat st with
    | Some (a, b), Some (S k) => Some (stepValues a b (S k))
    | _, _ => None
    end
  | _ => None
  end.

Fixpoint parseItems (lo hi : nat) (items : list JsString) : option (list nat) :=
  match items with
  | [] => Some []
  | i :: r =>
    match parseItem lo hi i, parseItems lo hi r with
    | Some a, Some b => Some (a ++ b)
    | _, _ => None
    end
  end.

Definition parseField (lo hi : nat) (s : JsString) : option (list nat) :=
  parseItems lo hi (splitOn (N.eqb 44) s []).

Definition startsWithStar (s : JsString) : bool :=
  match s with
  | c :: _ => N.eqb c 42
  | [] => false
  end.

(** Modelled from the spec: parsing of a cron expression (section 4.3);
    [None] for a malformed one. The parser is not in the sources. *)
Definition parse (expr : JsString) : option Schedule :=
  match fields expr with
  | [mi; h; dom; mo; dow] =>
    match parseField 0 59 mi, parseField 0 23 h, parseField 1 31 dom,
          parseField 1 12 mo, parseField 0 7 dow with
    | Some mis, Some hs, Some doms, Some mos, Some dows =>
      Some {| minutes := mis; hours := hs; daysOfMonth := doms; months := mos;
              daysOfWeek := map (fun d => (d mod 7)%nat) dows;
              anyDayOfMonth := startsWithStar dom;
              anyDayOfWeek := startsWithStar dow |}
    | _, _, _, _, _ => None
    end
  | _ => None
  end.

Definition mem (x : nat) (l : list nat) : bool := existsb (Nat.eqb x) l.

(** When both day fields are restricted a day matches either of them. *)
Definition dayMatches (c : Schedule) (days : Z) : bool :=
  let '(_, m, d) := civil_from_days days in
  let dom := mem (Z.to_nat d) (daysOfMonth c) in
  let dow := mem (Z.to_nat (weekday days)) (daysOfWeek c) in
  mem (Z.to_nat m) (months c)
  && (if anyDayOfMonth c || anyDayOfWeek c then dom && dow else dom || dow).

(** Minute [t] of a day (0 to 1439) matches the hour and minute fields. *)
Definition timeMatches (c : Schedule) (t : nat) : bool :=
  mem (t / 60) (hours c) && mem (t mod 60) (minutes c).

(** The schedule fires at instant [t]: a whole minute whose day and time match. *)
Definition occurs (c : Schedule) (t : Z) : bool :=
  ((t mod 60000 =? 0)
   && dayMatches c (t / 86400000)
   && timeMatches c (Z.to_nat ((t / 60000) mod 1440)))%Z.

(** The first matching minute of a day at or after minute [from]. *)
Definition firstMinute (c : Schedule) (from : nat) : option nat :=
  find (timeMatches c) (seq from (1440 - from)).

(** The first matching minute on the first matching day from [days] on,
    looking [horizon] days ahead. *)
Fixpoint search (c : Schedule) (horizon : nat) (days : Z) (from : nat) : option Z :=
  match horizon with
  | O => None
  | S h =>
    match (if dayMatches c days then firstMinute c from else None) with
    | Some t => Some ((days * 1440 + Z.of_nat t) * 60000)%Z
    | None => search c h (days + 1)%Z 0
    end
  end.

(** Eight years and a few days: the longest gap between two leap days. *)
Definition horizon : nat := N.to_nat 2930.

(** Modelled from the spec: the first occurrence strictly after [now]
    (milliseconds since the epoch) of section 4.3. The evaluator is not
    in the sources. *)
Definition next (c : Schedule) (now : Z) : option Z :=
  let minute := (now / 60000)%Z in
  search c horizon (minute / 1440)%Z (S (Z.to_nat (minute mod 1440))).

End Cron.

Module Scheduler.

Import Tools.

(** Modelled from the spec: the schedule specification of sections 3 and 6. *)
Inductive ScheduleSpec :=
| scheduled (date : Date)
| delayed (delayInSeconds : Number)
| cron (expression : JsString)
| no_schedule.

(** Instants are milliseconds since the epoch. *)
Definition Instant := Z.
Bind Scope Z_scope with Instant.

(** Modelled from the spec: the scheduled task of section 3; the cron
    expression of a recurring task is kept in its [spec]. *)
Record ScheduledTask := {
  id : JsString;
  spec : ScheduleSpec;
  toolName : JsString;
  payload : JsString;
  nextFire : Instant
}.

Record State := {
  now : Instant;
  tasks : list ScheduledTask;
  created : N                 (* tasks created so far; names the next one *)
}.

(** Modelled from the spec: what [submit] gives back, the identifier of
    the new task or the refusal. *)
Inductive Submitted :=
| Accepted (id : JsString)
| InvalidScheduleError (message : JsString).

(** The exact value of a finite number scaled by 1000 and rounded down. *)
Definition millis (x : Number) : option Z :=
  match Prim2SF x with
  | S754_zero _ => Some 0%Z
  | S754_finite s m e => Some (Z.shiftl ((if s then Z.neg m else Z.pos m) * 1000) e)
  | _ => None
  end.

Definition whole (x : Number) : option Z :=
  match Prim2SF x with
  | S754_zero _ => Some 0%Z
  | S754_finite s m e => Some (Z.shiftl (if s then Z.neg m else Z.pos m) e)
  | _ => None
  end.

(** Modelled from the spec: the next-fire instant of section 4.3. *)
Definition nextFireOf (now : Instant) (spec : ScheduleSpec) : Instant + JsString :=
  match spec with
  | no_schedule => inr (lit "not a schedule")
  | scheduled d =>
    match whole (getTime d) with
    | Some t => if (t <? now)%Z then inr (lit "instant is in the past") else inl t
    | None => inr (lit "not an instant")
    end
  | delayed x =>
    if (0 <? x)%float then
      match millis x with
      | Some ms => inl (now + ms)%Z
      | None => inr (lit "delay is not finite")
      end
    else inr (lit "delay is not positive")
  | cron e =>
    match Cron.parse e with
    | Some c =>
      match Cron.next c now with
      | Some t => inl t
      | None => inr (lit "cron expression never fires")
      end
    | None => inr (lit "malformed cron expression")
    end
  end.

(** Modelled from the spec: [submit(spec, toolName, payload)] of section
    4.3. The scheduler behind [agent.schedule] is not in the sources. *)
Definition submit (spec : ScheduleSpec) (toolName payload : JsString) (s : State)
  : Submitted * State :=
  match nextFireOf (now s) spec with
  | inr why => (InvalidScheduleError why, s)
  | inl t =>
    let id := lit "task-" ++ decimal (created s) in
    (Accepted id,
     {| now := now s;
        tasks := tasks s ++ [{| id := id; spec := spec; toolName := toolName;
                                payload := payload; nextFire := t |}];
        created := created s + 1 |})
  end.

(** The schedule specification that the first argument of
    [agent.schedule] stands for. *)
Definition specOf (input : ScheduleInput) : ScheduleSpec :=
  match input with
  | OnDate d => scheduled d
  | AfterSeconds x => delayed x
  | OnCron e => cron e
  | NoInput => no_schedule
  end.

(** Modelled from the spec: [agent.schedule(when, callback, payload)] as
    a submission to the scheduler; a rejected submission is an exception
    of the call, an accepted one gives the identifier of the new task. *)
Definition schedule (input : ScheduleInput) (callback payload : JsString)
  : Eff State Value :=
  fun s =>
    match submit (specOf input) callback payload s with
    | (Accepted id, s') => (Returned (VStr id), s')
    | (InvalidScheduleError why, s') =>
      (Thrown (MkError (lit "InvalidScheduleError") why), s')
    end.

(** An agent whose scheduler is this one, over any bindings. *)
Definition agent (env : Env State) : Agent State :=
  {| Tools.schedule := schedule; Tools.env := env |}.

End Scheduler.

(* ================================================================== *)
(** * Stand-ins for the host, for the examples *)

Module Fixture.

Import Tools.

Definition digitValue (c : Js.CodeUnit) : Number :=
  match (c - 48)%N with
  | 0%N => 0 | 1%N => 1 | 2%N => 2 | 3%N => 3 | 4%N => 4
  | 5%N => 5 | 6%N => 6 | 7%N => 7 | 8%N => 8 | _ => 9
  end%float.

Fixpoint digitsValue (s : JsString) (acc : Number) : Number :=
  match s with
  | [] => acc
  | c :: r => if Cron.isDigit c then digitsValue r (acc * 10 + digitValue c)%float else nan
  end.

(** [parseFloat] on a string of decimal digits; any other string reads
    as [NaN] here. *)
Definition parseFloat (s : JsString) : Number :=
  match s with
  | [] => nan
  | _ => digitsValue s 0%float
  end.

(** [String(x)], exact on the integers. *)
Definition Number_toString (x : Number) : JsString :=
  match Scheduler.whole x with
  | Some z => (if (z <? 0)%Z then lit "-" else []) ++ decimal (Z.to_N (Z.abs z))
  | None =>
    if is_nan x then lit "NaN"
    else if (x <? 0)%float then lit "-Infinity" else lit "Infinity"
  end.

(** [JSON.stringify] on values whose strings need no escape and whose
    numbers are integers; [undefined] is printed as [null]. *)
Fixpoint JSON_stringify (v : Value) : JsString :=
  match v with
  | VUndefined | VNull => lit "null"
  | VBool b => if b then lit "true" else lit "false"
  | VNum x => Number_toString x
  | VStr s => dquote ++ s ++ dquote
  | VArr items =>
    lit "["
    ++ (fix all (l : list Value) : JsString :=
          match l with
          | [] => []
          | x :: r => JSON_stringify x ++ match r with [] => [] | _ => lit "," ++ all r end
          end) items
    ++ lit "]"
  | VObj props =>
    lit "{"
    ++ (fix all (l : list (JsString * Value)) : JsString :=
          match l with
          | [] => []
          | (k, x) :: r =>
            dquote ++ k ++ dquote ++ lit ":" ++ JSON_stringify x
            ++ match r with [] => [] | _ => lit "," ++ all r end
          end) props
    ++ lit "}"
  end.

(** A rule as a JSON text whose expression is the number 5. *)
Definition numericExpressionRule : JsString :=
  lit "{" ++ dquote ++ lit "action" ++ dquote ++ lit ":" ++ dquote ++ lit "block" ++ dquote
  ++ lit "," ++ dquote ++ lit "description" ++ dquote ++ lit ":" ++ dquote ++ lit "d" ++ dquote
  ++ lit "," ++ dquote ++ lit "expression" ++ dquote ++ lit ":5}".

(** [JSON.parse] on the one text above; any other text is refused here. *)
Definition JSON_parse (s : JsString) : Outcome Value :=
  if str_eqb s numericExpressionRule then
    Returned (VObj [(lit "action", VStr (lit "block"));
                    (lit "description", VStr (lit "d"));
                    (lit "expression", VNum 5%float)])
  else Thrown (MkError (lit "SyntaxError") (lit "Unexpected token")).

Definition W := Scheduler.State.

Definition answer (b : JsString) : HttpResponse :=
  {| ok := true; status := 200; statusText := lit "OK";
     text := Returned b; json := Returned VNull |}.

Definition env : Env W :=
  {| AI_autorag_aiSearch := fun _ _ => ret VNull;
     AI_run := fun _ _ _ => ret VNull;
     PUBLIC_BUCKET_put := fun _ _ _ => ret VNull;
     doWorker_fetch := fun _ _ => ret (answer []);
     graphqlWorker_fetch := fun _ _ => ret (answer []) |}.

Definition host : Host W :=
  {| fetch := fun _ _ => ret (answer []);
     process_env := fun _ => None;
     Tools.JSON_stringify := JSON_stringify;
     JSON_stringify_indent2 := JSON_stringify;
     Tools.JSON_parse := JSON_parse;
     Date_now := fun s => (Returned (Z.to_N (Scheduler.now s)), s);
     Math_random_toString36 := ret (lit "0.4fzyo82mvyr");
     atob := fun s => Returned s;
     Tools.Number_toString := Number_toString;
     Date_toString := fun d => Number_toString (getTime d);
     escapeInnerQuotes := fun s => s |}.

(** A reading of [unstable_scheduleSchema]: a description and a [when]
    with its type and the optional date (here a time value), delay and
    cron expression. *)
Definition scheduleSchema : Schema ScheduleArgs :=
  z_object (fun o =>
    vmap (fun p => {| when := snd p; description := fst p |})
      (vpair (field o (lit "description") z_string)
             (field o (lit "when")
                (z_object (fun w =>
                   vmap (fun q =>
                           {| type := snd q; date := fst (fst (fst q));
                              delayInSeconds := snd (fst (fst q)); cron := snd (fst q) |})
                     (vpair (vpair (vpair
                        (field w (lit "date")
                           (z_optional (fun v => vmap (fun x => {| getTime := x |})
                                                   (z_number_checked [] v))))
                        (field w (lit "delayInSeconds") (z_optional (z_number_checked []))))
                        (field w (lit "cron") (z_optional z_string)))
                        (field w (lit "type")
                           (z_union [z_literal (lit "scheduled"); z_literal (lit "delayed");
                                     z_literal (lit "cron");
                                     z_literal (lit "no-schedule")])))))))).

(** The export over these stand-ins, outside any agent context. *)
Definition tools : list (JsString * ToolDefinition W) :=
  Tools.tools host None scheduleSchema
    (fun _ => ret VNull) (fun _ => ret VNull) (fun _ => ret VNull) (fun _ => ret VNull).

(** A scheduler with no task yet, at the given instant. *)
Definition fresh (now : Z) : W :=
  {| Scheduler.now := now; Scheduler.tasks := []; Scheduler.created := 0 |}.

(** A gate with nothing pending. *)
Definition idle : Gate.State W := {| Gate.pending := []; Gate.world := fresh 0 |}.

Definition onlyWhen (t : JsString) : When :=
  {| type := t; date := None; delayInSeconds := None; cron := None |}.

Definition delayOf (x : Number) : ScheduleArgs :=
  {| when := {| type := lit "delayed"; date := None; delayInSeconds := Some x;
                cron := None |};
     description := lit "stretch" |}.

Definition cronOf (e : JsString) : ScheduleArgs :=
  {| when := {| type := lit "cron"; date := None; delayInSeconds := None;
                cron := Some e |};
     description := lit "stand-up" |}.

Definition calc (op a b : string) : Worker.Request :=
  {| Worker.pathname := lit "/calc";
     Worker.searchParams := [(lit "op", lit op); (lit "a", lit a); (lit "b", lit b)] |}.

(** ** Stand-ins for the network, the bindings and the builtins *)

(** A response with a JSON body. *)
Definition jsonAnswer (v : Value) : HttpResponse :=
  {| ok := true; status := 200; statusText := lit "OK";
     text := Returned []; json := Returned v |}.

(** A response with an error status and an empty JSON object as body. *)
Definition refusal (st : N) : HttpResponse :=
  {| ok := false; status := st; statusText := lit "refused";
     text := Returned []; json := Returned (VObj []) |}.

(** A host whose network answers a request by its URL, with the
    environment variables [variables] and the base64 decoder [decode]. *)
Definition hostWith (network : JsString -> HttpResponse)
    (variables : JsString -> option JsString)
    (decode : JsString -> Outcome JsString) : Host W :=
  {| fetch := fun url _ => ret (network url);
     process_env := variables;
     Tools.JSON_stringify := JSON_stringify;
     JSON_stringify_indent2 := JSON_stringify;
     Tools.JSON_parse := JSON_parse;
     Date_now := fun s => (Returned (Z.to_N (Scheduler.now s)), s);
     Math_random_toString36 := ret (lit "0.4fzyo82mvyr");
     atob := decode;
     Tools.Number_toString := Number_toString;
     Date_toString := fun d => Number_toString (getTime d);
     escapeInnerQuotes := fun s => s |}.

(** A host whose network gives the answer [r] to every request. *)
Definition answering (r : HttpResponse) : Host W :=
  hostWith (fun _ => r) (fun _ => None) (fun s => Returned s).

(** A host that knows an API token and nothing else. *)
Definition withToken (r : HttpResponse) : Host W :=
  hostWith (fun _ => r)
    (fun name => if str_eqb name (lit "CLOUDFLARE_API_TOKEN") then Some (lit "s3cret") else None)
    (fun s => Returned s).

(** Bindings that answer: a search finds a text, the image model gives
    an image, the worker says [pong]. *)
Definition working : Env W :=
  {| AI_autorag_aiSearch :=
       fun _ _ => ret (VObj [(lit "response", VStr (lit "Workers run on V8 isolates."))]);
     AI_run := fun _ _ _ => ret (VObj [(lit "image", VStr (lit "QUJD"))]);
     PUBLIC_BUCKET_put := fun _ _ _ => ret VNull;
     doWorker_fetch := fun _ _ => ret (answer (lit "pong"));
     graphqlWorker_fetch := fun _ _ => ret (jsonAnswer (VObj [])) |}.

(** [toLowerCase] on the letters A to Z. *)
Definition lower (c : Js.CodeUnit) : Js.CodeUnit :=
  if ((65 <=? c) && (c <=? 90))%N then (c + 32)%N else c.

(** Builtins that are exact on letters and digits: nothing to encode in a
    URL, [Number] of decimal digits, a clock that stands at the epoch and
    shows nine in the morning everywhere. *)
Definition builtins : PublicApis.Builtins W :=
  {| PublicApis.encodeURIComponent := fun s => Returned s;
     PublicApis.Number_of := fun s => match s with [] => 0%float | _ => digitsValue s 0%float end;
     PublicApis.toLowerCase := map lower;
     PublicApis.parseInt := parseFloat;
     PublicApis.new_Date := ret {| getTime := 0%float |};
     PublicApis.DateTimeFormat_format := fun _ _ => Returned (lit "9");
     PublicApis.toLocaleString := fun v => Returned (JSON_stringify v);
     PublicApis.inherited := fun _ => None |}.

(** An answer of the PokeAPI, cut down to what searchPokemon reads. *)
Definition pikachu : Value :=
  VObj [(lit "name", VStr (lit "pikachu"));
        (lit "id", VNum 25%float);
        (lit "height", VNum 4%float);
        (lit "weight", VNum 60%float);
        (lit "types",
         VArr [VObj [(lit "slot", VNum 1%float);
                     (lit "type", VObj [(lit "name", VStr (lit "electric"))])]]);
        (lit "abilities",
         VArr [VObj [(lit "ability", VObj [(lit "name", VStr (lit "static"))])];
               VObj [(lit "ability", VObj [(lit "name", VStr (lit "lightning-rod"))])]]);
        (lit "sprites", VObj [(lit "front_default", VNull)])].

(** An answer of the REST Countries API for a country without capital,
    languages or currencies. *)
Definition antarctica : Value :=
  VObj [(lit "name",
         VObj [(lit "common", VStr (lit "Antarctica"));
               (lit "official", VStr (lit "Antarctica"))]);
        (lit "region", VStr (lit "Antarctic"));
        (lit "population", VNum 1000%float);
        (lit "flags", VObj [(lit "png", VStr (lit "https://flagcdn.com/w320/aq.png"))])].

(** An answer of the geocoding API and one of the forecast API. *)
Definition berlin : Value :=
  VObj [(lit "results",
         VArr [VObj [(lit "name", VStr (lit "Berlin"));
                     (lit "latitude", VNum 52%float);
                     (lit "longitude", VNum 13%float);
                     (lit "country", VStr (lit "Germany"));
                     (lit "admin1", VStr (lit "Land Berlin"));
                     (lit "timezone", VStr (lit "Europe/Berlin"))]])].

Definition forecast : Value :=
  VObj [(lit "current",
         VObj [(lit "temperature_2m", VNum 21%float);
               (lit "relative_humidity_2m", VNum 40%float);
               (lit "apparent_temperature", VNum 20%float);
               (lit "precipitation", VNum 0%float);
               (lit "weather_code", VNum 61%float);
               (lit "wind_speed_10m", VNum 12%float);
               (lit "wind_direction_10m", VNum 270%float)])].

(** A host whose network knows Berlin and its weather. *)
Definition openMeteo : Host W :=
  hostWith
    (fun url =>
       if startsWith url (lit "https://geocoding-api.open-meteo.com/") then jsonAnswer berlin
       else jsonAnswer forecast)
    (fun _ => None) (fun s => Returned s).

(** A rule object and the same rule in a box. *)
Definition blockRule : list (JsString * Value) :=
  [(lit "action", VStr (lit "block"));
   (lit "description", VStr (lit "bots"));
   (lit "expression", VStr (lit "cf.client.bot"))].

Definition boxedRule : list (JsString * Value) :=
  [(lit "type", VStr (lit "object")); (lit "value", VObj blockRule)].

End Fixture.

(* ================================================================== *)
(** * Properties *)

(** ** Strings *)

Lemma str_eqb_refl (s : JsString) : str_eqb s s = true.
Proof.
  induction s as [|c s IH]; simpl; [reflexivity|].
  now rewrite N.eqb_refl, IH.
Qed.

Lemma str_eqb_eq (a b : JsString) : str_eqb a b = true <-> a = b.
Proof.
  split.
  - revert b; induction a as [|x a IH]; intros [|y b]; simpl; try discriminate; auto.
    intros H; apply andb_true_iff in H as [Hx Hr].
    apply N.eqb_eq in Hx; subst; f_equal; auto.
  - intros ->; apply str_eqb_refl.
Qed.




Example trim_spaces : trim (lit "  a b ") = lit "a b".
Proof. reflexivity. Qed.

Example trim_line_ends : trim ([9; 10; 13; 160; 8232; 65279] ++ lit "x" ++ [12288; 11])%N = lit "x".
Proof. reflexivity. Qed.

Example decimal_status : decimal 404 = lit "404" /\ decimal 0 = lit "0".
Proof. split; reflexivity. Qed.

Example error_text : errorToString (Error (lit "No agent found")) = lit "Error: No agent found".
Proof. reflexivity. Qed.

(** ** worker.js *)

Example calc_add :
  Worker.fetch Fixture.parseFloat Fixture.JSON_stringify (Fixture.calc "add" "2" "3")
  = {| Worker.evaluated := [(Worker.OpAdd, 2%float, 3%float)];
       Worker.response :=
         {| Worker.status := 200;
            Worker.body := lit "{" ++ dquote ++ lit "result" ++ dquote ++ lit ":5}";
            Worker.headers := [(lit "Content-Type", lit "application/json")] |} |}.
Proof. reflexivity. Qed.

Example calc_div :
  Worker.body (Worker.response
    (Worker.fetch Fixture.parseFloat Fixture.JSON_stringify (Fixture.calc "div" "12" "4")))
  = lit "{" ++ dquote ++ lit "result" ++ dquote ++ lit ":3}".
Proof. reflexivity. Qed.

Example calc_not_a_number :
  Worker.response
    (Worker.fetch Fixture.parseFloat Fixture.JSON_stringify (Fixture.calc "div" "x" "0"))
  = Worker.plain (lit "Invalid numbers") 400.
Proof. reflexivity. Qed.

Section WorkerFacts.

Variable parseFloat : JsString -> Number.
Variable JSON_stringify : Value -> JsString.

Local Abbreviation fetch := (Worker.fetch parseFloat JSON_stringify).

Lemma fetch_divides_by_nonzero (request : Worker.Request) (x y : Number) :
  In (Worker.OpDiv, x, y) (Worker.evaluated (fetch request)) -> num_eq y 0%float = false.
Proof.
  unfold Worker.fetch.
  destruct (negb _); [simpl; intros []|].
  destruct (isNaN _ || isNaN _); [simpl; intros []|].
  destruct (Worker.get (lit "op") _) as [o|]; [|simpl; intros []].
  repeat (match goal with |- context [if str_eqb o ?l then _ else _] =>
            destruct (str_eqb o l) end;
          [simpl; intros [H|[]]; discriminate H|]).
  destruct (str_eqb o (lit "div")); [|simpl; intros []].
  destruct (num_eq _ 0%float) eqn:E; [simpl; intros []|].
  simpl; intros [H|[]]; inversion H; subst; exact E.
Qed.

(** C10: a request to [/calc] with [op=div] whose [a] and [b] parse as
    numbers is answered with status 400 and the text [Cannot divide by
    zero], without any division, when [b] equals zero; it is answered
    with [a / b] when [b] is not zero; and whatever the request, every
    division the handler evaluates has a divisor that is not zero. *)
Theorem div_by_zero_is_refused (request : Worker.Request) (a b : Number) :
  Worker.pathname request = lit "/calc" ->
  Worker.get (lit "op") (Worker.searchParams request) = Some (lit "div") ->
  Worker.parseFloatOf parseFloat (Worker.get (lit "a") (Worker.searchParams request)) = a ->
  Worker.parseFloatOf parseFloat (Worker.get (lit "b") (Worker.searchParams request)) = b ->
  isNaN a = false -> isNaN b = false ->
  (num_eq b 0%float = true ->
   fetch request =
   {| Worker.evaluated := [];
      Worker.response := Worker.plain (lit "Cannot divide by zero") 400 |})
  /\ (num_eq b 0%float = false ->
      fetch request =
      {| Worker.evaluated := [(Worker.OpDiv, a, b)];
         Worker.response := Worker.json JSON_stringify (a / b)%float |})
  /\ (forall r x y, In (Worker.OpDiv, x, y) (Worker.evaluated (fetch r)) ->
                    num_eq y 0%float = false).
Proof.
  intros Hpath Hop Ha Hb Na Nb.
  assert (E : fetch request =
              if num_eq b 0%float
              then {| Worker.evaluated := [];
                      Worker.response := Worker.plain (lit "Cannot divide by zero") 400 |}
              else {| Worker.evaluated := [(Worker.OpDiv, a, b)];
                      Worker.response := Worker.json JSON_stringify (a / b)%float |}).
  { unfold Worker.fetch.
    rewrite Hpath, Hop, Ha, Hb, Na, Nb. reflexivity. }
  repeat split.
  - intros Z; now rewrite E, Z.
  - intros Z; now rewrite E, Z.
  - apply fetch_divides_by_nonzero.
Qed.

End WorkerFacts.

Lemma div_by_zero_is_refused_witness :
  Worker.fetch Fixture.parseFloat Fixture.JSON_stringify (Fixture.calc "div" "7" "0") =
  {| Worker.evaluated := [];
     Worker.response := Worker.plain (lit "Cannot divide by zero") 400 |}.
Proof.
  refine (proj1 (@div_by_zero_is_refused Fixture.parseFloat Fixture.JSON_stringify
                   (Fixture.calc "div" "7" "0") 7%float 0%float _ _ _ _ _ _) _);
    reflexivity.
Defined.

(** ** addCloudflareCustomRule *)

Import Tools.

Local Abbreviation parenthesized s := (startsWith s (lit "(") && endsWith s (lit ")")).





Example wrap_bare : wrapExpression (lit " cf.waf.score lt 20 ") = lit "(cf.waf.score lt 20)".
Proof. reflexivity. Qed.

Example wrap_kept : wrapExpression (lit " (ip.src eq 1.1.1.1) ") = lit " (ip.src eq 1.1.1.1) ".
Proof. reflexivity. Qed.

Example wrap_two_groups : wrapExpression (lit "(a) or (b)") = lit "(a) or (b)".
Proof. reflexivity. Qed.

Example wrap_open_only : wrapExpression (lit "(") = lit "(()".
Proof. reflexivity. Qed.



(** ** The tools that read the agent context *)


(** ** scheduleTask *)

(** C2: a submission of type [no-schedule] never reaches
    [agent.schedule]: whatever the agent bound to the call, the tool
    returns the text [Not a valid schedule input] and the world is left
    as it was. *)
Theorem no_schedule_is_rejected
    (W : Type) (host : Host W) (agent : Agent W) (args : ScheduleArgs) (w : W) :
  type (when args) = lit "no-schedule" ->
  scheduleTask host (Some agent) args w =
  (Returned (VStr (lit "Not a valid schedule input")), w).
Proof.
  intros H. unfold scheduleTask. rewrite H. reflexivity.
Qed.

Lemma no_schedule_is_rejected_witness :
  scheduleTask Fixture.host (Some (Scheduler.agent Fixture.env))
    {| when := Fixture.onlyWhen (lit "no-schedule"); description := lit "nothing" |}
    (Fixture.fresh 0) =
  (Returned (VStr (lit "Not a valid schedule input")), Fixture.fresh 0).
Proof.
  apply (@no_schedule_is_rejected Fixture.W Fixture.host (Scheduler.agent Fixture.env)).
  reflexivity.
Defined.

(** C7: two failures leave a tool body as exceptions, not as text. A
    rule given as JSON text whose [expression] is a number makes
    [addCloudflareCustomRule] throw a [TypeError] at
    [rule.expression.trim()], outside both of its try blocks; and
    outside an agent context [scheduleTask] throws [No agent found]. *)
Theorem failures_escape_tool_bodies (W : Type) (host : Host W) (w : W) :
  (forall s props x,
     Tools.JSON_parse host s = Returned (VObj props) ->
     assoc (lit "type") props = None ->
     assoc (lit "expression") props = Some (VNum x) ->
     addCloudflareCustomRule host (VStr s) w
     = (Thrown (TypeError (lit "rule.expression.trim is not a function")), w))
  /\ (forall args,
        scheduleTask host None args w = (Thrown (Error (lit "No agent found")), w)).
Proof.
  split; [|reflexivity].
  intros s props x Hp Ht He.
  unfold addCloudflareCustomRule, parseRuleString. rewrite Hp.
  unfold unwrapRule. rewrite Ht.
  unfold ensureParentheses. rewrite He. reflexivity.
Qed.

Lemma failures_escape_tool_bodies_witness :
  addCloudflareCustomRule Fixture.host (VStr Fixture.numericExpressionRule) (Fixture.fresh 0)
  = (Thrown (TypeError (lit "rule.expression.trim is not a function")), Fixture.fresh 0).
Proof.
  refine (proj1 (@failures_escape_tool_bodies Fixture.W Fixture.host (Fixture.fresh 0))
            Fixture.numericExpressionRule _ 5%float _ _ _); reflexivity.
Defined.


Example past_instant_is_rejected :
  Scheduler.nextFireOf 5000 (Scheduler.scheduled {| getTime := 4000%float |})
  = inr (lit "instant is in the past").
Proof. reflexivity. Qed.

Example delay_is_added :
  Scheduler.nextFireOf 5000 (Scheduler.delayed 1.5%float) = inl 6500%Z.
Proof. reflexivity. Qed.



(** C4, as the code has it: when the type is [scheduled], [delayed] or
    [cron] and [agent.schedule] returns, the tool returns the text
    [Task scheduled for type "<type>" : <input>]; what [agent.schedule]
    returned is dropped. *)
Theorem accepted_submission_returns_confirmation
    (W : Type) (host : Host W) (agent : Agent W) (args : ScheduleArgs)
    (input : ScheduleInput) (v : Value) (w w' : W) :
  In (type (when args)) [lit "scheduled"; lit "delayed"; lit "cron"] ->
  inputOf (when args) w = (Returned input, w) ->
  schedule agent input (lit "executeTask") (description args) w = (Returned v, w') ->
  scheduleTask host (Some agent) args w
  = (Returned (VStr (lit "Task scheduled for type " ++ dquote ++ type (when args)
                     ++ dquote ++ lit " : " ++ inputToString host input)), w').
Proof.
  intros Ht Hin Hs. unfold scheduleTask.
  assert (N : str_eqb (type (when args)) (lit "no-schedule") = false).
  { destruct Ht as [<-|[<-|[<-|[]]]]; reflexivity. }
  rewrite N. unfold bind at 1. rewrite Hin.
  unfold try_catch, bind. now rewrite Hs.
Qed.

Lemma accepted_submission_returns_confirmation_witness :
  scheduleTask Fixture.host (Some (Scheduler.agent Fixture.env))
    (Fixture.delayOf 60%float) (Fixture.fresh 0)
  = (Returned (VStr (lit "Task scheduled for type " ++ dquote ++ lit "delayed"
                     ++ dquote ++ lit " : 60")),
     {| Scheduler.now := 0%Z;
        Scheduler.tasks :=
          [{| Scheduler.id := lit "task-0";
              Scheduler.spec := Scheduler.delayed 60%float;
              Scheduler.toolName := lit "executeTask";
              Scheduler.payload := lit "stretch";
              Scheduler.nextFire := 60000%Z |}];
        Scheduler.created := 1 |}).
Proof.
  refine (@accepted_submission_returns_confirmation Fixture.W Fixture.host
            (Scheduler.agent Fixture.env) (Fixture.delayOf 60%float)
            (AfterSeconds 60%float) (VStr (lit "task-0")) (Fixture.fresh 0) _ _ _ _).
  - right; left; reflexivity.
  - reflexivity.
  - reflexivity.
Defined.

(** C4 as stated fails: a delay of 60 seconds is accepted and the new
    task is named [task-0], yet the tool returns the confirmation text. *)
Lemma accepted_submission_does_not_return_identifier :
  fst (Scheduler.submit (Scheduler.delayed 60%float) (lit "executeTask") (lit "stretch")
         (Fixture.fresh 0))
  = Scheduler.Accepted (lit "task-0")
  /\ fst (scheduleTask Fixture.host (Some (Scheduler.agent Fixture.env))
            (Fixture.delayOf 60%float) (Fixture.fresh 0))
     <> Returned (VStr (lit "task-0")).
Proof.
  split; [reflexivity|].
  vm_compute. discriminate.
Qed.

(** ** Cron occurrences *)

Lemma find_seq_some (P : nat -> bool) (n a t : nat) :
  find P (seq a n) = Some t ->
  (a <= t < a + n)%nat /\ P t = true /\ forall u, (a <= u < t)%nat -> P u = false.
Proof.
  revert a; induction n as [|n IH]; intros a; simpl; [discriminate|].
  destruct (P a) eqn:E.
  - intros [= <-]. repeat split; try lia; auto.
  - intros H. destruct (IH _ H) as (B & Pt & Min).
    repeat split; try lia; auto.
    intros u Hu. destruct (Nat.eq_dec u a) as [->|Ne]; [exact E|apply Min; lia].
Qed.

Lemma find_seq_none (P : nat -> bool) (n a : nat) :
  find P (seq a n) = None -> forall u, (a <= u < a + n)%nat -> P u = false.
Proof.
  revert a; induction n as [|n IH]; intros a; simpl; [intros _ u Hu; lia|].
  destruct (P a) eqn:E; [discriminate|].
  intros H u Hu. destruct (Nat.eq_dec u a) as [->|Ne]; [exact E|apply (IH _ H); lia].
Qed.

Lemma search_first (c : Cron.Schedule) (h : nat) :
  forall (days : Z) (from : nat) (T : Z),
    (from <= 1440)%nat ->
    Cron.search c h days from = Some T ->
    exists (d : Z) (t : nat),
      T = ((d * 1440 + Z.of_nat t) * 60000)%Z
      /\ (t < 1440)%nat
      /\ (days < d \/ (d = days /\ from <= t)%nat)%Z
      /\ Cron.dayMatches c d = true /\ Cron.timeMatches c t = true
      /\ forall (d' : Z) (t' : nat),
           (t' < 1440)%nat ->
           (days < d' \/ (d' = days /\ from <= t')%nat)%Z ->
           (d' < d \/ (d' = d /\ t' < t)%nat)%Z ->
           Cron.dayMatches c d' && Cron.timeMatches c t' = false.
Proof.
  induction h as [|h IH]; intros days from T Hf; simpl; [discriminate|].
  destruct (if Cron.dayMatches c days then Cron.firstMinute c from else None) as [t|] eqn:E.
  - intros [= <-].
    destruct (Cron.dayMatches c days) eqn:D; [|discriminate].
    unfold Cron.firstMinute in E. apply find_seq_some in E as (B & Pt & Min).
    exists days, t. repeat split; auto; try lia.
    intros d' t' Ht' [L|[E L]] [U|[E' U]]; try lia.
    rewrite (Min t'); [apply andb_false_r|lia].
  - intros H. destruct (IH _ _ _ (Nat.le_0_l _) H) as (d & t & -> & Ht & Lo & Dd & Pt & Min).
    exists d, t. repeat split; auto; try lia.
    intros d' t' Ht' Lo' Up'.
    destruct (Z.eq_dec d' days) as [->|Ne].
    + destruct Lo' as [L|[_ L]]; [lia|].
      destruct (Cron.dayMatches c days) eqn:D; [|reflexivity].
      unfold Cron.firstMinute in E.
      rewrite (@find_seq_none _ _ _ E t'); [reflexivity|lia].
    + apply Min; auto. destruct Lo' as [L|[-> _]]; [|congruence].
      destruct (Z.eq_dec d' (days + 1)); [right; split; [auto|lia]|left; lia].
Qed.

Lemma next_first (c : Cron.Schedule) (now T : Z) :
  Cron.next c now = Some T ->
  (now < T)%Z /\ Cron.occurs c T = true
  /\ forall u, (now < u < T)%Z -> Cron.occurs c u = false.
Proof.
  unfold Cron.next. intros H.
  pose proof (Z.mod_pos_bound (now / 60000) 1440 ltac:(lia)) as Hm.
  pose proof (Z.div_mod (now / 60000) 1440 ltac:(lia)) as Em.
  pose proof (Z.mod_pos_bound now 60000 ltac:(lia)) as Hn.
  pose proof (Z.div_mod now 60000 ltac:(lia)) as En.
  apply search_first in H as (d & t & -> & Ht & Lo & Dd & Pt & Min); [|lia].
  set (m := (now / 60000)%Z) in *.
  split; [|split].
  - destruct Lo as [L|[-> L]]; lia.
  - unfold Cron.occurs.
    replace (((d * 1440 + Z.of_nat t) * 60000) mod 60000)%Z with 0%Z
      by (symmetry; apply Z.mod_mul; lia).
    replace (((d * 1440 + Z.of_nat t) * 60000) / 86400000)%Z with d.
    2:{ apply Z.div_unique with (r := (Z.of_nat t * 60000)%Z); lia. }
    rewrite Z.div_mul by lia.
    replace ((d * 1440 + Z.of_nat t) mod 1440)%Z with (Z.of_nat t).
    2:{ apply Z.mod_unique with (q := d); lia. }
    rewrite Nat2Z.id, Dd, Pt. reflexivity.
  - intros u Hu. unfold Cron.occurs.
    destruct (u mod 60000 =? 0)%Z eqn:E0; [|reflexivity].
    apply Z.eqb_eq in E0.
    pose proof (Z.div_mod u 60000 ltac:(lia)) as Eu. rewrite E0 in Eu.
    set (mu := (u / 60000)%Z) in *.
    pose proof (Z.mod_pos_bound mu 1440 ltac:(lia)) as Hmu.
    pose proof (Z.div_mod mu 1440 ltac:(lia)) as Emu.
    replace (u / 86400000)%Z with (mu / 1440)%Z.
    2:{ unfold mu. rewrite Z.div_div by lia. reflexivity. }
    simpl andb.
    apply (Min (mu / 1440)%Z (Z.to_nat (mu mod 1440))).
    + lia.
    + destruct (Z_lt_le_dec (m / 1440) (mu / 1440)) as [L|L]; [left; exact L|].
      right. split; lia.
    + destruct (Z_lt_le_dec (mu / 1440) d) as [L|L]; [left; exact L|].
      right. split; lia.
Qed.

Example calendar_days :
  Cron.civil_from_days 0 = (1970, 1, 1)%Z
  /\ Cron.civil_from_days 11016 = (2000, 2, 29)%Z
  /\ Cron.civil_from_days (Cron.days_from_civil 2024 1 1) = (2024, 1, 1)%Z
  /\ Cron.weekday (Cron.days_from_civil 2024 1 1) = 1%Z
  /\ Cron.utc 2024 1 1 10 0 0 = 1704103200000%Z.
Proof. repeat split. Qed.

Example cron_weekdays :
  option_map (fun c => Cron.next c (Cron.utc 2024 3 1 10 0 0))
    (Cron.parse (lit "*/15 8-10 * * 1-5"))
  = Some (Some (Cron.utc 2024 3 1 10 15 0)).
Proof. vm_compute. reflexivity. Qed.

Example cron_leap_day :
  option_map (fun c => Cron.next c (Cron.utc 2024 3 1 10 0 0)) (Cron.parse (lit "0 0 29 2 *"))
  = Some (Some (Cron.utc 2028 2 29 0 0 0)).
Proof. vm_compute. reflexivity. Qed.

Example cron_malformed :
  Cron.parse (lit "0 9 * *") = None /\ Cron.parse (lit "60 9 * * *") = None
  /\ Scheduler.nextFireOf 0 (Scheduler.cron (lit "every day"))
     = inr (lit "malformed cron expression").
Proof. repeat split. Qed.

(** C5: at 2024-01-01T10:00:00Z the cron expression [0 9 * * *] next
    fires at 2024-01-02T09:00:00Z, the first instant strictly after now
    at which it occurs, and that is the instant recorded in the task
    that the submission creates. *)
Theorem cron_next_fire_example (host : Host Scheduler.State) (env : Env Scheduler.State) :
  Scheduler.nextFireOf (Cron.utc 2024 1 1 10 0 0) (Scheduler.cron (lit "0 9 * * *"))
  = inl (Cron.utc 2024 1 2 9 0 0)
  /\ (exists c,
        Cron.parse (lit "0 9 * * *") = Some c
        /\ (Cron.utc 2024 1 1 10 0 0 < Cron.utc 2024 1 2 9 0 0)%Z
        /\ Cron.occurs c (Cron.utc 2024 1 2 9 0 0) = true
        /\ forall u, (Cron.utc 2024 1 1 10 0 0 < u < Cron.utc 2024 1 2 9 0 0)%Z ->
                     Cron.occurs c u = false)
  /\ scheduleTask host (Some (Scheduler.agent env)) (Fixture.cronOf (lit "0 9 * * *"))
       (Fixture.fresh (Cron.utc 2024 1 1 10 0 0))
     = (Returned (VStr (lit "Task scheduled for type " ++ dquote ++ lit "cron" ++ dquote
                        ++ lit " : 0 9 * * *")),
        {| Scheduler.now := Cron.utc 2024 1 1 10 0 0;
           Scheduler.tasks :=
             [{| Scheduler.id := lit "task-0";
                 Scheduler.spec := Scheduler.cron (lit "0 9 * * *");
                 Scheduler.toolName := lit "executeTask";
                 Scheduler.payload := lit "stand-up";
                 Scheduler.nextFire := Cron.utc 2024 1 2 9 0 0 |}];
           Scheduler.created := 1 |}).
Proof.
  split; [vm_compute; reflexivity|]. split; [|vm_compute; reflexivity].
  destruct (Cron.parse (lit "0 9 * * *")) as [c|] eqn:P; [|vm_compute in P; discriminate].
  exists c. split; [reflexivity|].
  apply next_first.
  assert (E : option_map (fun c => Cron.next c (Cron.utc 2024 1 1 10 0 0))
                (Cron.parse (lit "0 9 * * *"))
              = Some (Some (Cron.utc 2024 1 2 9 0 0))) by (vm_compute; reflexivity).
  rewrite P in E. now injection E.
Qed.

(** ** The tools export and the gate *)

Lemma assoc_In {A : Type} (k : JsString) (l : list (JsString * A)) (v : A) :
  assoc k l = Some v -> In (k, v) l.
Proof.
  induction l as [|[k' v'] l IH]; simpl; [discriminate|].
  destruct (str_eqb k k') eqn:E.
  - apply str_eqb_eq in E; subst. intros [= ->]. now left.
  - intros H; right; auto.
Qed.

Section Registry.

Variable W : Type.
Variable host : Host W.
Variable store : option (Agent W).
Variable unstable_scheduleSchema : Schema ScheduleArgs.
Variable getWeatherInformation getLocalTime searchPokemon : JsString -> Eff W Value.
Variable searchCountry : SearchCountryArgs -> Eff W Value.

Local Abbreviation tools :=
  (Tools.tools host store unstable_scheduleSchema getWeatherInformation getLocalTime
     searchCountry searchPokemon).

Lemma tools_all_execute (name : JsString) (d : ToolDefinition W) :
  In (name, d) tools -> exists run, execute d = Some run.
Proof.
  unfold Tools.tools; simpl.
  intros H.
  repeat (destruct H as [H|H]; [injection H as _ <-; eexists; reflexivity|]).
  destruct H.
Qed.

Lemma dispatch_with_executor
    (registry : Gate.Registry W) (now : N) (message name : JsString) (raw : Value)
    (callId : JsString) (s : Gate.State W) (d : ToolDefinition W)
    (run : Args d -> Eff W Value) :
  Gate.lookup registry name = Some d ->
  execute d = Some run ->
  Gate.pending (snd (Gate.dispatch registry now message name raw callId s)) = Gate.pending s
  /\ fst (Gate.dispatch registry now message name raw callId s) <> Gate.Pending
  /\ forall args, parameters d raw = Valid args ->
       Gate.dispatch registry now message name raw callId s =
       match run args (Gate.world s) with
       | (Returned result, w') =>
         (Gate.Executed result, {| Gate.pending := Gate.pending s; Gate.world := w' |})
       | (Thrown e, w') =>
         (Gate.Failed (Gate.ExecutionError e),
          {| Gate.pending := Gate.pending s; Gate.world := w' |})
       end.
Proof.
  intros Hl He. unfold Gate.dispatch. rewrite Hl.
  destruct (parameters d raw) as [args|issues].
  - rewrite He.
    destruct (run args (Gate.world s)) as [[result|e] w'] eqn:R; simpl;
      (split; [reflexivity|split; [discriminate|]]);
      intros a [= <-]; now rewrite R.
  - simpl. split; [reflexivity|split; [discriminate|]]. intros a [=].
Qed.

(** C1: under the gate of the specification, dispatching a registered
    tool that has an executor runs the executor on the parsed arguments
    and adds no pending confirmation. The [tools] export holds eleven
    tools, each with an executor, and [executions] is empty, so no
    dispatch over it adds a pending confirmation or answers [Pending]. *)
Theorem auto_executed_tools_never_wait :
  (forall (registry : Gate.Registry W) now message name raw callId s
          (d : ToolDefinition W) (run : Args d -> Eff W Value),
     Gate.lookup registry name = Some d ->
     execute d = Some run ->
     Gate.pending (snd (Gate.dispatch registry now message name raw callId s))
     = Gate.pending s
     /\ fst (Gate.dispatch registry now message name raw callId s) <> Gate.Pending
     /\ forall args, parameters d raw = Valid args ->
          Gate.dispatch registry now message name raw callId s =
          match run args (Gate.world s) with
          | (Returned result, w') =>
            (Gate.Executed result,
             {| Gate.pending := Gate.pending s; Gate.world := w' |})
          | (Thrown e, w') =>
            (Gate.Failed (Gate.ExecutionError e),
             {| Gate.pending := Gate.pending s; Gate.world := w' |})
          end)
  /\ List.length tools = 11
  /\ (forall name d, In (name, d) tools -> Gate.requiresConfirmation d = false)
  /\ executions W = []
  /\ (forall now message name raw callId s,
        Gate.pending (snd (Gate.dispatch tools now message name raw callId s))
        = Gate.pending s
        /\ fst (Gate.dispatch tools now message name raw callId s) <> Gate.Pending).
Proof.
  split; [intros; now apply dispatch_with_executor|].
  split; [reflexivity|].
  split.
  { intros name d H. destruct (tools_all_execute H) as [run E].
    unfold Gate.requiresConfirmation. now rewrite E. }
  split; [reflexivity|].
  intros now message name raw callId s.
  destruct (Gate.lookup tools name) as [d|] eqn:L.
  - destruct (tools_all_execute (assoc_In _ _ L)) as [run E].
    destruct (@dispatch_with_executor tools now message name raw callId s d run L E)
      as (P & Q & _).
    now split.
  - unfold Gate.dispatch. rewrite L. simpl. split; [reflexivity|discriminate].
Qed.

Lemma lookup_generateImage :
  Gate.lookup tools (lit "generateImage")
  = Some {| parameters := generateImage_parameters;
            execute := Some (generateImage host store) |}.
Proof. reflexivity. Qed.

Lemma prompt_length_is_checked (props : list (JsString * Value)) (p : JsString) :
  assoc (lit "prompt") props = Some (VStr p) ->
  Js.length p = 0%nat \/ (2048 < N.of_nat (Js.length p))%N ->
  exists issues,
    field props (lit "prompt") (z_string_checked [min_length 1; max_length 2048])
    = Invalid issues.
Proof.
  intros Hp Hlen. unfold field. rewrite Hp. unfold z_string_checked; simpl.
  unfold min_length, max_length.
  destruct Hlen as [Z|L].
  - rewrite Z; simpl. eexists; reflexivity.
  - apply N.ltb_lt in L. rewrite L.
    destruct (N.of_nat (Js.length p) <? 1)%N; simpl; eexists; reflexivity.
Qed.

Lemma steps_range_is_checked (props : list (JsString * Value)) (x : Number) :
  assoc (lit "steps") props = Some (VNum x) ->
  (x <? 1)%float = true \/ (8 <? x)%float = true ->
  exists issues,
    field props (lit "steps")
      (z_default (z_optional (z_number_checked [min_value 1%float; max_value 8%float]))
         4%float)
    = Invalid issues.
Proof.
  intros Hs Hx. unfold field. rewrite Hs.
  unfold z_default, z_optional, z_number_checked, min_value, max_value; simpl.
  destruct (isNaN x); [simpl; eexists; reflexivity|].
  destruct Hx as [L|L]; rewrite L.
  - destruct (8 <? x)%float; simpl; eexists; reflexivity.
  - destruct (x <? 1)%float; simpl; eexists; reflexivity.
Qed.

(** C8: arguments of [generateImage] with an empty prompt, a prompt of
    more than 2048 characters, or a number of steps below 1 or above 8
    are refused by the schema; under the gate of the specification the
    dispatch fails with [ValidationError] carrying the issues and leaves
    the pending confirmations and the world as they were, so the
    executor is not run. *)
Theorem invalid_image_arguments_are_refused
    (now : N) (message callId : JsString) (s : Gate.State W)
    (props : list (JsString * Value)) :
  (exists p, assoc (lit "prompt") props = Some (VStr p)
             /\ (Js.length p = 0%nat \/ (2048 < N.of_nat (Js.length p))%N))
  \/ (exists x, assoc (lit "steps") props = Some (VNum x)
                /\ ((x <? 1)%float = true \/ (8 <? x)%float = true)) ->
  exists issues,
    generateImage_parameters (VObj props) = Invalid issues
    /\ Gate.dispatch tools now message (lit "generateImage") (VObj props) callId s
       = (Gate.Failed (Gate.ValidationError issues), s).
Proof.
  intros H.
  assert (I : exists issues, generateImage_parameters (VObj props) = Invalid issues).
  { unfold generateImage_parameters, z_object.
    destruct H as [(p & Hp & Hlen)|(x & Hs & Hx)].
    - destruct (prompt_length_is_checked _ Hp Hlen) as [i ->].
      destruct (field props (lit "steps") _); simpl; eexists; reflexivity.
    - destruct (steps_range_is_checked _ Hs Hx) as [i ->].
      destruct (field props (lit "prompt") _); simpl; eexists; reflexivity. }
  destruct I as [issues I]. exists issues. split; [exact I|].
  unfold Gate.dispatch. rewrite lookup_generateImage. cbn [parameters]. now rewrite I.
Qed.

End Registry.

Lemma auto_executed_tools_never_wait_witness :
  Gate.pending
    (snd (Gate.dispatch Fixture.tools 0 (lit "m1") (lit "sendWebhook")
            (VObj [(lit "message", VStr (lit "hello"))]) (lit "c1") Fixture.idle))
  = [].
Proof.
  refine (proj1 (proj1 (@auto_executed_tools_never_wait Fixture.W Fixture.host None
                          Fixture.scheduleSchema
                          (fun _ => ret VNull) (fun _ => ret VNull) (fun _ => ret VNull)
                          (fun _ => ret VNull))
                   Fixture.tools 0%N (lit "m1") (lit "sendWebhook")
                   (VObj [(lit "message", VStr (lit "hello"))]) (lit "c1") Fixture.idle
                   {| parameters := sendWebhook_parameters;
                      execute := Some (sendWebhook Fixture.host) |}
                   (sendWebhook Fixture.host) _ _));
    reflexivity.
Defined.

Lemma invalid_image_arguments_are_refused_witness :
  exists issues,
    Gate.dispatch Fixture.tools 0 (lit "m1") (lit "generateImage")
      (VObj [(lit "prompt", VStr (lit "a cat")); (lit "steps", VNum 9%float)])
      (lit "c1") Fixture.idle
    = (Gate.Failed (Gate.ValidationError issues), Fixture.idle).
Proof.
  destruct (@invalid_image_arguments_are_refused Fixture.W Fixture.host None
              Fixture.scheduleSchema
              (fun _ => ret VNull) (fun _ => ret VNull) (fun _ => ret VNull)
              (fun _ => ret VNull)
              0%N (lit "m1") (lit "c1") Fixture.idle
              [(lit "prompt", VStr (lit "a cat")); (lit "steps", VNum 9%float)])
    as [issues [_ E]].
  - right. exists 9%float. split; [reflexivity|right; reflexivity].
  - exists issues. exact E.
Defined.

Example dispatch_unknown_tool :
  Gate.dispatch Fixture.tools 0 (lit "m1") (lit "wipeDb") (VObj []) (lit "c2") Fixture.idle
  = (Gate.Failed (Gate.UnknownToolError (lit "wipeDb")), Fixture.idle).
Proof. reflexivity. Qed.

Example image_steps_default :
  generateImage_parameters (VObj [(lit "prompt", VStr (lit "a cat"))])
  = Valid {| prompt := lit "a cat"; steps := 4%float |}.
Proof. reflexivity. Qed.

Example image_issues :
  generateImage_parameters (VObj [(lit "prompt", VStr []); (lit "steps", VNum 0.5%float)])
  = Invalid [ {| code := too_small; path := [lit "prompt"] |};
              {| code := too_small; path := [lit "steps"] |} ].
Proof. reflexivity. Qed.

Example dispatch_without_context :
  fst (Gate.dispatch Fixture.tools 0 (lit "m1") (lit "scheduleTask")
         (VObj [(lit "description", VStr (lit "stretch"));
                (lit "when", VObj [(lit "type", VStr (lit "delayed"));
                                   (lit "delayInSeconds", VNum 60%float)])])
         (lit "c3") Fixture.idle)
  = Gate.Failed (Gate.ExecutionError (Error (lit "No agent found"))).
Proof. reflexivity. Qed.

(* ================================================================== *)
(** * Further properties of the code *)

Lemma str_eqb_neq (a b : JsString) : str_eqb a b = false <-> a <> b.
Proof.
  split.
  - intros H E. apply str_eqb_eq in E. congruence.
  - intros H. destruct (str_eqb a b) eqn:E; [|reflexivity].
    apply str_eqb_eq in E. contradiction.
Qed.

Lemma str_eqb_sym (a b : JsString) : str_eqb a b = str_eqb b a.
Proof.
  destruct (str_eqb a b) eqn:E.
  - apply str_eqb_eq in E. subst. symmetry. apply str_eqb_refl.
  - symmetry. apply str_eqb_neq. apply str_eqb_neq in E. congruence.
Qed.

(** ** worker.js: every answer of the calculator *)

(** A parameter added after the others is not read when its name is
    already there, or is none of the three names the handler asks for. *)
Lemma get_app_ignored (name k v : JsString) (ps : list (JsString * JsString)) :
  k <> name \/ Worker.get name ps <> None ->
  Worker.get name (ps ++ [(k, v)]) = Worker.get name ps.
Proof.
  intros H. induction ps as [|[k' v'] ps IH]; simpl.
  - destruct H as [H|H]; [|now elim H].
    apply str_eqb_neq in H. now rewrite H.
  - simpl in H. destruct (str_eqb k' name); [reflexivity|].
    apply IH. exact H.
Qed.

Section CalculatorFacts.

Variable parseFloat : JsString -> Number.
Variable JSON_stringify : Value -> JsString.

Local Abbreviation operand name request :=
  (Worker.parseFloatOf parseFloat (Worker.get (lit name) (Worker.searchParams request))).

Local Abbreviation apply_op op a b :=
  (match op with
   | Worker.OpAdd => a + b | Worker.OpSub => a - b
   | Worker.OpMul => a * b | Worker.OpDiv => a / b
   end%float).

(** X1: every answer of the calculator worker is one of two kinds. Either
    it evaluated exactly one operation on the two operands read from [a]
    and [b] and answers with the JSON of that result, or it evaluated
    nothing and answers with one of four fixed texts: [Not Found] with
    status 404, or [Invalid numbers], [Invalid operation], [Cannot divide
    by zero] with status 400. *)
Theorem calc_response_shape (request : Worker.Request) :
  (exists op,
      Worker.fetch parseFloat JSON_stringify request
      = {| Worker.evaluated := [(op, operand "a" request, operand "b" request)];
           Worker.response :=
             Worker.json JSON_stringify
               (apply_op op (operand "a" request) (operand "b" request)) |})
  \/ (exists text code,
        Worker.fetch parseFloat JSON_stringify request
        = {| Worker.evaluated := []; Worker.response := Worker.plain text code |}
        /\ In (text, code)
             [(lit "Not Found", 404%Z); (lit "Invalid numbers", 400%Z);
              (lit "Invalid operation", 400%Z); (lit "Cannot divide by zero", 400%Z)]).
Proof.
  unfold Worker.fetch.
  destruct (negb _); [right; do 2 eexists; split; [reflexivity|simpl; tauto]|].
  destruct (isNaN _ || isNaN _); [right; do 2 eexists; split; [reflexivity|simpl; tauto]|].
  destruct (Worker.get (lit "op") _) as [o|];
    [|right; do 2 eexists; split; [reflexivity|simpl; tauto]].
  destruct (str_eqb o (lit "add")); [left; exists Worker.OpAdd; reflexivity|].
  destruct (str_eqb o (lit "sub")); [left; exists Worker.OpSub; reflexivity|].
  destruct (str_eqb o (lit "mul")); [left; exists Worker.OpMul; reflexivity|].
  destruct (str_eqb o (lit "div"));
    [|right; do 2 eexists; split; [reflexivity|simpl; tauto]].
  destruct (num_eq _ _); [right; do 2 eexists; split; [reflexivity|simpl; tauto]|].
  left; exists Worker.OpDiv; reflexivity.
Qed.

(** X2: the calculator answers with status 200 exactly when the path is
    [/calc], both operands read as numbers, and [op] is [add], [sub],
    [mul], or [div] with a divisor that is not zero. *)
Theorem calc_succeeds_iff (request : Worker.Request) :
  Worker.status (Worker.response (Worker.fetch parseFloat JSON_stringify request)) = 200%Z
  <-> Worker.pathname request = lit "/calc"
      /\ isNaN (operand "a" request) = false
      /\ isNaN (operand "b" request) = false
      /\ exists o,
           Worker.get (lit "op") (Worker.searchParams request) = Some o
           /\ (o = lit "add" \/ o = lit "sub" \/ o = lit "mul"
               \/ (o = lit "div" /\ num_eq (operand "b" request) 0%float = false)).
Proof.
  unfold Worker.fetch.
  destruct (str_eqb (Worker.pathname request) (lit "/calc")) eqn:P; simpl negb; cbv iota.
  2:{ split; [cbn -[lit]; intros H; discriminate H|].
      intros (E & _). apply str_eqb_neq in P. contradiction. }
  apply str_eqb_eq in P.
  set (a := operand "a" request). set (b := operand "b" request).
  destruct (isNaN a) eqn:Na; cbn [orb].
  { split; [cbn -[lit]; intros H; discriminate H|]. intros (_ & E & _). discriminate. }
  destruct (isNaN b) eqn:Nb.
  { split; [cbn -[lit]; intros H; discriminate H|]. intros (_ & _ & E & _). discriminate. }
  destruct (Worker.get (lit "op") (Worker.searchParams request)) as [o|].
  2:{ split; [cbn -[lit]; intros H; discriminate H|].
      intros (_ & _ & _ & o & E & _). discriminate. }
  destruct (str_eqb o (lit "add")) eqn:A.
  { apply str_eqb_eq in A. split; [|reflexivity]. intros _. repeat split; auto. exists o. auto. }
  destruct (str_eqb o (lit "sub")) eqn:S.
  { apply str_eqb_eq in S. split; [|reflexivity]. intros _. repeat split; auto. exists o. auto. }
  destruct (str_eqb o (lit "mul")) eqn:M.
  { apply str_eqb_eq in M. split; [|reflexivity]. intros _. repeat split; auto. exists o. auto. }
  apply str_eqb_neq in A, S, M.
  destruct (str_eqb o (lit "div")) eqn:D.
  - apply str_eqb_eq in D.
    destruct (num_eq b 0%float) eqn:Z.
    + split; [cbn -[lit]; intros H; discriminate H|].
      intros (_ & _ & _ & o' & [= <-] & [E|[E|[E|[_ E]]]]); congruence.
    + split; [|reflexivity]. intros _. repeat split; auto. exists o. auto 6.
  - apply str_eqb_neq in D. split; [cbn -[lit]; intros H; discriminate H|].
    intros (_ & _ & _ & o' & [= <-] & [E|[E|[E|[E _]]]]); congruence.
Qed.

(** X3: a request to [/calc] that leaves out [a] or [b], or gives one
    that does not read as a number, is answered [Invalid numbers] with
    status 400 whatever [op] is, given that [parseFloat] reads the text
    [null] as [NaN]. The handler passes the missing parameter, [null], to
    [parseFloat]. *)
Theorem missing_operand_is_invalid (request : Worker.Request) :
  isNaN (parseFloat (lit "null")) = true ->
  Worker.pathname request = lit "/calc" ->
  Worker.get (lit "a") (Worker.searchParams request) = None
  \/ Worker.get (lit "b") (Worker.searchParams request) = None
  \/ isNaN (operand "a" request) = true
  \/ isNaN (operand "b" request) = true ->
  Worker.fetch parseFloat JSON_stringify request
  = {| Worker.evaluated := [];
       Worker.response := Worker.plain (lit "Invalid numbers") 400 |}.
Proof.
  intros Hnull Hp H. unfold Worker.fetch. rewrite Hp. simpl negb. cbv iota.
  assert (N : isNaN (operand "a" request) || isNaN (operand "b" request) = true).
  { destruct H as [E|[E|[E|E]]].
    - rewrite E. cbn [Worker.parseFloatOf]. now rewrite Hnull.
    - rewrite E. cbn [Worker.parseFloatOf]. rewrite Hnull. apply orb_true_r.
    - now rewrite E.
    - rewrite E. apply orb_true_r. }
  now rewrite N.
Qed.

(** X4: of a parameter given more than once, only the first value counts,
    and a parameter with any other name than [op], [a] and [b] is never
    read: adding a parameter at the end of the query changes nothing when
    its name is already there or is none of the three. *)
Theorem later_parameters_are_ignored
    (request : Worker.Request) (k v : JsString) :
  ~ In k [lit "op"; lit "a"; lit "b"]
  \/ Worker.get k (Worker.searchParams request) <> None ->
  Worker.fetch parseFloat JSON_stringify
    {| Worker.pathname := Worker.pathname request;
       Worker.searchParams := Worker.searchParams request ++ [(k, v)] |}
  = Worker.fetch parseFloat JSON_stringify request.
Proof.
  intros H.
  assert (G : forall name, In name [lit "op"; lit "a"; lit "b"] ->
                Worker.get name (Worker.searchParams request ++ [(k, v)])
                = Worker.get name (Worker.searchParams request)).
  { intros name Hn. apply get_app_ignored.
    destruct (str_eqb k name) eqn:E.
    - apply str_eqb_eq in E; subst name. right.
      destruct H as [H|H]; [contradiction|exact H].
    - left. now apply str_eqb_neq. }
  unfold Worker.fetch. cbn [Worker.pathname Worker.searchParams].
  rewrite (G (lit "op")), (G (lit "a")), (G (lit "b")); simpl; tauto.
Qed.

End CalculatorFacts.

Lemma missing_operand_is_invalid_witness :
  Worker.fetch Fixture.parseFloat Fixture.JSON_stringify
    {| Worker.pathname := lit "/calc";
       Worker.searchParams := [(lit "op", lit "add"); (lit "a", lit "1")] |}
  = {| Worker.evaluated := [];
       Worker.response := Worker.plain (lit "Invalid numbers") 400 |}.
Proof.
  apply (@missing_operand_is_invalid Fixture.parseFloat Fixture.JSON_stringify
           {| Worker.pathname := lit "/calc";
              Worker.searchParams := [(lit "op", lit "add"); (lit "a", lit "1")] |}).
  - reflexivity.
  - reflexivity.
  - right; left; reflexivity.
Defined.

Lemma later_parameters_are_ignored_witness :
  Worker.fetch Fixture.parseFloat Fixture.JSON_stringify
    {| Worker.pathname := lit "/calc";
       Worker.searchParams :=
         [(lit "op", lit "add"); (lit "a", lit "2"); (lit "b", lit "3")]
         ++ [(lit "a", lit "9")] |}
  = Worker.fetch Fixture.parseFloat Fixture.JSON_stringify (Fixture.calc "add" "2" "3").
Proof.
  apply (@later_parameters_are_ignored Fixture.parseFloat Fixture.JSON_stringify
           (Fixture.calc "add" "2" "3") (lit "a") (lit "9")).
  right. simpl. discriminate.
Defined.

(** ** Effects: a handler that returns, and computations that leave the world alone *)


Lemma bind_pure (W A B : Type) (m : Eff W A) (k : A -> Eff W B) :
  (forall w, snd (m w) = w) -> (forall a w, snd (k a w) = w) ->
  forall w, snd (bind m k w) = w.
Proof.
  intros Hm Hk w. unfold bind. specialize (Hm w).
  destruct (m w) as [[a|e] w1]; simpl in Hm; subst w1; [apply Hk|reflexivity].
Qed.

Lemma bind_world (W A B : Type) (m : Eff W A) (k : A -> Eff W B) :
  (forall a w, snd (k a w) = w) ->
  forall w, snd (bind m k w) = snd (m w).
Proof.
  intros Hk w. unfold bind.
  destruct (m w) as [[a|e] w1]; [apply Hk|reflexivity].
Qed.

Lemma try_catch_world (W A : Type) (body : Eff W A) (handler : JsError -> Eff W A) :
  (forall e w, snd (handler e w) = w) ->
  forall w, snd (try_catch body handler w) = snd (body w).
Proof.
  intros H w. unfold try_catch.
  destruct (body w) as [[a|e] w1]; [reflexivity|apply H].
Qed.

Ltac pure_step :=
  match goal with
  | |- forall _, _ => intro
  | |- snd (bind _ _ _) = _ => apply bind_pure
  | |- snd (ret _ _) = _ => reflexivity
  | |- snd (throw _ _) = _ => reflexivity
  | |- snd (lift _ _) = _ => reflexivity
  | |- snd ((if ?b then _ else _) _) = _ => destruct b
  | |- snd (match ?x with _ => _ end _) = _ => destruct x
  end.

(** ** sendWebhook *)

(** X5: sendWebhook reports success exactly when its one request, a POST
    of [{"text": message}] as JSON to the URL in GOOGLE_CHAT_WEBHOOK_URL
    (the empty URL when the variable is not set), is answered, the body
    of the answer can be read, and the status is one of success. *)
Theorem sendWebhook_succeeds_iff
    (W : Type) (host : Host W) (message : JsString) (w : W) :
  fst (sendWebhook host message w)
  = Returned (content (lit "Message successfully sent to the webhook."))
  <-> exists response w' responseText,
        fetch host (env_or host (lit "GOOGLE_CHAT_WEBHOOK_URL") [])
          {| method := lit "POST";
             headers := [(lit "Content-Type", lit "application/json; charset=UTF-8")];
             body := Some (Tools.JSON_stringify host (VObj [(lit "text", VStr message)]));
             redirect := None |} w
        = (Returned response, w')
        /\ text response = Returned responseText
        /\ ok response = true.
Proof.
  unfold sendWebhook, try_catch, bind.
  destruct (fetch host _ _ w) as [[response|e] w'].
  - unfold lift. destruct (text response) as [t|e] eqn:T.
    + destruct (ok response) eqn:O.
      * split; [|reflexivity]. intros _. now exists response, w', t.
      * split; [intros H; discriminate H|].
        intros (r & w1 & t1 & [= <- <-] & _ & E). congruence.
    + split; [intros H; discriminate H|].
      intros (r & w1 & t1 & [= <- <-] & E & _). congruence.
  - split; [intros H; discriminate H|].
    intros (r & w1 & t1 & E & _). discriminate E.
Qed.

(** ** scheduleTask *)

(** X6: scheduleTask reads of [when] only the type and the one field that
    goes with it ([date] for [scheduled], [delayInSeconds] for [delayed],
    [cron] for [cron]): two calls that agree on these and on the
    description run alike, whatever the other fields hold. *)
Theorem scheduleTask_reads_the_typed_field
    (W : Type) (host : Host W) (store : option (Agent W)) (args args' : ScheduleArgs) :
  type (when args) = type (when args') ->
  description args = description args' ->
  (type (when args) = lit "scheduled" -> date (when args) = date (when args')) ->
  (type (when args) = lit "delayed" ->
   delayInSeconds (when args) = delayInSeconds (when args')) ->
  (type (when args) = lit "cron" -> cron (when args) = cron (when args')) ->
  forall w, scheduleTask host store args w = scheduleTask host store args' w.
Proof.
  intros Ht Hd Hs Hl Hc w. unfold scheduleTask, inputOf.
  rewrite <- Ht, <- Hd.
  destruct store as [agent|]; [|reflexivity].
  destruct (str_eqb (type (when args)) (lit "no-schedule")); [reflexivity|].
  destruct (str_eqb (type (when args)) (lit "scheduled")) eqn:S.
  { apply str_eqb_eq in S. now rewrite <- (Hs S). }
  destruct (str_eqb (type (when args)) (lit "delayed")) eqn:L.
  { apply str_eqb_eq in L. now rewrite <- (Hl L). }
  destruct (str_eqb (type (when args)) (lit "cron")) eqn:C.
  { apply str_eqb_eq in C. now rewrite <- (Hc C). }
  reflexivity.
Qed.

Lemma scheduleTask_reads_the_typed_field_witness :
  scheduleTask Fixture.host (Some (Scheduler.agent Fixture.env))
    (Fixture.delayOf 60%float) (Fixture.fresh 0)
  = scheduleTask Fixture.host (Some (Scheduler.agent Fixture.env))
      {| when := {| type := lit "delayed"; date := Some {| getTime := 5%float |};
                    delayInSeconds := Some 60%float; cron := Some (lit "* * * * *") |};
         description := lit "stretch" |} (Fixture.fresh 0).
Proof.
  apply (@scheduleTask_reads_the_typed_field Fixture.W Fixture.host
           (Some (Scheduler.agent Fixture.env)) (Fixture.delayOf 60%float)
           {| when := {| type := lit "delayed"; date := Some {| getTime := 5%float |};
                         delayInSeconds := Some 60%float; cron := Some (lit "* * * * *") |};
              description := lit "stretch" |}).
  - reflexivity.
  - reflexivity.
  - intros H; discriminate H.
  - reflexivity.
  - intros H; discriminate H.
Defined.

(** X7: for the types [scheduled], [delayed] and [cron], scheduleTask
    calls [agent.schedule] once, with the input of that type, the
    callback [executeTask] and the description, and does nothing else to
    the world; whether the call returns or throws, the tool returns a
    text. *)
Theorem scheduleTask_calls_schedule_once
    (W : Type) (host : Host W) (agent : Agent W) (args : ScheduleArgs) (w : W) :
  In (type (when args)) [lit "scheduled"; lit "delayed"; lit "cron"] ->
  exists input,
    inputOf (when args) w = (Returned input, w)
    /\ snd (scheduleTask host (Some agent) args w)
       = snd (schedule agent input (lit "executeTask") (description args) w)
    /\ exists t, fst (scheduleTask host (Some agent) args w) = Returned (VStr t).
Proof.
  intros Ht.
  assert (N : str_eqb (type (when args)) (lit "no-schedule") = false).
  { destruct Ht as [<-|[<-|[<-|[]]]]; reflexivity. }
  assert (I : exists input, inputOf (when args) w = (Returned input, w)).
  { unfold inputOf. destruct Ht as [<-|[<-|[<-|[]]]]; cbn -[lit]; eexists; reflexivity. }
  destruct I as [input I]. exists input. split; [exact I|].
  assert (E : scheduleTask host (Some agent) args w
              = match schedule agent input (lit "executeTask") (description args) w with
                | (Returned _, w') =>
                  (Returned (VStr (lit "Task scheduled for type " ++ dquote
                                   ++ type (when args) ++ dquote ++ lit " : "
                                   ++ inputToString host input)), w')
                | (Thrown e, w') =>
                  (Returned (VStr (lit "Error scheduling task: " ++ errorToString e)), w')
                end).
  { unfold scheduleTask. rewrite N. unfold bind at 1. rewrite I.
    unfold try_catch, bind. now destruct (schedule agent input _ _ w) as [[v|e] w']. }
  rewrite E.
  destruct (schedule agent input _ _ w) as [[v|e] w'];
    (split; [reflexivity|eexists; reflexivity]).
Qed.

Lemma scheduleTask_calls_schedule_once_witness :
  exists input,
    inputOf (when (Fixture.cronOf (lit "0 9 * * *"))) (Fixture.fresh 0)
    = (Returned input, Fixture.fresh 0)
    /\ snd (scheduleTask Fixture.host (Some (Scheduler.agent Fixture.env))
              (Fixture.cronOf (lit "0 9 * * *")) (Fixture.fresh 0))
       = snd (schedule (Scheduler.agent Fixture.env) input (lit "executeTask")
                (description (Fixture.cronOf (lit "0 9 * * *"))) (Fixture.fresh 0))
    /\ exists t,
         fst (scheduleTask Fixture.host (Some (Scheduler.agent Fixture.env))
                (Fixture.cronOf (lit "0 9 * * *")) (Fixture.fresh 0))
         = Returned (VStr t).
Proof.
  apply (@scheduleTask_calls_schedule_once Fixture.W Fixture.host
           (Scheduler.agent Fixture.env) (Fixture.cronOf (lit "0 9 * * *"))
           (Fixture.fresh 0)).
  right; right; left; reflexivity.
Defined.

(** X8: with an agent in context, a [when.type] that is none of
    [no-schedule], [scheduled], [delayed] and [cron] makes scheduleTask
    throw [Error("not a valid schedule input")]: the error leaves the
    tool, and [agent.schedule] is not called. *)
Theorem unknown_schedule_type_throws
    (W : Type) (host : Host W) (agent : Agent W) (args : ScheduleArgs) (w : W) :
  ~ In (type (when args)) [lit "no-schedule"; lit "scheduled"; lit "delayed"; lit "cron"] ->
  scheduleTask host (Some agent) args w
  = (Thrown (Error (lit "not a valid schedule input")), w).
Proof.
  intros H. unfold scheduleTask, inputOf.
  repeat match goal with
         | |- context [str_eqb (type (when args)) ?l] =>
           let E := fresh "E" in
           destruct (str_eqb (type (when args)) l) eqn:E;
           [apply str_eqb_eq in E; exfalso; apply H; rewrite E; simpl; tauto|]
         end.
  reflexivity.
Qed.

Lemma unknown_schedule_type_throws_witness :
  scheduleTask Fixture.host (Some (Scheduler.agent Fixture.env))
    {| when := Fixture.onlyWhen (lit "weekly"); description := lit "review" |}
    (Fixture.fresh 0)
  = (Thrown (Error (lit "not a valid schedule input")), Fixture.fresh 0).
Proof.
  apply (@unknown_schedule_type_throws Fixture.W Fixture.host
           (Scheduler.agent Fixture.env)
           {| when := Fixture.onlyWhen (lit "weekly"); description := lit "review" |}
           (Fixture.fresh 0)).
  simpl. intros [H|[H|[H|[H|[]]]]]; discriminate H.
Defined.

(** ** searchDocs *)

(** X9: searchDocs asks the AutoRAG index [dark-wind-fbc8] once, with the
    message as query, query rewriting on, at most three results and a
    score threshold of 0.3. When the answer holds a [response] that is
    truthy, that value is the text of the result; otherwise the result is
    the failure text with [No response from AutoRAG]. *)
Theorem searchDocs_answers
    (W : Type) (agent : Agent W) (message : JsString) (w w' : W) (answer : Value) :
  AI_autorag_aiSearch (env agent) (lit "dark-wind-fbc8")
    (VObj [(lit "query", VStr message);
           (lit "rewrite_query", VBool true);
           (lit "max_num_results", VNum 3%float);
           (lit "ranking_options",
            VObj [(lit "score_threshold", VNum 0x1.3333333333333p-2%float)])]) w
  = (Returned answer, w') ->
  searchDocs (Some agent) message w
  = (Returned
       (if truthy (optProp answer (lit "response"))
        then VObj [(lit "content", VArr [textItem (optProp answer (lit "response"))])]
        else content (lit "Failed to search Cloudflare documentation. Error: Error: No response from AutoRAG")),
     w').
Proof.
  intros H. unfold searchDocs, try_catch, bind. rewrite H.
  destruct answer as [| | | | |items|props]; try reflexivity.
  cbn [optProp prop]. destruct (assoc (lit "response") props) as [r|]; [|reflexivity].
  destruct (truthy r); reflexivity.
Qed.

Lemma searchDocs_answers_witness :
  searchDocs (Some (Scheduler.agent Fixture.working)) (lit "what runs a Worker?")
    (Fixture.fresh 0)
  = (Returned (content (lit "Workers run on V8 isolates.")), Fixture.fresh 0).
Proof.
  apply (@searchDocs_answers Fixture.W (Scheduler.agent Fixture.working)
           (lit "what runs a Worker?") (Fixture.fresh 0) (Fixture.fresh 0)
           (VObj [(lit "response", VStr (lit "Workers run on V8 isolates."))])).
  reflexivity.
Defined.

(** ** generateImage *)

Local Abbreviation flux agent prompt steps :=
  (AI_run (env agent) (lit "@cf/black-forest-labs/flux-1-schnell")
     (VObj [(lit "prompt", VStr prompt); (lit "steps", VNum steps)])
     (VObj [(lit "gateway",
             VObj [(lit "id", VStr (lit "agents"));
                   (lit "skipCache", VBool false);
                   (lit "cacheTtl", VNum 3360%float);
                   (lit "metadata",
                    VObj [(lit "application", VStr (lit "openai-wrapper"));
                          (lit "user", VStr (lit "aj"));
                          (lit "dev", VBool true)])])])).

(** X10: when the answer of the image model holds no image that is a
    string with something in it, generateImage returns the failure text
    and the world is as the model call left it: the clock and the random
    source are not read and nothing is put in the bucket. For an image
    that is absent, empty or otherwise falsy the reason given is [No
    image generated in response]. *)
Theorem generateImage_without_image_stores_nothing
    (W : Type) (host : Host W) (agent : Agent W) (args : GenerateImageArgs)
    (w w1 : W) (response : Value) :
  flux agent (prompt args) (steps args) w = (Returned response, w1) ->
  (forall c s, optProp response (lit "image") <> VStr (c :: s)) ->
  exists why,
    generateImage host (Some agent) args w
    = (Returned (textItem (VStr (lit "Failed to generate image. Error: " ++ why))), w1)
    /\ (truthy (optProp response (lit "image")) = false ->
        why = lit "Error: No image generated in response").
Proof.
  intros R N. unfold generateImage, try_catch, bind. rewrite R.
  unfold logImage.
  destruct (optProp response (lit "image")) as [| |b|x|[|c s]|items|props] eqn:I;
    try (eexists; split; [reflexivity|intros _; reflexivity]).
  - destruct b; eexists; (split; [reflexivity|]); [discriminate|reflexivity].
  - cbn [truthy]. destruct (negb _); eexists; (split; [reflexivity|]);
      [discriminate|reflexivity].
  - now elim (N c s).
  - eexists; split; [reflexivity|discriminate].
  - eexists; split; [reflexivity|discriminate].
Qed.

Lemma generateImage_without_image_stores_nothing_witness :
  exists why,
    generateImage Fixture.host (Some (Scheduler.agent Fixture.env))
      {| prompt := lit "a lighthouse"; steps := 4%float |} (Fixture.fresh 7)
    = (Returned (textItem (VStr (lit "Failed to generate image. Error: " ++ why))),
       Fixture.fresh 7)
    /\ (truthy (optProp VNull (lit "image")) = false ->
        why = lit "Error: No image generated in response").
Proof.
  apply (@generateImage_without_image_stores_nothing Fixture.W Fixture.host
           (Scheduler.agent Fixture.env)
           {| prompt := lit "a lighthouse"; steps := 4%float |}
           (Fixture.fresh 7) (Fixture.fresh 7) VNull).
  - reflexivity.
  - intros c s H; discriminate H.
Defined.

(** X11: the link that generateImage returns names the object it stored.
    With an image in the answer, the body reads the clock, then the random
    source, decodes the image, and puts the bytes (each code unit of the
    decoded text modulo 256) in the bucket under
    [ai-generated/<time>-<six characters of the random text>.jpg] as
    [image/jpeg]; the text it returns ends in [https://r2.zxc.co.in/]
    followed by that same key. *)
Theorem generateImage_stores_what_it_links
    (W : Type) (host : Host W) (agent : Agent W) (args : GenerateImageArgs)
    (w w1 w2 w3 w4 : W) (response stored : Value) (c : Js.CodeUnit)
    (base64 random binary : JsString) (timestamp : N) :
  flux agent (prompt args) (steps args) w = (Returned response, w1) ->
  optProp response (lit "image") = VStr (c :: base64) ->
  Date_now host w1 = (Returned timestamp, w2) ->
  Math_random_toString36 host w2 = (Returned random, w3) ->
  atob host (c :: base64) = Returned binary ->
  PUBLIC_BUCKET_put (env agent)
    (lit "ai-generated/" ++ decimal timestamp ++ lit "-" ++ substring random 2 8 ++ lit ".jpg")
    (map (fun u => (u mod 256)%N) binary)
    (VObj [(lit "httpMetadata",
            VObj [(lit "contentType", VStr (lit "image/jpeg"));
                  (lit "cacheControl", VStr (lit "public, max-age=31536000"))])]) w3
  = (Returned stored, w4) ->
  generateImage host (Some agent) args w
  = (Returned
       (textItem
          (VStr (lit "I have generated an image of a " ++ dquote ++ prompt args ++ dquote
                 ++ lit ". View it at: https://r2.zxc.co.in/ai-generated/"
                 ++ decimal timestamp ++ lit "-" ++ substring random 2 8 ++ lit ".jpg"))),
     w4).
Proof.
  intros R I T M A P. unfold generateImage, try_catch, bind. rewrite R.
  unfold logImage. rewrite I. cbn [ret]. rewrite T, M.
  unfold lift. rewrite A. rewrite P. cbn [ret].
  reflexivity.
Qed.

Lemma generateImage_stores_what_it_links_witness :
  generateImage Fixture.host (Some (Scheduler.agent Fixture.working))
    {| prompt := lit "a lighthouse"; steps := 4%float |} (Fixture.fresh 1700000000000)
  = (Returned
       (textItem
          (VStr (lit "I have generated an image of a " ++ dquote ++ lit "a lighthouse"
                 ++ dquote
                 ++ lit ". View it at: https://r2.zxc.co.in/ai-generated/1700000000000-4fzyo8.jpg"))),
     Fixture.fresh 1700000000000).
Proof.
  apply (@generateImage_stores_what_it_links Fixture.W Fixture.host
           (Scheduler.agent Fixture.working)
           {| prompt := lit "a lighthouse"; steps := 4%float |}
           (Fixture.fresh 1700000000000) (Fixture.fresh 1700000000000)
           (Fixture.fresh 1700000000000) (Fixture.fresh 1700000000000)
           (Fixture.fresh 1700000000000)
           (VObj [(lit "image", VStr (lit "QUJD"))]) VNull
           81%N (lit "UJD") (lit "0.4fzyo82mvyr") (lit "QUJD") 1700000000000%N);
    reflexivity.
Defined.

(** When the image cannot be decoded ([atob] throws), generateImage
    returns the failure text with that error, after the clock and the
    random source were read; nothing is put in the bucket. *)
Lemma generateImage_bad_base64_stores_nothing
    (W : Type) (host : Host W) (agent : Agent W) (args : GenerateImageArgs)
    (w w1 w2 w3 : W) (response : Value) (c : Js.CodeUnit)
    (base64 random : JsString) (timestamp : N) (e : JsError) :
  flux agent (prompt args) (steps args) w = (Returned response, w1) ->
  optProp response (lit "image") = VStr (c :: base64) ->
  Date_now host w1 = (Returned timestamp, w2) ->
  Math_random_toString36 host w2 = (Returned random, w3) ->
  atob host (c :: base64) = Thrown e ->
  generateImage host (Some agent) args w
  = (Returned (textItem (VStr (lit "Failed to generate image. Error: "
                               ++ errorToString e))), w3).
Proof.
  intros R I T M A. unfold generateImage, try_catch, bind. rewrite R.
  unfold logImage. rewrite I. cbn [ret]. rewrite T, M.
  unfold lift. now rewrite A.
Qed.

(** ** callDoWorker *)

(** X12: callDoWorker sends a body only when one is given that is not
    empty and the method is POST, PUT or PATCH (in capitals): with an
    empty body, or with any other method, the call runs as it does with
    no body at all. *)
Theorem callDoWorker_body_only_with_post_put_patch
    (W : Type) (store : option (Agent W)) (args : CallDoWorkerArgs) (w : W) :
  cdw_body args = Some []
  \/ ~ In (cdw_method args) [lit "POST"; lit "PUT"; lit "PATCH"] ->
  callDoWorker store args w
  = callDoWorker store
      {| workerName := workerName args; cdw_method := cdw_method args;
         cdw_body := None; cdw_headers := cdw_headers args |} w.
Proof.
  intros H. unfold callDoWorker. cbn [workerName cdw_method cdw_body cdw_headers].
  destruct store as [agent|]; [|reflexivity].
  destruct (cdw_body args) as [[|c b]|] eqn:B; try reflexivity.
  destruct H as [H|H]; [discriminate H|].
  assert (M : str_eqb (cdw_method args) (lit "POST")
              || str_eqb (cdw_method args) (lit "PUT")
              || str_eqb (cdw_method args) (lit "PATCH") = false).
  { apply orb_false_iff; split; [apply orb_false_iff; split|];
      apply str_eqb_neq; intros E; apply H; rewrite E; simpl; tauto. }
  now rewrite M.
Qed.

Lemma callDoWorker_body_only_with_post_put_patch_witness :
  callDoWorker (Some (Scheduler.agent Fixture.working))
    {| workerName := lit "counter"; cdw_method := lit "post";
       cdw_body := Some (lit "{}"); cdw_headers := None |} (Fixture.fresh 0)
  = callDoWorker (Some (Scheduler.agent Fixture.working))
      {| workerName := lit "counter"; cdw_method := lit "post";
         cdw_body := None; cdw_headers := None |} (Fixture.fresh 0).
Proof.
  apply (@callDoWorker_body_only_with_post_put_patch Fixture.W
           (Some (Scheduler.agent Fixture.working))
           {| workerName := lit "counter"; cdw_method := lit "post";
              cdw_body := Some (lit "{}"); cdw_headers := None |} (Fixture.fresh 0)).
  right. simpl. intros [H|[H|[H|[]]]]; discriminate H.
Defined.



(** ** callgraphqlWorker *)

(** X14: without a query, or with an empty one, callgraphqlWorker posts
    the built-in [totalUserAgent] query, as JSON, to
    [https://graphql-worker.workers.dev/graphql]; whatever the status of
    the answer, the result is [GraphQL Worker response: ] followed by the
    JSON of the answer, printed with an indent of two. *)
Theorem callgraphqlWorker_sends_the_default_query
    (W : Type) (host : Host W) (agent : Agent W) (query : option JsString)
    (response : HttpResponse) (responseData : Value) (w w' : W) :
  query = None \/ query = Some [] ->
  graphqlWorker_fetch (env agent) (lit "https://graphql-worker.workers.dev/graphql")
    {| method := lit "POST";
       headers := [(lit "Content-Type", lit "application/json")];
       body := Some (Tools.JSON_stringify host
                       (VObj [(lit "query", VStr totalUserAgentQuery)]));
       redirect := None |} w
  = (Returned response, w') ->
  json response = Returned responseData ->
  callgraphqlWorker host (Some agent) query w
  = (Returned (content (lit "GraphQL Worker response: "
                        ++ JSON_stringify_indent2 host responseData)), w').
Proof.
  intros Q F J. unfold callgraphqlWorker, try_catch, bind.
  destruct Q as [-> | ->]; rewrite F; unfold lift; now rewrite J.
Qed.

Lemma callgraphqlWorker_sends_the_default_query_witness :
  callgraphqlWorker Fixture.host (Some (Scheduler.agent Fixture.working)) (Some [])
    (Fixture.fresh 0)
  = (Returned (content (lit "GraphQL Worker response: "
                        ++ JSON_stringify_indent2 Fixture.host (VObj []))),
     Fixture.fresh 0).
Proof.
  apply (@callgraphqlWorker_sends_the_default_query Fixture.W Fixture.host
           (Scheduler.agent Fixture.working) (Some [])
           (Fixture.jsonAnswer (VObj [])) (VObj []) (Fixture.fresh 0) (Fixture.fresh 0)).
  - right; reflexivity.
  - reflexivity.
  - reflexivity.
Defined.

(** The built-in query is the template literal of the source, its line
    breaks and indentation included. *)
Example default_query_text :
  totalUserAgentQuery
  =
     [10; 32; 32; 32; 32; 32; 32; 32; 32; 113; 117; 101; 114; 121; 32; 123; 10; 32; 32;
      32; 32; 32; 32; 32; 32; 32; 32; 116; 111; 116; 97; 108; 85; 115; 101; 114; 65;
      103; 101; 110; 116; 32; 123; 10; 32; 32; 32; 32; 32; 32; 32; 32; 32; 32; 32; 32;
      99; 111; 117; 110; 116; 10; 32; 32; 32; 32; 32; 32; 32; 32; 32; 32; 32; 32; 116;
      105; 109; 101; 115; 116; 97; 109; 112; 10; 32; 32; 32; 32; 32; 32; 32; 32; 32;
      32; 125; 10; 32; 32; 32; 32; 32; 32; 32; 32; 125; 10; 32; 32; 32; 32; 32; 32]%N.
Proof. reflexivity. Qed.

(** ** Property lists *)

Lemma assoc_assign_same (A : Type) (k : JsString) (v : A) (l : list (JsString * A)) :
  assoc k (assign k v l) = Some v.
Proof.
  induction l as [|[k' v'] l IH]; simpl.
  - now rewrite str_eqb_refl.
  - destruct (str_eqb k k') eqn:E; simpl.
    + now rewrite str_eqb_refl.
    + now rewrite E.
Qed.

Lemma assoc_assign_other (A : Type) (k k0 : JsString) (v : A) (l : list (JsString * A)) :
  k <> k0 -> assoc k (assign k0 v l) = assoc k l.
Proof.
  intros N. apply str_eqb_neq in N.
  induction l as [|[k' v'] l IH]; simpl.
  - now rewrite N.
  - destruct (str_eqb k0 k') eqn:E; simpl.
    + apply str_eqb_eq in E. subst k'. now rewrite N.
    + now rewrite IH.
Qed.

Lemma keys_assign_present (A : Type) (k : JsString) (v : A) (l : list (JsString * A)) :
  assoc k l <> None -> map fst (assign k v l) = map fst l.
Proof.
  induction l as [|[k' v'] l IH]; simpl; [congruence|].
  destruct (str_eqb k k') eqn:E; simpl.
  - intros _. apply str_eqb_eq in E. now subst.
  - intros H. now rewrite IH.
Qed.

Lemma assoc_app (A : Type) (k : JsString) (l r : list (JsString * A)) :
  assoc k (l ++ r) = match assoc k l with Some v => Some v | None => assoc k r end.
Proof.
  induction l as [|[k' v'] l IH]; simpl; [reflexivity|].
  now destruct (str_eqb k k').
Qed.

(** [{ ...a, ...b }]: a key of [b] takes the value of its last occurrence
    in [b]; any other key keeps the value it has in [a]. This is how the
    headers given to callDoWorker replace its default [Content-Type]. *)
Lemma spread_lookup (A : Type) (k : JsString) (a b : list (JsString * A)) :
  assoc k (spread a b)
  = match assoc k (rev b) with
    | Some v => Some v
    | None => assoc k a
    end.
Proof.
  unfold spread. revert a. induction b as [|[k1 v1] b IH]; intros a; simpl; [reflexivity|].
  rewrite IH, assoc_app. destruct (assoc k (rev b)); [reflexivity|].
  simpl. destruct (str_eqb k k1) eqn:E.
  - apply str_eqb_eq in E. subst. apply assoc_assign_same.
  - apply assoc_assign_other. now apply str_eqb_neq.
Qed.

(** ** addCloudflareCustomRule *)


(** X15: without CLOUDFLARE_API_TOKEN in the environment (not set, or set
    to the empty string) addCloudflareCustomRule sends nothing: the world
    stays as it was, and a result, when there is one, is the text that
    the token is not set, or the text that the rule could not be parsed. *)
Theorem no_token_no_request
    (W : Type) (host : Host W) (rule : Value) (w : W) :
  process_env host (lit "CLOUDFLARE_API_TOKEN") = None
  \/ process_env host (lit "CLOUDFLARE_API_TOKEN") = Some [] ->
  snd (addCloudflareCustomRule host rule w) = w
  /\ (forall v, fst (addCloudflareCustomRule host rule w) = Returned v ->
        v = VStr (lit "CLOUDFLARE_API_TOKEN is not set in environment variables.")
        \/ v = VStr (lit "Invalid rule format: could not parse string as JSON, even after attempting to fix escaping.")).
Proof.
  intros T.
  assert (P : forall r, postRule host r w
                = (Returned (VStr (lit "CLOUDFLARE_API_TOKEN is not set in environment variables.")), w)).
  { intros r. unfold postRule. destruct T as [-> | ->]; reflexivity. }
  unfold addCloudflareCustomRule.
  destruct (parseRuleString host rule) as [parsed|result] eqn:E.
  - unfold bind, lift.
    destruct (ensureParentheses (unwrapRule parsed)) as [r|e].
    + rewrite P. split; [reflexivity|]. intros v [= <-]. now left.
    + split; [reflexivity|]. intros v H. discriminate H.
  - split; [reflexivity|]. intros v [= <-].
    unfold parseRuleString in E.
    destruct rule; try discriminate E.
    destruct (Tools.JSON_parse host s); [discriminate E|].
    destruct (Tools.JSON_parse host (escapeInnerQuotes host s)); [discriminate E|].
    injection E as <-. now right.
Qed.

Lemma no_token_no_request_witness :
  snd (addCloudflareCustomRule Fixture.host (VObj Fixture.blockRule) (Fixture.fresh 0))
  = Fixture.fresh 0
  /\ (forall v,
        fst (addCloudflareCustomRule Fixture.host (VObj Fixture.blockRule) (Fixture.fresh 0))
        = Returned v ->
        v = VStr (lit "CLOUDFLARE_API_TOKEN is not set in environment variables.")
        \/ v = VStr (lit "Invalid rule format: could not parse string as JSON, even after attempting to fix escaping.")).
Proof.
  apply (@no_token_no_request Fixture.W Fixture.host (VObj Fixture.blockRule)
           (Fixture.fresh 0)).
  left; reflexivity.
Defined.

(** A rule given as text that [JSON.parse] refuses, also after the
    quotes inside it were escaped, is answered with the text [Invalid
    rule format: ...]; nothing is read from the environment and nothing
    is sent. *)
Lemma unparsable_rule_text_is_refused
    (W : Type) (host : Host W) (s : JsString) (e1 e2 : JsError) (w : W) :
  Tools.JSON_parse host s = Thrown e1 ->
  Tools.JSON_parse host (escapeInnerQuotes host s) = Thrown e2 ->
  addCloudflareCustomRule host (VStr s) w
  = (Returned (VStr (lit "Invalid rule format: could not parse string as JSON, even after attempting to fix escaping.")), w).
Proof.
  intros H1 H2. unfold addCloudflareCustomRule, parseRuleString. now rewrite H1, H2.
Qed.

(** X16: a rule given as JSON text is treated as the value it parses to
    (at the first try, or at the second one after the quotes were
    escaped), as long as that value is not itself a string: the tool runs
    on the text exactly as it runs on the value. *)
Theorem rule_text_stands_for_its_value
    (W : Type) (host : Host W) (s : JsString) (parsed : Value) :
  Tools.JSON_parse host s = Returned parsed
  \/ ((exists e, Tools.JSON_parse host s = Thrown e)
      /\ Tools.JSON_parse host (escapeInnerQuotes host s) = Returned parsed) ->
  (forall t, parsed <> VStr t) ->
  addCloudflareCustomRule host (VStr s) = addCloudflareCustomRule host parsed.
Proof.
  intros H N. unfold addCloudflareCustomRule.
  assert (E : parseRuleString host (VStr s) = Continue parsed).
  { unfold parseRuleString. destruct H as [-> | [[e ->] ->]]; reflexivity. }
  rewrite E.
  destruct parsed; try reflexivity. now elim (N s0).
Qed.

Lemma rule_text_stands_for_its_value_witness :
  addCloudflareCustomRule Fixture.host (VStr Fixture.numericExpressionRule)
  = addCloudflareCustomRule Fixture.host
      (VObj [(lit "action", VStr (lit "block"));
             (lit "description", VStr (lit "d"));
             (lit "expression", VNum 5%float)]).
Proof.
  apply (@rule_text_stands_for_its_value Fixture.W Fixture.host
           Fixture.numericExpressionRule
           (VObj [(lit "action", VStr (lit "block"));
                  (lit "description", VStr (lit "d"));
                  (lit "expression", VNum 5%float)])).
  - left; reflexivity.
  - intros t H; discriminate H.
Defined.

(** X17: a rule in a box, [{ type: "object", value: rule }], is treated as
    the rule inside it: the tool runs on the box exactly as it runs on
    the inner object (which is not unwrapped a second time). *)
Theorem boxed_rule_is_unwrapped
    (W : Type) (host : Host W) (box props : list (JsString * Value)) :
  assoc (lit "type") box = Some (VStr (lit "object")) ->
  assoc (lit "value") box = Some (VObj props) ->
  assoc (lit "type") props = None ->
  addCloudflareCustomRule host (VObj box) = addCloudflareCustomRule host (VObj props).
Proof.
  intros Ht Hv Hp. unfold addCloudflareCustomRule. cbn [parseRuleString].
  unfold unwrapRule. rewrite Ht, Hv, Hp. reflexivity.
Qed.

Lemma boxed_rule_is_unwrapped_witness :
  addCloudflareCustomRule Fixture.host (VObj Fixture.boxedRule)
  = addCloudflareCustomRule Fixture.host (VObj Fixture.blockRule).
Proof.
  apply (@boxed_rule_is_unwrapped Fixture.W Fixture.host Fixture.boxedRule
           Fixture.blockRule); reflexivity.
Defined.

(** X18: putting the expression in parentheses changes nothing else of the
    rule: the result has the same properties in the same order, the
    expression as [wrapExpression] gives it, and every other property
    with the value it had. *)
Theorem ensureParentheses_keeps_the_rest
    (props : list (JsString * Value)) (e : JsString) :
  assoc (lit "expression") props = Some (VStr e) ->
  exists props',
    ensureParentheses (VObj props) = Returned (VObj props')
    /\ map fst props' = map fst props
    /\ assoc (lit "expression") props' = Some (VStr (wrapExpression e))
    /\ forall k, k <> lit "expression" -> assoc k props' = assoc k props.
Proof.
  intros H. unfold ensureParentheses. rewrite H.
  eexists. split; [reflexivity|]. split; [|split].
  - apply keys_assign_present. now rewrite H.
  - apply assoc_assign_same.
  - intros k Hk. now apply assoc_assign_other.
Qed.

Lemma ensureParentheses_keeps_the_rest_witness :
  exists props',
    ensureParentheses (VObj Fixture.blockRule) = Returned (VObj props')
    /\ map fst props' = map fst Fixture.blockRule
    /\ assoc (lit "expression") props'
       = Some (VStr (wrapExpression (lit "cf.client.bot")))
    /\ forall k, k <> lit "expression" -> assoc k props' = assoc k Fixture.blockRule.
Proof.
  apply (@ensureParentheses_keeps_the_rest Fixture.blockRule (lit "cf.client.bot")).
  reflexivity.
Defined.

(** X19: with a token, a rule object of three strings is posted once, to
    the rules of the ruleset of the zone (both from the environment, or
    the built-in ids), with the token as Bearer authorization and the rule
    as JSON body, its expression in parentheses; when the API accepts it,
    the JSON of the answer is the result of the tool. The token is one of
    visible ASCII characters: [new Headers] is outside the [try] of the
    body and refuses a value with a line break in it, which [postRule]
    does not model. *)
Theorem accepted_rule_is_posted_wrapped
    (W : Type) (host : Host W) (action description expression : JsString)
    (c : Js.CodeUnit) (token : JsString) (response : HttpResponse) (data : Value)
    (w w1 : W) :
  process_env host (lit "CLOUDFLARE_API_TOKEN") = Some (c :: token) ->
  Forall (fun u => (33 <= u <= 126)%N) (c :: token) ->
  fetch host
    (lit "https://api.cloudflare.com/client/v4/zones/"
     ++ env_or host (lit "CLOUDFLARE_ZONE_ID") (lit "a37b5b3eca17274d2ca0cbc97a950636")
     ++ lit "/rulesets/"
     ++ env_or host (lit "CLOUDFLARE_RULESET_ID") (lit "f252f8e1e67e42db970584d5e67b9c59")
     ++ lit "/rules")
    {| method := lit "POST";
       headers := [(lit "Content-Type", lit "application/json");
                   (lit "Authorization", lit "Bearer " ++ c :: token)];
       body := Some (Tools.JSON_stringify host
                       (VObj [(lit "action", VStr action);
                              (lit "description", VStr description);
                              (lit "expression", VStr (wrapExpression expression))]));
       redirect := Some (lit "follow") |} w
  = (Returned response, w1) ->
  ok response = true ->
  json response = Returned data ->
  addCloudflareCustomRule host
    (VObj [(lit "action", VStr action); (lit "description", VStr description);
           (lit "expression", VStr expression)]) w
  = (Returned data, w1).
Proof.
  intros T _ F O J. unfold addCloudflareCustomRule. cbn [parseRuleString].
  assert (E : ensureParentheses
                (unwrapRule (VObj [(lit "action", VStr action);
                                   (lit "description", VStr description);
                                   (lit "expression", VStr expression)]))
              = Returned (VObj [(lit "action", VStr action);
                                (lit "description", VStr description);
                                (lit "expression", VStr (wrapExpression expression))]))
    by reflexivity.
  unfold bind at 1, lift at 1. rewrite E. unfold postRule. rewrite T.
  unfold try_catch, bind. unfold CLOUDFLARE_ZONE_ID, CLOUDFLARE_RULESET_ID.
  rewrite F. unfold lift. rewrite J, O. reflexivity.
Qed.

Lemma accepted_rule_is_posted_wrapped_witness :
  addCloudflareCustomRule
    (Fixture.withToken (Fixture.jsonAnswer (VObj [(lit "success", VBool true)])))
    (VObj [(lit "action", VStr (lit "block")); (lit "description", VStr (lit "bots"));
           (lit "expression", VStr (lit "cf.client.bot"))]) (Fixture.fresh 0)
  = (Returned (VObj [(lit "success", VBool true)]), Fixture.fresh 0).
Proof.
  apply (@accepted_rule_is_posted_wrapped Fixture.W
           (Fixture.withToken (Fixture.jsonAnswer (VObj [(lit "success", VBool true)])))
           (lit "block") (lit "bots") (lit "cf.client.bot")
           115%N (lit "3cret")
           (Fixture.jsonAnswer (VObj [(lit "success", VBool true)]))
           (VObj [(lit "success", VBool true)]) (Fixture.fresh 0) (Fixture.fresh 0));
    try reflexivity.
  cbn. repeat (constructor; [lia|]). constructor.
Defined.

(** ** The schemas of generateImage and addCloudflareCustomRule *)

Lemma vpair_valid (A B : Type) (a : Validation A) (b : Validation B) (x : A) (y : B) :
  vpair a b = Valid (x, y) <-> a = Valid x /\ b = Valid y.
Proof.
  destruct a, b; simpl; split; intros H; try discriminate H;
    try (destruct H; discriminate).
  - injection H as <- <-. now split.
  - destruct H as [[= <-] [= <-]]. reflexivity.
Qed.

Lemma field_valid (A : Type) (props : list (JsString * Value)) (key : JsString)
      (s : Schema A) (a : A) :
  field props key s = Valid a
  <-> s (match assoc key props with Some v => v | None => VUndefined end) = Valid a.
Proof.
  unfold field. destruct (s _); split; intros H; try discriminate H; exact H.
Qed.


Lemma prompt_valid (v : Value) (s : JsString) :
  z_string_checked [min_length 1; max_length 2048] v = Valid s
  <-> v = VStr s /\ (1 <= N.of_nat (Js.length s) <= 2048)%N.
Proof.
  unfold z_string_checked, min_length, max_length.
  destruct v; try (split; [intros H; discriminate H|intros [H _]; discriminate H]).
  simpl flat_map.
  destruct (N.of_nat (Js.length s0) <? 1)%N eqn:L, (2048 <? N.of_nat (Js.length s0))%N eqn:U;
    simpl; (split; [intros H; try discriminate H|intros [[= ->] H]]);
    try (apply N.ltb_lt in L); try (apply N.ltb_lt in U);
    try (apply N.ltb_ge in L); try (apply N.ltb_ge in U); try lia.
  - injection H as ->. split; [reflexivity|lia].
  - reflexivity.
Qed.

Lemma steps_valid (v : Value) (x : Number) :
  z_default (z_optional (z_number_checked [min_value 1%float; max_value 8%float])) 4%float v
  = Valid x
  <-> (v = VUndefined /\ x = 4%float)
      \/ (v = VNum x /\ isNaN x = false /\ (x <? 1)%float = false /\ (8 <? x)%float = false).
Proof.
  unfold z_default, z_optional, z_number_checked, min_value, max_value.
  destruct v; simpl;
    try (split; [intros H; discriminate H|intros [[H _]|[H _]]; discriminate H]).
  - split; [intros [= <-]; now left|intros [[_ ->]|[H _]]; [reflexivity|discriminate H]].
  - destruct (isNaN x0) eqn:N; simpl.
    + split; [intros H; discriminate H|].
      intros [[H _]|([= ->] & H & _)]; [discriminate H|congruence].
    + destruct (x0 <? 1)%float eqn:L, (8 <? x0)%float eqn:U; simpl;
        (split; [intros H; try discriminate H|
                 intros [[H _]|([= ->] & _ & ? & ?)]; [discriminate H|congruence]]).
      injection H as ->. right. now repeat split.
Qed.

(** X20: the arguments that the schema of generateImage accepts, exactly:
    an object whose [prompt] is a string of 1 to 2048 code units, and
    whose [steps] is either left out (or [undefined]), which reads as 4,
    or a number from 1 to 8, fractions included, that is not [NaN]. The
    parsed arguments are that prompt and that number of steps. *)
Theorem generateImage_parameters_accepts_iff (raw : Value) (args : GenerateImageArgs) :
  generateImage_parameters raw = Valid args
  <-> exists props,
        raw = VObj props
        /\ assoc (lit "prompt") props = Some (VStr (prompt args))
        /\ (1 <= N.of_nat (Js.length (prompt args)) <= 2048)%N
        /\ (((assoc (lit "steps") props = None \/ assoc (lit "steps") props = Some VUndefined)
             /\ steps args = 4%float)
            \/ (assoc (lit "steps") props = Some (VNum (steps args))
                /\ isNaN (steps args) = false
                /\ (steps args <? 1)%float = false
                /\ (8 <? steps args)%float = false)).
Proof.
  unfold generateImage_parameters, z_object.
  destruct raw as [| | | | | |props];
    try (split; [intros H; discriminate H|intros (p & H & _); discriminate H]).
  destruct args as [p x]. cbn [prompt steps].
  split.
  - intros H. exists props. split; [reflexivity|].
    destruct (vpair _ _) as [[p' x']|] eqn:V; [|discriminate H].
    injection H as -> ->. apply vpair_valid in V as [Vp Vs].
    apply field_valid, prompt_valid in Vp as [Ep Lp].
    apply field_valid, steps_valid in Vs.
    destruct (assoc (lit "prompt") props) as [vp|]; [|discriminate Ep]. subst vp.
    split; [reflexivity|]. split; [exact Lp|].
    destruct Vs as [[E ->]|(E & R)].
    + left. split; [|reflexivity].
      destruct (assoc (lit "steps") props) as [vs|]; [right; now subst|now left].
    + right. destruct (assoc (lit "steps") props) as [vs|]; [|discriminate E].
      subst vs. now split.
  - intros (props' & [= <-] & Ep & Lp & Hs).
    assert (Vp : field props (lit "prompt") (z_string_checked [min_length 1; max_length 2048])
                 = Valid p).
    { apply field_valid, prompt_valid. rewrite Ep. now split. }
    assert (Vs : field props (lit "steps")
                   (z_default (z_optional
                      (z_number_checked [min_value 1%float; max_value 8%float])) 4%float)
                 = Valid x).
    { apply field_valid, steps_valid.
      destruct Hs as [[[E|E] ->]|(E & R)]; rewrite E; [left|left|right]; now split. }
    rewrite Vp, Vs. reflexivity.
Qed.

Local Abbreviation ruleOf a d e :=
  (VObj [(lit "action", VStr a); (lit "description", VStr d); (lit "expression", VStr e)]).





(** ** The tools that query public HTTP APIs *)

Section PublicApiFacts.

Variable W : Type.
Variable host : Host W.
Variable builtins : PublicApis.Builtins W.

(** *** What leaves the world alone *)

Lemma mapM_pure (A B : Type) (f : A -> Eff W B) (l : list A) :
  (forall a w, snd (f a w) = w) -> forall w, snd (PublicApis.mapM f l w) = w.
Proof.
  intros Hf. induction l as [|x r IH]; cbn [PublicApis.mapM]; repeat pure_step; auto.
Qed.

Lemma arrayMap_pure (callee : JsString) (v : Value) (f : Value -> Eff W Value) :
  (forall a w, snd (f a w) = w) -> forall w, snd (PublicApis.arrayMap callee v f w) = w.
Proof.
  intros Hf w. unfold PublicApis.arrayMap.
  destruct v; try reflexivity. now apply mapM_pure.
Qed.

Lemma destructure_pure (first variable : JsString) (v : Value) (w : W) :
  snd (PublicApis.destructure first variable v w) = w.
Proof. unfold PublicApis.destructure. now destruct v. Qed.

Lemma show_pure (v : Value) (key : JsString) (w : W) :
  snd (PublicApis.show host v key w) = w.
Proof. unfold PublicApis.show, PublicApis.str. repeat pure_step. Qed.

Lemma namesOf_pure (callee : JsString) (entries : Value) (key : JsString) (w : W) :
  snd (PublicApis.namesOf host callee entries key w) = w.
Proof.
  unfold PublicApis.namesOf. apply bind_pure; [|intros; reflexivity].
  apply arrayMap_pure. repeat pure_step.
Qed.

Lemma locationNameOf_pure (name admin1 country : Value) (w : W) :
  snd (PublicApis.locationNameOf host name admin1 country w) = w.
Proof. unfold PublicApis.locationNameOf, PublicApis.str. repeat pure_step. Qed.

Lemma formatCountry_pure (country : Value) (w : W) :
  snd (PublicApis.formatCountry host builtins country w) = w.
Proof.
  unfold PublicApis.formatCountry.
  repeat (apply bind_pure; [intros; try reflexivity|intros]).
  - unfold PublicApis.populationText. repeat pure_step.
  - apply mapM_pure. intros.
    repeat (apply bind_pure; [intros; apply show_pure|intros]). reflexivity.
  - reflexivity.
Qed.

(** *** The geocoding request *)

Lemma geocode_finds_nothing
    (place encoded : JsString) (response : HttpResponse) (data results : Value) (w w1 : W) :
  PublicApis.encodeURIComponent builtins place = Returned encoded ->
  PublicApis.get host
    (lit "https://geocoding-api.open-meteo.com/v1/search?name=" ++ encoded
     ++ lit "&count=1&language=en&format=json") w
  = (Returned response, w1) ->
  ok response = true ->
  json response = Returned data ->
  prop data (lit "results") = Returned results ->
  truthy results = false \/ results = VArr [] ->
  PublicApis.geocode host builtins place w = (Returned None, w1).
Proof.
  intros E G O J R T. unfold PublicApis.geocode.
  unfold bind at 1, lift at 1. rewrite E.
  unfold bind at 1. rewrite G. rewrite O. cbn [negb].
  unfold bind at 1, lift at 1. rewrite J.
  unfold bind at 1, lift at 1. rewrite R.
  destruct T as [T| ->]; [now rewrite T|reflexivity].
Qed.

Lemma geocode_world (place : JsString) (w : W) :
  snd (PublicApis.geocode host builtins place w)
  = match PublicApis.encodeURIComponent builtins place with
    | Returned encoded =>
      snd (PublicApis.get host
             (lit "https://geocoding-api.open-meteo.com/v1/search?name=" ++ encoded
              ++ lit "&count=1&language=en&format=json") w)
    | Thrown _ => w
    end.
Proof.
  unfold PublicApis.geocode. unfold bind at 1, lift at 1.
  destruct (PublicApis.encodeURIComponent builtins place) as [encoded|e]; [|reflexivity].
  rewrite bind_world; [reflexivity|]. intros response w1.
  destruct (ok response); cbn [negb]; [|reflexivity].
  repeat (apply bind_pure; [intros; reflexivity|intros]).
  destruct (_ || _); reflexivity.
Qed.

(** X22: a place that the geocoding API does not know is reported as not
    found, and nothing more is done. When the one geocoding request is
    answered with a success whose JSON has no [results], or an empty
    list, getWeatherInformation returns [City "<city>" not found. ...]
    and getLocalTime returns [Location "<location>" not found. ...] (with
    an extra [type] beside the content); the world is as that request left
    it: no forecast is asked for and the clock is not read. *)
Theorem unknown_place_is_reported
    (place encoded : JsString) (response : HttpResponse) (data results : Value) (w w1 : W) :
  PublicApis.encodeURIComponent builtins place = Returned encoded ->
  PublicApis.get host
    (lit "https://geocoding-api.open-meteo.com/v1/search?name=" ++ encoded
     ++ lit "&count=1&language=en&format=json") w
  = (Returned response, w1) ->
  ok response = true ->
  json response = Returned data ->
  prop data (lit "results") = Returned results ->
  truthy results = false \/ results = VArr [] ->
  PublicApis.getWeatherInformation host builtins place w
  = (Returned (content (lit "City " ++ dquote ++ place ++ dquote
       ++ lit " not found. Please check the spelling or try a different city name.")), w1)
  /\ PublicApis.getLocalTime host builtins place w
     = (Returned
          (VObj [(lit "content",
                  VArr [textItem (VStr (lit "Location " ++ dquote ++ place ++ dquote
                    ++ lit " not found. Please check the spelling or try a different location name."))]);
                 (lit "type", VStr (lit "text"))]), w1).
Proof.
  intros E G O J R T.
  assert (F : PublicApis.geocode host builtins place w = (Returned None, w1))
    by (eapply geocode_finds_nothing; eassumption).
  unfold PublicApis.getWeatherInformation, PublicApis.getLocalTime, try_catch.
  unfold bind at 1. rewrite F. unfold bind at 1. rewrite F. split; reflexivity.
Qed.

(** *** How many requests are made *)

(** X23: searchPokemon, searchCountry and getLocalTime each make exactly
    one request, and nothing else they do touches the world. searchPokemon
    asks [https://pokeapi.co/api/v2/pokemon/<query>], with the query as
    given when [Number(query)] is a number and in lower case otherwise;
    searchCountry asks [https://restcountries.com/v3.1/name/<name>],
    encoded, with [?fullText=true] when [fullName] is set, and asks
    nothing when the name cannot be encoded; getLocalTime asks the
    geocoding API for the encoded location, given that reading the clock
    changes nothing. *)
Theorem search_and_time_tools_ask_once (w : W) :
  (forall query,
     snd (PublicApis.searchPokemon host builtins query w)
     = snd (PublicApis.get host
              (lit "https://pokeapi.co/api/v2/pokemon/"
               ++ (if isNaN (PublicApis.Number_of builtins query)
                   then PublicApis.toLowerCase builtins query else query)) w))
  /\ (forall args,
        snd (PublicApis.searchCountry host builtins args w)
        = match PublicApis.encodeURIComponent builtins (sc_name args) with
          | Returned encoded =>
            snd (PublicApis.get host
                   (lit "https://restcountries.com/v3.1/name" ++ lit "/" ++ encoded
                    ++ (if fullName args then lit "?fullText=true" else [])) w)
          | Thrown _ => w
          end)
  /\ (forall location,
        (forall w0, snd (PublicApis.new_Date builtins w0) = w0) ->
        snd (PublicApis.getLocalTime host builtins location w)
        = match PublicApis.encodeURIComponent builtins location with
          | Returned encoded =>
            snd (PublicApis.get host
                   (lit "https://geocoding-api.open-meteo.com/v1/search?name=" ++ encoded
                    ++ lit "&count=1&language=en&format=json") w)
          | Thrown _ => w
          end).
Proof.
  split; [|split].
  - intros query. unfold PublicApis.searchPokemon.
    rewrite try_catch_world by reflexivity.
    destruct (isNaN (PublicApis.Number_of builtins query)); cbn [negb];
      (rewrite bind_world; [reflexivity|]); intros response w1;
      (destruct (ok response); cbn [negb];
       [|destruct (N.eqb _ _); reflexivity]);
      repeat (apply bind_pure; [intros; try reflexivity; try apply namesOf_pure|intros]);
      reflexivity.
  - intros args. unfold PublicApis.searchCountry.
    rewrite try_catch_world by reflexivity.
    unfold bind at 1, lift at 1.
    destruct (PublicApis.encodeURIComponent builtins (sc_name args)) as [encoded|e];
      [|reflexivity].
    rewrite bind_world; [reflexivity|]. intros response w1.
    destruct (ok response); cbn [negb]; [|destruct (N.eqb _ _); reflexivity].
    apply bind_pure; [reflexivity|intros countries w2].
    apply bind_pure; [|reflexivity].
    apply arrayMap_pure. apply formatCountry_pure.
  - intros location Clock. rewrite <- geocode_world.
    unfold PublicApis.getLocalTime. rewrite try_catch_world by reflexivity.
    apply bind_world. intros [locationData|] w1; [|reflexivity].
    apply bind_pure; [intros; apply destructure_pure|intros].
    unfold PublicApis.str.
    repeat (apply bind_pure; [intros; try reflexivity; try apply Clock|intros]).
    + apply locationNameOf_pure.
    + reflexivity.
Qed.

Lemma getWeatherInformation_world (city : JsString) (w : W) (P : W -> Prop) :
  P (snd (PublicApis.geocode host builtins city w)) ->
  (forall latitude longitude,
     P (snd (PublicApis.get host
               (lit "https://api.open-meteo.com/v1/forecast?latitude=" ++ latitude
                ++ lit "&longitude=" ++ longitude
                ++ lit "&current=temperature_2m,relative_humidity_2m,apparent_temperature,precipitation,weather_code,wind_speed_10m,wind_direction_10m&timezone=auto")
               (snd (PublicApis.geocode host builtins city w))))) ->
  P (snd (PublicApis.getWeatherInformation host builtins city w)).
Proof.
  unfold PublicApis.getWeatherInformation. rewrite try_catch_world by reflexivity.
  unfold bind at 1.
  destruct (PublicApis.geocode host builtins city w) as [[[location|]|e] w1];
    cbn [snd]; intros H1 H2; [|exact H1|exact H1].
  unfold bind at 1.
  pose proof (destructure_pure (lit "latitude") (lit "location") location w1) as D.
  destruct (PublicApis.destructure (lit "latitude") (lit "location") location w1)
    as [[[]|e] w2]; cbn [snd] in D; subst w2; [|exact H1].
  unfold PublicApis.str.
  do 3 (unfold bind at 1, lift at 1;
        match goal with
        | |- context [match PublicApis.toString host ?v with _ => _ end] =>
          destruct (PublicApis.toString host v); [|exact H1]
        end).
  do 2 (unfold bind at 1, lift at 1).
  rewrite bind_world; [apply H2|]. intros response w3.
  destruct (ok response); cbn [negb]; [|reflexivity].
  repeat (apply bind_pure; intros); try reflexivity; try apply locationNameOf_pure.
  unfold PublicApis.weatherDescriptionOf, PublicApis.str. repeat pure_step.
Qed.

(** X24: getWeatherInformation makes at most two requests: the geocoding
    request, and after it either nothing, or one request to the forecast
    API with a latitude and a longitude in its query. *)
Theorem getWeatherInformation_asks_at_most_twice (city : JsString) (w : W) :
  snd (PublicApis.getWeatherInformation host builtins city w)
  = snd (PublicApis.geocode host builtins city w)
  \/ exists latitude longitude,
       snd (PublicApis.getWeatherInformation host builtins city w)
       = snd (PublicApis.get host
                (lit "https://api.open-meteo.com/v1/forecast?latitude=" ++ latitude
                 ++ lit "&longitude=" ++ longitude
                 ++ lit "&current=temperature_2m,relative_humidity_2m,apparent_temperature,precipitation,weather_code,wind_speed_10m,wind_direction_10m&timezone=auto")
                (snd (PublicApis.geocode host builtins city w))).
Proof.
  apply (@getWeatherInformation_world city w
           (fun s => s = snd (PublicApis.geocode host builtins city w)
                     \/ exists latitude longitude,
                          s = snd (PublicApis.get host
                                     (lit "https://api.open-meteo.com/v1/forecast?latitude="
                                      ++ latitude ++ lit "&longitude=" ++ longitude
                                      ++ lit "&current=temperature_2m,relative_humidity_2m,apparent_temperature,precipitation,weather_code,wind_speed_10m,wind_direction_10m&timezone=auto")
                                     (snd (PublicApis.geocode host builtins city w))))).
  - now left.
  - intros latitude longitude. right. now exists latitude, longitude.
Qed.

(** *** Error statuses *)

(** X25: when the PokeAPI answers with an error status, searchPokemon
    says [No Pokemon found with the name or ID "<query>"] for 404 and
    [Failed to fetch Pokemon details. Error: Error: HTTP error! status:
    <status>] for any other status (the word is spelled with its accent
    in both texts); the body of the answer is not read. *)
Theorem searchPokemon_reports_http_errors
    (query : JsString) (response : HttpResponse) (w w1 : W) :
  PublicApis.get host
    (lit "https://pokeapi.co/api/v2/pokemon/"
     ++ (if isNaN (PublicApis.Number_of builtins query)
         then PublicApis.toLowerCase builtins query else query)) w
  = (Returned response, w1) ->
  ok response = false ->
  PublicApis.searchPokemon host builtins query w
  = (Returned
       (content
          (if (status response =? 404)%N
           then lit "No " ++ PublicApis.Pokemon ++ lit " found with the name or ID "
                ++ dquote ++ query ++ dquote
           else lit "Failed to fetch " ++ PublicApis.Pokemon
                ++ lit " details. Error: Error: HTTP error! status: "
                ++ decimal (status response))), w1).
Proof.
  intros G O. unfold PublicApis.searchPokemon, try_catch.
  destruct (isNaN (PublicApis.Number_of builtins query)); cbn [negb];
    unfold bind at 1; rewrite G, O; cbn [negb];
    destruct (status response =? 404)%N; reflexivity.
Qed.

(** When the REST Countries API answers with an error status,
    searchCountry says [No country found with the name "<name>"] for 404
    and [Failed to fetch country details. Error: Error: HTTP error!
    status: <status>] for any other status. *)
Lemma searchCountry_reports_http_errors
    (args : SearchCountryArgs) (encoded : JsString) (response : HttpResponse) (w w1 : W) :
  PublicApis.encodeURIComponent builtins (sc_name args) = Returned encoded ->
  PublicApis.get host
    (lit "https://restcountries.com/v3.1/name" ++ lit "/" ++ encoded
     ++ (if fullName args then lit "?fullText=true" else [])) w
  = (Returned response, w1) ->
  ok response = false ->
  PublicApis.searchCountry host builtins args w
  = (Returned
       (content
          (if (status response =? 404)%N
           then lit "No country found with the name " ++ dquote ++ sc_name args ++ dquote
           else lit "Failed to fetch country details. Error: Error: HTTP error! status: "
                ++ decimal (status response))), w1).
Proof.
  intros E G O. unfold PublicApis.searchCountry, try_catch.
  unfold bind at 1, lift at 1. rewrite E.
  unfold bind at 1. rewrite G, O. cbn [negb].
  destruct (status response =? 404)%N; reflexivity.
Qed.

(** *** searchCountry: the list of countries *)

Lemma mapM_throws (A B : Type) (f : A -> Eff W B) (l : list A) (x : A) :
  In x l ->
  (forall w, exists e w', f x w = (Thrown e, w')) ->
  forall w, exists e w', PublicApis.mapM f l w = (Thrown e, w').
Proof.
  intros Hin Hx. induction l as [|y r IH]; [destruct Hin|].
  intros w. cbn [PublicApis.mapM]. unfold bind at 1.
  destruct Hin as [->|Hin].
  - destruct (Hx w) as (e & w' & ->). now exists e, w'.
  - destruct (f y w) as [[b|e] w1]; [|now exists e, w1].
    unfold bind at 1. destruct (IH Hin w1) as (e & w' & ->). now exists e, w'.
Qed.

Lemma formatCountry_needs_a_name (country : Value) (w : W) :
  optProp country (lit "name") = VUndefined \/ optProp country (lit "name") = VNull ->
  exists e, PublicApis.formatCountry host builtins country w = (Thrown e, w).
Proof.
  intros H. unfold PublicApis.formatCountry. unfold bind at 1, lift at 1.
  destruct country as [| | | | | |props]; try (eexists; reflexivity).
  cbn [optProp] in H. cbn [prop].
  destruct (assoc (lit "name") props) as [name|].
  - destruct H as [-> | ->]; eexists; reflexivity.
  - eexists; reflexivity.
Qed.

(** X26: one entry that cannot be read fails the whole search. When the
    API answers with a list in which some entry has no [name] (or is no
    object at all), searchCountry returns the failure text and none of
    the other countries, however well formed they are. *)
Theorem one_unreadable_country_fails_the_search
    (args : SearchCountryArgs) (encoded : JsString) (response : HttpResponse)
    (countries : list Value) (country : Value) (w w1 : W) :
  PublicApis.encodeURIComponent builtins (sc_name args) = Returned encoded ->
  PublicApis.get host
    (lit "https://restcountries.com/v3.1/name" ++ lit "/" ++ encoded
     ++ (if fullName args then lit "?fullText=true" else [])) w
  = (Returned response, w1) ->
  ok response = true ->
  json response = Returned (VArr countries) ->
  In country countries ->
  optProp country (lit "name") = VUndefined \/ optProp country (lit "name") = VNull ->
  exists why,
    PublicApis.searchCountry host builtins args w
    = (Returned (content (lit "Failed to fetch country details. Error: " ++ why)), w1).
Proof.
  intros E G O J Hin Hname.
  assert (T : exists e w2,
            PublicApis.mapM (PublicApis.formatCountry host builtins) countries w1
            = (Thrown e, w2)).
  { eapply mapM_throws; [exact Hin|]. intros w0.
    destruct (@formatCountry_needs_a_name country w0 Hname) as [e H]. now exists e, w0. }
  destruct T as (e & w2 & M).
  assert (w2 = w1) as ->.
  { assert (P : snd (PublicApis.mapM (PublicApis.formatCountry host builtins) countries w1)
                = w1)
      by (apply mapM_pure; apply formatCountry_pure).
    now rewrite M in P. }
  exists (errorToString e).
  unfold PublicApis.searchCountry, try_catch.
  unfold bind at 1, lift at 1. rewrite E.
  unfold bind at 1. rewrite G, O. cbn [negb].
  unfold bind at 1, lift at 1. rewrite J.
  unfold bind at 1. cbn [PublicApis.arrayMap]. rewrite M. reflexivity.
Qed.

(** X27: a country that searchCountry could format has no empty field
    where the body gives a default: the formatted entry has the eight
    properties [name], [officialName], [capital], [region], [population],
    [languages], [currencies], [flag] in this order, the population,
    languages and currencies are strings, the capital is truthy and the
    languages and currencies are not empty ([N/A] stands in for what is
    missing). *)
Theorem formatted_country_has_no_empty_field (country formatted : Value) (w w' : W) :
  PublicApis.formatCountry host builtins country w = (Returned formatted, w') ->
  exists common official capital region population languages currencies flag,
    formatted
    = VObj [(lit "name", common); (lit "officialName", official);
            (lit "capital", capital); (lit "region", region);
            (lit "population", VStr population); (lit "languages", VStr languages);
            (lit "currencies", VStr currencies); (lit "flag", flag)]
    /\ truthy capital = true
    /\ languages <> []
    /\ currencies <> [].
Proof.
  unfold PublicApis.formatCountry.
  repeat (unfold bind at 1;
          match goal with
          | |- (match ?m ?w0 with _ => _ end) = _ -> _ =>
            destruct (m w0) as [[?|?] ?]; [|intros H; discriminate H]
          end).
  intros [= <- <-]. do 8 eexists. split; [reflexivity|]. repeat split.
  - unfold PublicApis.or_else.
    destruct (truthy (PublicApis.first _)) eqn:T; [exact T|reflexivity].
  - unfold PublicApis.or_NA.
    match goal with |- (match ?t with _ => _ end) <> _ => destruct t end;
      intros H; discriminate H.
  - unfold PublicApis.or_NA.
    match goal with |- (match ?t with _ => _ end) <> _ => destruct t end;
      intros H; discriminate H.
Qed.

(** *** searchPokemon: a well-formed answer *)

Lemma join_strings (str : Value -> Outcome JsString) (sep : JsString) (l : list JsString) :
  (forall s, str (VStr s) = Returned s) ->
  PublicApis.join str sep (map VStr l) = Returned (PublicApis.joined sep l).
Proof.
  intros H. induction l as [|s r IH]; [reflexivity|].
  cbn [map PublicApis.join]. rewrite H.
  destruct r as [|s' r']; [reflexivity|].
  change (PublicApis.join str sep (map VStr (s' :: r'))) with
    (PublicApis.join str sep (VStr s' :: map VStr r')) in IH.
  cbn [map]. unfold PublicApis.join in IH |- *. rewrite IH. reflexivity.
Qed.

Lemma namesOf_entries
    (callee key : JsString) (entries : list Value) (names : list JsString) (w : W) :
  Forall2 (fun entry name =>
             exists inner, prop entry key = Returned inner
                           /\ prop inner (lit "name") = Returned (VStr name))
          entries names ->
  PublicApis.namesOf host callee (VArr entries) key w
  = (Returned (PublicApis.joined (lit ", ") names), w).
Proof.
  intros F. unfold PublicApis.namesOf. cbn [PublicApis.arrayMap].
  assert (M : PublicApis.mapM
                (fun t : Value =>
                   let* inner := lift (prop t key) in lift (prop inner (lit "name")))
                entries w
              = (Returned (map VStr names), w)).
  { induction F as [|entry name entries names (inner & Hi & Hn) F IH]; [reflexivity|].
    cbn [PublicApis.mapM map]. unfold bind at 1. unfold bind at 1, lift at 1. rewrite Hi.
    unfold lift at 1. rewrite Hn. unfold bind at 1. rewrite IH. reflexivity. }
  unfold bind at 1. rewrite M. unfold lift.
  rewrite join_strings; [reflexivity|]. intros s; reflexivity.
Qed.

(** X28: for an answer of the shape the PokeAPI documents (a name, the
    numbers id, height and weight, a list of types and one of abilities,
    each entry holding a name one level down, and sprites), searchPokemon
    returns the six lines [Pokemon: <name> (ID: <id>)], [Height], [Weight],
    [Types], [Abilities], [Sprite], where the types and the abilities are
    the names in the order of the answer, separated by a comma and a
    space, and the sprite is printed as text whatever it is ([null] for a
    missing one). *)
Theorem searchPokemon_formats_the_answer
    (query : JsString) (response : HttpResponse) (w w1 : W)
    (pokemon : list (JsString * Value)) (name : JsString) (id height weight : Number)
    (typeEntries abilityEntries : list Value) (types abilities : list JsString)
    (sprites sprite : Value) (spriteText : JsString) :
  PublicApis.get host
    (lit "https://pokeapi.co/api/v2/pokemon/"
     ++ (if isNaN (PublicApis.Number_of builtins query)
         then PublicApis.toLowerCase builtins query else query)) w
  = (Returned response, w1) ->
  ok response = true ->
  json response = Returned (VObj pokemon) ->
  assoc (lit "name") pokemon = Some (VStr name) ->
  assoc (lit "id") pokemon = Some (VNum id) ->
  assoc (lit "height") pokemon = Some (VNum height) ->
  assoc (lit "weight") pokemon = Some (VNum weight) ->
  assoc (lit "types") pokemon = Some (VArr typeEntries) ->
  Forall2 (fun entry name =>
             exists inner, prop entry (lit "type") = Returned inner
                           /\ prop inner (lit "name") = Returned (VStr name))
          typeEntries types ->
  assoc (lit "abilities") pokemon = Some (VArr abilityEntries) ->
  Forall2 (fun entry name =>
             exists inner, prop entry (lit "ability") = Returned inner
                           /\ prop inner (lit "name") = Returned (VStr name))
          abilityEntries abilities ->
  assoc (lit "sprites") pokemon = Some sprites ->
  prop sprites (lit "front_default") = Returned sprite ->
  PublicApis.toString host sprite = Returned spriteText ->
  PublicApis.searchPokemon host builtins query w
  = (Returned
       (content
          (PublicApis.Pokemon ++ lit ": " ++ name
           ++ lit " (ID: " ++ Number_toString host id ++ lit ")" ++ nl
           ++ lit "Height: " ++ Number_toString host height ++ nl
           ++ lit "Weight: " ++ Number_toString host weight ++ nl
           ++ lit "Types: " ++ PublicApis.joined (lit ", ") types ++ nl
           ++ lit "Abilities: " ++ PublicApis.joined (lit ", ") abilities ++ nl
           ++ lit "Sprite: " ++ spriteText)), w1).
Proof.
  intros G O J Hn Hi Hh Hw Ht Ft Ha Fa Hs Hf Hx.
  unfold PublicApis.searchPokemon, try_catch.
  assert (B : forall rest : HttpResponse -> Eff W Value,
            bind (PublicApis.get host
                    (if negb (isNaN (PublicApis.Number_of builtins query))
                     then lit "https://pokeapi.co/api/v2/pokemon/" ++ query
                     else lit "https://pokeapi.co/api/v2/pokemon/"
                          ++ PublicApis.toLowerCase builtins query)) rest w
            = rest response w1).
  { intros rest. unfold bind. destruct (isNaN _); cbn [negb] in *; now rewrite G. }
  rewrite B. rewrite O. cbn [negb].
  unfold bind at 1, lift at 1. rewrite J.
  cbn [prop]. rewrite Hn, Hi, Hh, Hw, Ht, Ha, Hs.
  do 5 (unfold bind at 1, lift at 1).
  unfold bind at 1. rewrite (namesOf_entries _ _ _ Ft).
  unfold bind at 1, lift at 1.
  unfold bind at 1. rewrite (namesOf_entries _ _ _ Fa).
  unfold bind at 1, lift at 1.
  unfold bind at 1, lift at 1. rewrite Hf.
  unfold PublicApis.str. cbn [PublicApis.toString].
  do 4 (unfold bind at 1, lift at 1).
  unfold bind at 1, lift at 1. rewrite Hx.
  reflexivity.
Qed.

(** *** The tools export *)

Variable store : option (Agent W).
Variable unstable_scheduleSchema : Schema ScheduleArgs.


End PublicApiFacts.

Lemma unknown_place_is_reported_witness :
  PublicApis.getWeatherInformation (Fixture.answering (Fixture.jsonAnswer (VObj [])))
    Fixture.builtins (lit "Atlantis") (Fixture.fresh 0)
  = (Returned (content (lit "City " ++ dquote ++ lit "Atlantis" ++ dquote
       ++ lit " not found. Please check the spelling or try a different city name.")),
     Fixture.fresh 0)
  /\ PublicApis.getLocalTime (Fixture.answering (Fixture.jsonAnswer (VObj [])))
       Fixture.builtins (lit "Atlantis") (Fixture.fresh 0)
     = (Returned
          (VObj [(lit "content",
                  VArr [textItem (VStr (lit "Location " ++ dquote ++ lit "Atlantis" ++ dquote
                    ++ lit " not found. Please check the spelling or try a different location name."))]);
                 (lit "type", VStr (lit "text"))]), Fixture.fresh 0).
Proof.
  apply (@unknown_place_is_reported Fixture.W
           (Fixture.answering (Fixture.jsonAnswer (VObj []))) Fixture.builtins
           (lit "Atlantis") (lit "Atlantis") (Fixture.jsonAnswer (VObj []))
           (VObj []) VUndefined (Fixture.fresh 0) (Fixture.fresh 0));
    try reflexivity.
  left; reflexivity.
Defined.

Lemma search_and_time_tools_ask_once_witness :
  snd (PublicApis.getLocalTime Fixture.openMeteo Fixture.builtins (lit "Berlin")
         (Fixture.fresh 0))
  = snd (PublicApis.get Fixture.openMeteo
           (lit "https://geocoding-api.open-meteo.com/v1/search?name=" ++ lit "Berlin"
            ++ lit "&count=1&language=en&format=json") (Fixture.fresh 0)).
Proof.
  apply (proj2 (proj2 (@search_and_time_tools_ask_once Fixture.W Fixture.openMeteo
                         Fixture.builtins (Fixture.fresh 0))) (lit "Berlin")).
  intros w0; reflexivity.
Defined.

Lemma searchPokemon_reports_http_errors_witness :
  PublicApis.searchPokemon (Fixture.answering (Fixture.refusal 404)) Fixture.builtins
    (lit "Missingno") (Fixture.fresh 0)
  = (Returned
       (content
          (if (status (Fixture.refusal 404) =? 404)%N
           then lit "No " ++ PublicApis.Pokemon ++ lit " found with the name or ID "
                ++ dquote ++ lit "Missingno" ++ dquote
           else lit "Failed to fetch " ++ PublicApis.Pokemon
                ++ lit " details. Error: Error: HTTP error! status: "
                ++ decimal (status (Fixture.refusal 404)))), Fixture.fresh 0).
Proof.
  apply (@searchPokemon_reports_http_errors Fixture.W
           (Fixture.answering (Fixture.refusal 404)) Fixture.builtins
           (lit "Missingno") (Fixture.refusal 404) (Fixture.fresh 0) (Fixture.fresh 0));
    reflexivity.
Defined.

Lemma one_unreadable_country_fails_the_search_witness :
  exists why,
    PublicApis.searchCountry
      (Fixture.answering (Fixture.jsonAnswer (VArr [Fixture.antarctica; VNull])))
      Fixture.builtins {| sc_name := lit "ant"; fullName := false |} (Fixture.fresh 0)
    = (Returned (content (lit "Failed to fetch country details. Error: " ++ why)),
       Fixture.fresh 0).
Proof.
  apply (@one_unreadable_country_fails_the_search Fixture.W
           (Fixture.answering (Fixture.jsonAnswer (VArr [Fixture.antarctica; VNull])))
           Fixture.builtins {| sc_name := lit "ant"; fullName := false |} (lit "ant")
           (Fixture.jsonAnswer (VArr [Fixture.antarctica; VNull]))
           [Fixture.antarctica; VNull] VNull (Fixture.fresh 0) (Fixture.fresh 0));
    try reflexivity.
  - right; left; reflexivity.
  - left; reflexivity.
Defined.

Lemma formatted_country_has_no_empty_field_witness :
  exists common official capital region population languages currencies flag,
    VObj [(lit "name", VStr (lit "Antarctica"));
          (lit "officialName", VStr (lit "Antarctica"));
          (lit "capital", VStr (lit "N/A"));
          (lit "region", VStr (lit "Antarctic"));
          (lit "population", VStr (lit "1000"));
          (lit "languages", VStr (lit "N/A"));
          (lit "currencies", VStr (lit "N/A"));
          (lit "flag", VStr (lit "https://flagcdn.com/w320/aq.png"))]
    = VObj [(lit "name", common); (lit "officialName", official);
            (lit "capital", capital); (lit "region", region);
            (lit "population", VStr population); (lit "languages", VStr languages);
            (lit "currencies", VStr currencies); (lit "flag", flag)]
    /\ truthy capital = true
    /\ languages <> []
    /\ currencies <> [].
Proof.
  apply (@formatted_country_has_no_empty_field Fixture.W Fixture.host Fixture.builtins
           Fixture.antarctica
           (VObj [(lit "name", VStr (lit "Antarctica"));
                  (lit "officialName", VStr (lit "Antarctica"));
                  (lit "capital", VStr (lit "N/A"));
                  (lit "region", VStr (lit "Antarctic"));
                  (lit "population", VStr (lit "1000"));
                  (lit "languages", VStr (lit "N/A"));
                  (lit "currencies", VStr (lit "N/A"));
                  (lit "flag", VStr (lit "https://flagcdn.com/w320/aq.png"))])
           (Fixture.fresh 0) (Fixture.fresh 0)).
  reflexivity.
Defined.

(** The text is [Pokemon: pikachu (ID: 25)], with the accent, and the
    lines [Height: 4], [Weight: 60], [Types: electric], [Abilities:
    static, lightning-rod], [Sprite: null]. *)
Lemma searchPokemon_formats_the_answer_witness :
  PublicApis.searchPokemon (Fixture.answering (Fixture.jsonAnswer Fixture.pikachu))
    Fixture.builtins (lit "Pikachu") (Fixture.fresh 0)
  = (Returned
       (content
          (PublicApis.Pokemon ++ lit ": " ++ lit "pikachu"
           ++ lit " (ID: " ++ lit "25" ++ lit ")" ++ nl
           ++ lit "Height: " ++ lit "4" ++ nl
           ++ lit "Weight: " ++ lit "60" ++ nl
           ++ lit "Types: " ++ PublicApis.joined (lit ", ") [lit "electric"] ++ nl
           ++ lit "Abilities: "
           ++ PublicApis.joined (lit ", ") [lit "static"; lit "lightning-rod"] ++ nl
           ++ lit "Sprite: " ++ lit "null")), Fixture.fresh 0).
Proof.
  refine (@searchPokemon_formats_the_answer Fixture.W
            (Fixture.answering (Fixture.jsonAnswer Fixture.pikachu)) Fixture.builtins
            (lit "Pikachu") (Fixture.jsonAnswer Fixture.pikachu)
            (Fixture.fresh 0) (Fixture.fresh 0)
            [(lit "name", VStr (lit "pikachu"));
             (lit "id", VNum 25%float);
             (lit "height", VNum 4%float);
             (lit "weight", VNum 60%float);
             (lit "types",
              VArr [VObj [(lit "slot", VNum 1%float);
                          (lit "type", VObj [(lit "name", VStr (lit "electric"))])]]);
             (lit "abilities",
              VArr [VObj [(lit "ability", VObj [(lit "name", VStr (lit "static"))])];
                    VObj [(lit "ability",
                           VObj [(lit "name", VStr (lit "lightning-rod"))])]]);
             (lit "sprites", VObj [(lit "front_default", VNull)])]
            (lit "pikachu") 25%float 4%float 60%float
            [VObj [(lit "slot", VNum 1%float);
                   (lit "type", VObj [(lit "name", VStr (lit "electric"))])]]
            [VObj [(lit "ability", VObj [(lit "name", VStr (lit "static"))])];
             VObj [(lit "ability", VObj [(lit "name", VStr (lit "lightning-rod"))])]]
            [lit "electric"] [lit "static"; lit "lightning-rod"]
            (VObj [(lit "front_default", VNull)]) VNull (lit "null")
            _ _ _ _ _ _ _ _ _ _ _ _ _ _); try reflexivity.
  - constructor; [|constructor].
    exists (VObj [(lit "name", VStr (lit "electric"))]). split; reflexivity.
  - constructor; [|constructor; [|constructor]].
    + exists (VObj [(lit "name", VStr (lit "static"))]). split; reflexivity.
    + exists (VObj [(lit "name", VStr (lit "lightning-rod"))]). split; reflexivity.
Defined.


(** ** The four bodies on the stand-ins

    The texts below are the templates of the source with the values
    filled in, as UTF-16 code units. *)

(** [Weather in Berlin, Land Berlin, Germany], 21 degrees (feels like
    20), humidity 40%, [Slight rain], 0mm, wind 12 km/h from 270 degrees. *)
Example weather_in_berlin :
  PublicApis.getWeatherInformation Fixture.openMeteo Fixture.builtins (lit "Berlin")
    (Fixture.fresh 0)
  = (Returned (content
     [55356; 57124; 65039; 32; 42; 42; 87; 101; 97; 116; 104; 101; 114; 32; 105; 110;
      32; 66; 101; 114; 108; 105; 110; 44; 32; 76; 97; 110; 100; 32; 66; 101; 114; 108;
      105; 110; 44; 32; 71; 101; 114; 109; 97; 110; 121; 42; 42; 10; 10; 55356; 57121;
      65039; 32; 42; 42; 84; 101; 109; 112; 101; 114; 97; 116; 117; 114; 101; 42; 42;
      58; 32; 50; 49; 176; 67; 32; 40; 102; 101; 101; 108; 115; 32; 108; 105; 107; 101;
      32; 50; 48; 176; 67; 41; 10; 55357; 56487; 32; 42; 42; 72; 117; 109; 105; 100;
      105; 116; 121; 42; 42; 58; 32; 52; 48; 37; 10; 55356; 57126; 65039; 32; 42; 42;
      67; 111; 110; 100; 105; 116; 105; 111; 110; 115; 42; 42; 58; 32; 83; 108; 105;
      103; 104; 116; 32; 114; 97; 105; 110; 10; 55356; 57127; 65039; 32; 42; 42; 80;
      114; 101; 99; 105; 112; 105; 116; 97; 116; 105; 111; 110; 42; 42; 58; 32; 48;
      109; 109; 10; 55357; 56488; 32; 42; 42; 87; 105; 110; 100; 42; 42; 58; 32; 49;
      50; 32; 107; 109; 47; 104; 32; 102; 114; 111; 109; 32; 50; 55; 48; 176; 32; 100;
      105; 114; 101; 99; 116; 105; 111; 110; 10; 10; 42; 68; 97; 116; 97; 32; 112; 114;
      111; 118; 105; 100; 101; 100; 32; 98; 121; 32; 79; 112; 101; 110; 45; 77; 101;
      116; 101; 111; 32; 65; 80; 73; 42]%N),
     Fixture.fresh 0).
Proof. vm_compute. reflexivity. Qed.

(** [Local Time in Berlin, Land Berlin, Germany], with the clock of the
    stand-in and [Morning] for nine o'clock. *)
Example local_time_in_berlin :
  PublicApis.getLocalTime Fixture.openMeteo Fixture.builtins (lit "Berlin")
    (Fixture.fresh 0)
  = (Returned (content
     [55357; 56656; 32; 42; 42; 76; 111; 99; 97; 108; 32; 84; 105; 109; 101; 32; 105;
      110; 32; 66; 101; 114; 108; 105; 110; 44; 32; 76; 97; 110; 100; 32; 66; 101; 114;
      108; 105; 110; 44; 32; 71; 101; 114; 109; 97; 110; 121; 42; 42; 10; 10; 9200; 32;
      42; 42; 67; 117; 114; 114; 101; 110; 116; 32; 84; 105; 109; 101; 42; 42; 58; 32;
      57; 10; 55356; 57101; 32; 42; 42; 84; 105; 109; 101; 122; 111; 110; 101; 42; 42;
      58; 32; 57; 10; 55356; 57093; 32; 77; 111; 114; 110; 105; 110; 103; 10; 10; 42;
      68; 97; 116; 97; 32; 112; 114; 111; 118; 105; 100; 101; 100; 32; 98; 121; 32; 79;
      112; 101; 110; 45; 77; 101; 116; 101; 111; 32; 71; 101; 111; 99; 111; 100; 105;
      110; 103; 32; 65; 80; 73; 42]%N),
     Fixture.fresh 0).
Proof. vm_compute. reflexivity. Qed.

(** The six lines for pikachu, [Sprite: null] included. *)
Example pikachu_details :
  PublicApis.searchPokemon (Fixture.answering (Fixture.jsonAnswer Fixture.pikachu))
    Fixture.builtins (lit "Pikachu") (Fixture.fresh 0)
  = (Returned (content
     [80; 111; 107; 233; 109; 111; 110; 58; 32; 112; 105; 107; 97; 99; 104; 117; 32;
      40; 73; 68; 58; 32; 50; 53; 41; 10; 72; 101; 105; 103; 104; 116; 58; 32; 52; 10;
      87; 101; 105; 103; 104; 116; 58; 32; 54; 48; 10; 84; 121; 112; 101; 115; 58; 32;
      101; 108; 101; 99; 116; 114; 105; 99; 10; 65; 98; 105; 108; 105; 116; 105; 101;
      115; 58; 32; 115; 116; 97; 116; 105; 99; 44; 32; 108; 105; 103; 104; 116; 110;
      105; 110; 103; 45; 114; 111; 100; 10; 83; 112; 114; 105; 116; 101; 58; 32; 110;
      117; 108; 108]%N),
     Fixture.fresh 0).
Proof. vm_compute. reflexivity. Qed.

(** [No Pokemon found with the name or ID "Missingno"] *)
Example no_such_pokemon :
  fst (PublicApis.searchPokemon (Fixture.answering (Fixture.refusal 404))
         Fixture.builtins (lit "Missingno") (Fixture.fresh 0))
  = Returned (content
     [78; 111; 32; 80; 111; 107; 233; 109; 111; 110; 32; 102; 111; 117; 110; 100; 32;
      119; 105; 116; 104; 32; 116; 104; 101; 32; 110; 97; 109; 101; 32; 111; 114; 32;
      73; 68; 32; 34; 77; 105; 115; 115; 105; 110; 103; 110; 111; 34]%N).
Proof. vm_compute. reflexivity. Qed.

(** [Failed to fetch Pokemon details. Error: Error: HTTP error! status: 500] *)
Example pokemon_api_down :
  fst (PublicApis.searchPokemon (Fixture.answering (Fixture.refusal 500))
         Fixture.builtins (lit "25") (Fixture.fresh 0))
  = Returned (content
     [70; 97; 105; 108; 101; 100; 32; 116; 111; 32; 102; 101; 116; 99; 104; 32; 80;
      111; 107; 233; 109; 111; 110; 32; 100; 101; 116; 97; 105; 108; 115; 46; 32; 69;
      114; 114; 111; 114; 58; 32; 69; 114; 114; 111; 114; 58; 32; 72; 84; 84; 80; 32;
      101; 114; 114; 111; 114; 33; 32; 115; 116; 97; 116; 117; 115; 58; 32; 53; 48; 48]%N).
Proof. vm_compute. reflexivity. Qed.

Example country_without_details :
  fst (PublicApis.searchCountry
         (Fixture.answering (Fixture.jsonAnswer (VArr [Fixture.antarctica])))
         Fixture.builtins {| sc_name := lit "antarctica"; fullName := true |}
         (Fixture.fresh 0))
  = Returned
      (content
         (Fixture.JSON_stringify
            (VArr [VObj [(lit "name", VStr (lit "Antarctica"));
                         (lit "officialName", VStr (lit "Antarctica"));
                         (lit "capital", VStr (lit "N/A"));
                         (lit "region", VStr (lit "Antarctic"));
                         (lit "population", VStr (lit "1000"));
                         (lit "languages", VStr (lit "N/A"));
                         (lit "currencies", VStr (lit "N/A"));
                         (lit "flag", VStr (lit "https://flagcdn.com/w320/aq.png"))]]))).
Proof. vm_compute. reflexivity. Qed.

(** A first result that is [null] ends in the failure text, with the
    error of the destructuring pattern. *)
Example null_location_is_a_failure :
  fst (PublicApis.getWeatherInformation
         (Fixture.answering (Fixture.jsonAnswer (VObj [(lit "results", VArr [VNull])])))
         Fixture.builtins (lit "Berlin") (Fixture.fresh 0))
  = Returned
      (content (lit "Failed to get weather information for " ++ dquote ++ lit "Berlin"
                ++ dquote
                ++ lit ". Error: TypeError: Cannot destructure property 'latitude' of 'location' as it is null.")).
Proof. vm_compute. reflexivity. Qed.

Example toString_values :
  PublicApis.toString Fixture.host
    (VArr [VNum 1%float; VNull; VArr [VStr (lit "a"); VBool true]; VObj []])
  = Returned (lit "1,,a,true,[object Object]")
  /\ PublicApis.toString Fixture.host (VObj [(lit "toString", VNum 1%float)])
     = Thrown (TypeError (lit "Cannot convert object to primitive value")).
Proof. split; reflexivity. Qed.

(** [Object.values({ b: 1, "2": 2, "1": 3, "01": 4 })] is [[3, 2, 1, 4]]. *)
Example values_in_key_order :
  PublicApis.Object_values
    (VObj [(lit "b", VNum 1%float); (lit "2", VNum 2%float);
           (lit "1", VNum 3%float); (lit "01", VNum 4%float)])
  = [VNum 3%float; VNum 2%float; VNum 1%float; VNum 4%float].
Proof. reflexivity. Qed.

Example hours_of_the_day :
  map PublicApis.timeOfDay [4%float; 5%float; 11.5%float; 12%float; 17%float; 21%float; nan]
  = [PublicApis.crescent_moon ++ lit " Night";
     PublicApis.sunrise ++ lit " Morning";
     PublicApis.sunrise ++ lit " Morning";
     PublicApis.sun ++ lit " Afternoon";
     PublicApis.cityscape_at_dusk ++ lit " Evening";
     PublicApis.crescent_moon ++ lit " Night";
     PublicApis.crescent_moon ++ lit " Night"].
Proof. reflexivity. Qed.

(** The environment variables are read as the source reads them: a
    variable that is set wins over the fallback, an empty one does not. *)
Example env_or_reads_the_variable :
  env_or (Fixture.withToken (Fixture.jsonAnswer VNull)) (lit "CLOUDFLARE_API_TOKEN") (lit "none")
  = lit "s3cret"
  /\ env_or Fixture.host (lit "CLOUDFLARE_ZONE_ID") (lit "a37b5b3eca17274d2ca0cbc97a950636")
     = lit "a37b5b3eca17274d2ca0cbc97a950636".
Proof. split; reflexivity. Qed.
